(** * Pattern-Studio: the pattern engine and its specification

    A shallow embedding of [services/patternEngine.ts] (class
    [PatternEngine]) together with the data types of [types.ts].

    Numbers.  A JavaScript [number] is modelled by a real number of the
    Standard Library; arithmetic is therefore exact, and [NaN] only
    appears where the source reads past the end of a typed array (there it
    is modelled by [None]).  [Math.floor] and [Math.ceil] return integers,
    which are injected back with [IZR] at their use sites.

    Randomness.  [Math.random()] reads the next element of a sequence of
    draws that is threaded through the computation; a sequence is
    [well_drawn] when all its elements lie in [[0,1)].

    Division by zero and non-finite numbers ([Infinity], [NaN] from
    arithmetic) are outside the model.

    Canvas.  A 2D context is modelled by the list of drawing commands
    issued on it, in order.  [render] lists the commands the source
    issues when every call returns; [executed] cuts a run at the first
    command that throws. *)

From Stdlib Require Import Reals Lra Lia ZArith List String Ascii Bool.
Import ListNotations.
Open Scope R_scope.

(** ** Numeric primitives of the JavaScript runtime *)

Module Math.

Definition floor (x : R) : Z := (up x - 1)%Z.

Definition ceil (x : R) : Z := (- floor (- x))%Z.

Definition max (a b : R) : R := Rmax a b.

Definition pow (a : R) (n : nat) : R := a ^ n.

End Math.

Definition Rltb (a b : R) : bool := if Rlt_dec a b then true else false.
Definition Rleb (a b : R) : bool := if Rle_dec a b then true else false.
Definition Rgtb (a b : R) : bool := Rltb b a.
Definition Rgeb (a b : R) : bool := Rleb b a.

Infix "<?" := Rltb (at level 70, no associativity) : R_scope.
Infix "<=?" := Rleb (at level 70, no associativity) : R_scope.
Infix ">?" := Rgtb (at level 70, no associativity) : R_scope.
Infix ">=?" := Rgeb (at level 70, no associativity) : R_scope.

(** A value read from a typed array: [None] stands for [undefined], and
    for the [NaN] that arithmetic on [undefined] produces.  Comparisons
    with [NaN] are false. *)
Definition JsNum := option R.

Definition num_add (a b : JsNum) : JsNum :=
  match a, b with
  | Some u, Some v => Some (u + v)
  | _, _ => None
  end.

Definition num_div (a : JsNum) (d : R) : JsNum :=
  match a with
  | Some u => Some (u / d)
  | None => None
  end.

Definition num_gtb (a : JsNum) (c : R) : bool :=
  match a with
  | Some u => u >? c
  | None => false
  end.

Definition num_ltb (a : JsNum) (c : R) : bool :=
  match a with
  | Some u => u <? c
  | None => false
  end.

(** [a[i]] for an array and an integer index: [undefined] out of range. *)
Definition js_index {A : Type} (l : list A) (i : Z) : option A :=
  if (i <? 0)%Z then None else nth_error l (Z.to_nat i).

(** [data[i]] for a [Uint8ClampedArray] and a numeric index: an index that
    is not a non-negative integer below the length reads [undefined]. *)
Definition typed_array_get (data : list Z) (i : R) : JsNum :=
  let k := Math.floor i in
  if Req_dec_T (IZR k) i then option_map IZR (js_index data k) else None.

(** Truthiness of a string value: the empty string is falsy. *)
Definition truthy (s : string) : bool :=
  match s with
  | EmptyString => false
  | String _ _ => true
  end.

(** ** Random draws, failure and sequencing *)

Definition RandomSource := nat -> R.

Definition well_drawn (s : RandomSource) : Prop := forall n, 0 <= s n < 1.

(** A computation consumes draws and either returns a value with the
    remaining draws, or has no result ([None]): the source throws a
    [TypeError], or the iteration bound of a modelled loop is exceeded. *)
Definition M (A : Type) : Type := RandomSource -> option (A * RandomSource).

Definition ret {A : Type} (a : A) : M A := fun s => Some (a, s).

Definition fail {A : Type} : M A := fun _ => None.

Definition bind {A B : Type} (m : M A) (k : A -> M B) : M B :=
  fun s =>
    match m s with
    | Some (a, s') => k a s'
    | None => None
    end.

Notation "x <- m ;; k" := (bind m (fun x => k))
  (at level 61, m at next level, right associativity).

Definition Math_random : M R :=
  fun s => Some (s 0%nat, fun n => s (S n)).

Definition of_option {A : Type} (o : option A) : M A :=
  match o with
  | Some a => ret a
  | None => fail
  end.

(** [for (let i = 0; i < bound; i++) acc = body(i, acc)] for an integer
    bound: the body runs for [i = from, from+1, ...], [n] times. *)
Fixpoint for_from {A : Type} (n from : nat) (body : nat -> A -> M A) (acc : A)
  : M A :=
  match n with
  | O => ret acc
  | S n' => acc' <- body from acc ;; for_from n' (S from) body acc'
  end.

Definition for_range {A : Type} (bound : Z) (body : nat -> A -> M A) (acc : A)
  : M A :=
  for_from (Z.to_nat bound) 0 body acc.

(** ** A JavaScript [Map] with string keys: insertion-ordered, and [set]
    on a present key replaces the value in place. *)

Module JsMap.

Definition t (V : Type) : Type := list (string * V).

Definition clear {V : Type} (m : t V) : t V := [].

Fixpoint get {V : Type} (m : t V) (k : string) : option V :=
  match m with
  | [] => None
  | (k', v) :: m' => if String.eqb k' k then Some v else get m' k
  end.

Fixpoint set {V : Type} (m : t V) (k : string) (v : V) : t V :=
  match m with
  | [] => [(k, v)]
  | (k', v') :: m' =>
      if String.eqb k' k then (k', v) :: m' else (k', v') :: set m' k v
  end.

Definition size {V : Type} (m : t V) : nat := List.length m.

Definition values {V : Type} (m : t V) : list V := List.map snd m.

End JsMap.

(** ** Data types ([types.ts]) *)

Module HTMLImageElement.
Record t : Type := mk { src : string; width : R; height : R }.
End HTMLImageElement.

Inductive Mode : Type := random | grid.

Module PatternConfig.
Record t : Type := mk {
  mode : Mode;
  density : R;
  gridGap : R;
  minSize : R;
  maxSize : R;
  rotationRandomness : bool;
  colors : list string;
  useRandomColor : bool;
  preventOverlap : bool;
  useMask : bool;
  showMaskBg : bool;
  enableAnim : bool;
  animAmplitude : R;
  animSpeed : R
}.
End PatternConfig.

Inductive AssetType : Type := svg | raster.

(** [originalFile] is never read by the engine and is left out. *)
Module ProcessedAsset.
Record t : Type := mk {
  id : string;
  type : AssetType;
  img : HTMLImageElement.t;
  aspectRatio : R;
  viewBox : option string;
  vectorContent : option string
}.
End ProcessedAsset.

(** ** The canvas: drawing commands, and what can be drawn *)

Inductive CanvasOp : Type :=
| SetFillStyle (style : string)
| SetGlobalAlpha (alpha : R)
| SetGlobalCompositeOperation (op : string)
| FillRect (x y w h : R)
| Save
| Restore
| Translate (x y : R)
| Rotate (angle : R)
| DrawImage3 (source : Drawable) (dx dy : R)
| DrawImage5 (source : Drawable) (dx dy dw dh : R)
with Drawable : Type :=
| ImageSource (image : HTMLImageElement.t)
| CanvasSource (canvas : HTMLCanvasElement)
with HTMLCanvasElement : Type :=
| Canvas (width height : R) (ops : list CanvasOp).

Definition CanvasRenderingContext2D : Type := list CanvasOp.

(** [canvas.width = v] and [canvas.height = v]: the attribute is an
    [unsigned long].  The number is truncated towards zero and wrapped
    modulo [2^32]; a value above [2^31 - 1] gives the default of the
    attribute (300 for the width, 150 for the height). *)
Definition truncate (v : R) : Z :=
  if 0 <=? v then Math.floor v else Math.ceil v.

Definition canvasDimension (v : R) (default : Z) : Z :=
  let n := (truncate v mod 2 ^ 32)%Z in
  if (n <=? 2147483647)%Z then n else default.

(** The width and height a canvas holds, given the numbers assigned to
    its attributes. *)
Definition storedWidth (canvas : HTMLCanvasElement) : Z :=
  match canvas with Canvas w _ _ => canvasDimension w 300 end.

Definition storedHeight (canvas : HTMLCanvasElement) : Z :=
  match canvas with Canvas _ h _ => canvasDimension h 150 end.

(** [drawImage] throws an [InvalidStateError] when its source is a canvas
    with a zero width or height.  (Images are loaded: the application
    registers a motif from the [onload] handler of its image.) *)
Definition throws (op : CanvasOp) : bool :=
  match op with
  | DrawImage3 (CanvasSource canvas) _ _
  | DrawImage5 (CanvasSource canvas) _ _ _ _ =>
      (storedWidth canvas =? 0)%Z || (storedHeight canvas =? 0)%Z
  | _ => false
  end.

(** The commands of a run that take effect, and whether the run
    completes: a run ends at the first command that throws. *)
Fixpoint executed (ops : list CanvasOp) : list CanvasOp * bool :=
  match ops with
  | [] => ([], true)
  | op :: rest =>
      if throws op then ([], false)
      else let (done, completed) := executed rest in (op :: done, completed)
  end.

Definition is_drawImage (op : CanvasOp) : bool :=
  match op with
  | DrawImage3 _ _ _ | DrawImage5 _ _ _ _ _ => true
  | _ => false
  end.

(** What the engine needs from the document: whether a fresh canvas hands
    out a 2D context, and the RGBA bytes read back from a canvas
    ([getImageData(0, 0, width, height).data]). *)
Record Dom : Type := {
  getContext2d : bool;
  getImageData : HTMLCanvasElement -> list Z
}.

(** The item identifier [r.toString(36).substr(2, 9)] of a draw [r] is
    kept symbolic; the engine never reads it. *)
Inductive ItemId : Type :=
| Base36Substr (r : R) (start len : nat).

Module LayoutItem.
Record t : Type := mk {
  id : ItemId;
  assetId : string;
  x : R;
  y : R;
  w : R;
  h : R;
  angle : R;
  color : option string;
  animPhase : R;
  animSpeedMul : R;
  cachedCanvas : option HTMLCanvasElement
}.
End LayoutItem.

(** ** The vector document: a template literal is the sequence of its
    literal chunks and interpolated values; numbers are kept as values. *)

Inductive Piece : Type :=
| Lit (chunk : string)
| Num (value : R)
| Str (value : string).

Definition nl : string := String "010"%char EmptyString.

Fixpoint spaces (n : nat) : string :=
  match n with
  | O => EmptyString
  | S n' => String " "%char (spaces n')
  end.

(** Literal chunks are written with ['] where the source has a double
    quote; [tpl] puts the double quotes back. *)
Fixpoint tpl (s : string) : string :=
  match s with
  | EmptyString => EmptyString
  | String c rest =>
      String (if Ascii.eqb c "'"%char then "034"%char else c) (tpl rest)
  end.

(** ** The engine ([services/patternEngine.ts]) *)

Module PatternEngine.

Import PatternConfig.

Record t : Type := mk {
  ctx : option CanvasRenderingContext2D;
  width : R;
  height : R;
  assets : JsMap.t ProcessedAsset.t;
  maskData : option (list Z);
  maskCanvas : option HTMLCanvasElement
}.

Definition new : t :=
  {| ctx := None; width := 0; height := 0; assets := [];
     maskData := None; maskCanvas := None |}.

Definition setContext (e : t) (c : CanvasRenderingContext2D) (w h : R) : t :=
  {| ctx := Some c; width := w; height := h; assets := assets e;
     maskData := maskData e; maskCanvas := maskCanvas e |}.

Definition setAssets (e : t) (l : list ProcessedAsset.t) : t :=
  {| ctx := ctx e; width := width e; height := height e;
     assets :=
       fold_left (fun m a => JsMap.set m (ProcessedAsset.id a) a) l
                 (JsMap.clear (assets e));
     maskData := maskData e; maskCanvas := maskCanvas e |}.

(** The rectangle [(drawX, drawY, drawW, drawH)] of the 'contain' fit. *)
Definition containRect (e : t) (img : HTMLImageElement.t) : R * R * R * R :=
  let imgRatio := HTMLImageElement.width img / HTMLImageElement.height img in
  let screenRatio := width e / height e in
  let '(drawW, drawH) :=
    if screenRatio >? imgRatio then
      let drawH := height e * 0.9 in
      (drawH * imgRatio, drawH)
    else
      let drawW := width e * 0.9 in
      (drawW, drawW / imgRatio) in
  let drawX := (width e - drawW) / 2 in
  let drawY := (height e - drawH) / 2 in
  (drawX, drawY, drawW, drawH).

Definition setMask (dom : Dom) (e : t) (img : option HTMLImageElement.t) : t :=
  match img with
  | None =>
      {| ctx := ctx e; width := width e; height := height e;
         assets := assets e; maskData := None; maskCanvas := None |}
  | Some img =>
      if negb (getContext2d dom) then e
      else
        let '(drawX, drawY, drawW, drawH) := containRect e img in
        let canvas :=
          Canvas (width e) (height e)
                 [DrawImage5 (ImageSource img) drawX drawY drawW drawH] in
        {| ctx := ctx e; width := width e; height := height e;
           assets := assets e;
           maskData := Some (getImageData dom canvas);
           maskCanvas := Some canvas |}
  end.

Definition createTintedCanvas (dom : Dom) (asset : ProcessedAsset.t)
           (color : string) (width height : R) : HTMLCanvasElement :=
  if negb (getContext2d dom) then
    Canvas (IZR (canvasDimension width 300)) (IZR (canvasDimension height 150)) []
  else
    Canvas (IZR (canvasDimension width 300)) (IZR (canvasDimension height 150))
           [DrawImage5 (ImageSource (ProcessedAsset.img asset)) 0 0 width height;
            SetGlobalCompositeOperation "source-in";
            SetFillStyle color;
            FillRect 0 0 width height].

Definition checkMask (e : t) (x y : R) : bool :=
  match maskData e with
  | None => true
  | Some data =>
      let px := Math.floor x in
      let py := Math.floor y in
      if (IZR px <? 0) || (IZR px >=? width e)
         || (IZR py <? 0) || (IZR py >=? height e)
      then false
      else
        let idx := (IZR py * width e + IZR px) * 4 in
        let brightness :=
          num_div (num_add (num_add (typed_array_get data idx)
                                    (typed_array_get data (idx + 1)))
                           (typed_array_get data (idx + 2))) 3 in
        let alpha := typed_array_get data (idx + 3) in
        num_gtb alpha 50 && num_ltb brightness 200
  end.

(** The two call shapes of the source share one parameter list:
    [hOrConfig] is the height when [isDirectDim], the configuration
    otherwise ([config] is then [undefined]). *)
Definition addItem (dom : Dom) (items : list LayoutItem.t)
           (asset : ProcessedAsset.t) (x y sizeOrW : R)
           (hOrConfig : R + PatternConfig.t)
           (config : option PatternConfig.t) (isDirectDim : bool)
  : M (list LayoutItem.t) :=
  dims <- (if isDirectDim then
             match hOrConfig, config with
             | inl h, Some c => ret (sizeOrW, h, c)
             | _, _ => fail
             end
           else
             match hOrConfig with
             | inr c => ret (sizeOrW, sizeOrW / ProcessedAsset.aspectRatio asset, c)
             | inl _ => fail
             end) ;;
  let '(w, h, actualConfig) := dims in
  angle <- (if rotationRandomness actualConfig then
              match mode actualConfig with
              | grid =>
                  r <- Math_random ;;
                  ret (IZR (Math.floor (r * 4)) * 90 * (PI / 180))
              | random =>
                  r <- Math_random ;;
                  ret (r * PI * 2)
              end
            else ret 0) ;;
  color <- (if useRandomColor actualConfig
               && (0 <? List.length (colors actualConfig))%nat
            then
              r <- Math_random ;;
              ret (js_index (colors actualConfig)
                     (Math.floor (r * INR (List.length (colors actualConfig)))))
            else ret None) ;;
  let cachedCanvas :=
    match color with
    | Some c => if truthy c then Some (createTintedCanvas dom asset c w h)
                else None
    | None => None
    end in
  rid <- Math_random ;;
  rphase <- Math_random ;;
  rspeed <- Math_random ;;
  ret (items ++
       [ {| LayoutItem.id := Base36Substr rid 2 9;
            LayoutItem.assetId := ProcessedAsset.id asset;
            LayoutItem.x := x; LayoutItem.y := y;
            LayoutItem.w := w; LayoutItem.h := h;
            LayoutItem.angle := angle;
            LayoutItem.color := color;
            LayoutItem.cachedCanvas := cachedCanvas;
            LayoutItem.animPhase := rphase * PI * 2;
            LayoutItem.animSpeedMul := 0.8 + rspeed * 0.4 |} ]).

(** The collision test of Random mode: the [for ... of items] loop with
    its [break], as a search through the items placed so far. *)
Definition overlaps (items : list LayoutItem.t) (x y w h : R) : bool :=
  let r := Math.max w h / 2 * 0.8 in
  existsb
    (fun item =>
       let dist :=
         sqrt (Math.pow (x - LayoutItem.x item) 2
               + Math.pow (y - LayoutItem.y item) 2) in
       let itemR :=
         Math.max (LayoutItem.w item) (LayoutItem.h item) / 2 * 0.8 in
       dist <? r + itemR)
    items.

Definition maskRejects (e : t) (config : PatternConfig.t) (x y : R) : bool :=
  match useMask config, maskData e with
  | true, Some _ => negb (checkMask e x y)
  | _, _ => false
  end.

(** The [while] loop of Random mode.  [fuel] bounds the number of
    iterations of the model; running out of it while the loop condition
    still holds gives no result. *)
Fixpoint randomLoop (dom : Dom) (e : t) (config : PatternConfig.t)
         (assetList : list ProcessedAsset.t) (maxAttempts : R)
         (fuel count attempts : nat) (items : list LayoutItem.t)
  : M (list LayoutItem.t) :=
  if (INR count <? density config) && (INR attempts <? maxAttempts) then
    match fuel with
    | O => fail
    | S fuel' =>
        let attempts := S attempts in
        rx <- Math_random ;;
        let x := rx * width e in
        ry <- Math_random ;;
        let y := ry * height e in
        if maskRejects e config x y then
          randomLoop dom e config assetList maxAttempts fuel' count attempts items
        else
          rs <- Math_random ;;
          let size := rs * (maxSize config - minSize config) + minSize config in
          ra <- Math_random ;;
          asset <- of_option
                     (js_index assetList
                        (Math.floor (ra * INR (List.length assetList)))) ;;
          let w := size in
          let h := size / ProcessedAsset.aspectRatio asset in
          if preventOverlap config && overlaps items x y w h then
            randomLoop dom e config assetList maxAttempts fuel' count attempts items
          else
            items' <- addItem dom items asset x y w (inl h) (Some config) true ;;
            randomLoop dom e config assetList maxAttempts fuel' (S count) attempts items'
    end
  else ret items.

(** One cell of the grid: the body of the inner [for] loop. *)
Definition gridCell (dom : Dom) (e : t) (config : PatternConfig.t)
           (assetList : list ProcessedAsset.t)
           (startX startY step iconSize : R) (r c : nat)
           (items : list LayoutItem.t) : M (list LayoutItem.t) :=
  let x := startX + INR c * step in
  let y := startY + INR r * step in
  if maskRejects e config x y then ret items
  else
    ra <- Math_random ;;
    asset <- of_option
               (js_index assetList
                  (Math.floor (ra * INR (List.length assetList)))) ;;
    addItem dom items asset x y iconSize (inr config) None false.

Definition generateLayout (dom : Dom) (e : t) (config : PatternConfig.t)
  : M (list LayoutItem.t) :=
  let items : list LayoutItem.t := [] in
  if (JsMap.size (assets e) =? 0)%nat then ret items
  else
    let assetList := JsMap.values (assets e) in
    match mode config with
    | grid =>
        let iconSize := maxSize config in
        let step := iconSize + gridGap config in
        if step <=? 0 then ret items
        else
          let cols := (Math.ceil (width e / step) + 1)%Z in
          let rows := (Math.ceil (height e / step) + 1)%Z in
          let startX := (width e - IZR cols * step) / 2 + step / 2 in
          let startY := (height e - IZR rows * step) / 2 + step / 2 in
          for_range rows
            (fun r items =>
               for_range cols
                 (gridCell dom e config assetList startX startY step iconSize r)
                 items)
            items
    | random =>
        let maxAttempts := density config * 50 in
        randomLoop dom e config assetList maxAttempts
                   (Z.to_nat (Math.ceil maxAttempts)) 0 0 items
    end.

(** The animation offsets [(dx, dy, dRot)] of one item in [render]. *)
Definition animOffsets (config : PatternConfig.t) (time : R)
           (item : LayoutItem.t) : R * R * R :=
  let amp := animAmplitude config in
  let speed := animSpeed config * 0.002 in
  if enableAnim config then
    let dy :=
      sin (time * speed * LayoutItem.animSpeedMul item
           + LayoutItem.animPhase item) * amp in
    let dx :=
      cos (time * speed * LayoutItem.animSpeedMul item * 0.7
           + LayoutItem.animPhase item) * (amp * 0.5) in
    let dRot := sin (time * speed * LayoutItem.animSpeedMul item * 0.5) * 0.05 in
    (dx, dy, dRot)
  else (0, 0, 0).

(** The image drawn for one item, if any. *)
Definition drawItem (e : t) (item : LayoutItem.t) : list CanvasOp :=
  match LayoutItem.cachedCanvas item with
  | Some cached =>
      [DrawImage3 (CanvasSource cached)
                  (- LayoutItem.w item / 2) (- LayoutItem.h item / 2)]
  | None =>
      match JsMap.get (assets e) (LayoutItem.assetId item) with
      | Some asset =>
          [DrawImage5 (ImageSource (ProcessedAsset.img asset))
                      (- LayoutItem.w item / 2) (- LayoutItem.h item / 2)
                      (LayoutItem.w item) (LayoutItem.h item)]
      | None => []
      end
  end.

(** The commands of one iteration of the loop of [render]. *)
Definition renderItem (e : t) (config : PatternConfig.t) (time : R)
           (item : LayoutItem.t) : list CanvasOp :=
  let '(dx, dy, dRot) := animOffsets config time item in
  [Save;
   Translate (LayoutItem.x item + dx) (LayoutItem.y item + dy);
   Rotate (LayoutItem.angle item + dRot)]
  ++ drawItem e item
  ++ [Restore].

Definition render (e : t) (items : list LayoutItem.t)
           (config : PatternConfig.t) (time : R) : t :=
  match ctx e with
  | None => e
  | Some c0 =>
      let c1 := c0 ++ [SetFillStyle "#ffffff"; FillRect 0 0 (width e) (height e)] in
      let c2 :=
        match useMask config && showMaskBg config, maskCanvas e with
        | true, Some mc =>
            c1 ++ [Save; SetGlobalAlpha 0.1;
                   DrawImage3 (CanvasSource mc) 0 0; Restore]
        | _, _ => c1
        end in
      let c3 :=
        fold_left (fun c item => c ++ renderItem e config time item) items c2 in
      {| ctx := Some c3; width := width e; height := height e;
         assets := assets e; maskData := maskData e;
         maskCanvas := maskCanvas e |}
  end.

Definition colorAttr (item : LayoutItem.t) : string :=
  match LayoutItem.color item with
  | Some c => if truthy c then tpl "fill='" ++ c ++ tpl "'" else EmptyString
  | None => EmptyString
  end.

Definition isVector (asset : ProcessedAsset.t) : option string :=
  match ProcessedAsset.type asset, ProcessedAsset.vectorContent asset with
  | svg, Some body => if truthy body then Some body else None
  | _, _ => None
  end.

Definition groupOpen (item : LayoutItem.t) : list Piece :=
  let deg := LayoutItem.angle item * (180 / PI) in
  [Lit (nl ++ spaces 16 ++ tpl "<g transform='translate(");
   Num (LayoutItem.x item); Lit ", "; Num (LayoutItem.y item);
   Lit ") rotate("; Num deg].

Definition boxAttrs (item : LayoutItem.t) : list Piece :=
  [Lit (tpl "' x='"); Num (- LayoutItem.w item / 2);
   Lit (tpl "' y='"); Num (- LayoutItem.h item / 2);
   Lit (tpl "' width='"); Num (LayoutItem.w item);
   Lit (tpl "' height='"); Num (LayoutItem.h item)].

(** The text appended for one item: the body of the [forEach] callback. *)
Definition exportItem (e : t) (item : LayoutItem.t) : list Piece :=
  match JsMap.get (assets e) (LayoutItem.assetId item) with
  | None => []
  | Some asset =>
      match isVector asset with
      | Some body =>
          groupOpen item
          ++ [Lit (tpl ")'>" ++ nl ++ spaces 20 ++ tpl "<svg x='");
              Num (- LayoutItem.w item / 2);
              Lit (tpl "' y='"); Num (- LayoutItem.h item / 2);
              Lit (tpl "' width='"); Num (LayoutItem.w item);
              Lit (tpl "' height='"); Num (LayoutItem.h item);
              Lit (tpl "' viewBox='");
              Str (match ProcessedAsset.viewBox asset with
                   | Some vb => vb
                   | None => "undefined"
                   end);
              Lit (tpl "' ");
              Str (colorAttr item);
              Lit (tpl " style='overflow: visible;'>" ++ nl ++ spaces 24);
              Str body;
              Lit (nl ++ spaces 20 ++ "</svg>" ++ nl ++ spaces 16 ++ "</g>")]
      | None =>
          groupOpen item
          ++ [Lit (tpl ")'>" ++ nl ++ spaces 20 ++ tpl "<image href='");
              Str (HTMLImageElement.src (ProcessedAsset.img asset))]
          ++ boxAttrs item
          ++ [Lit (tpl "' />" ++ nl ++ spaces 16 ++ "</g>")]
      end
  end.

Definition exportSVG (e : t) (items : list LayoutItem.t) : list Piece :=
  let content :=
    [Lit (tpl "<svg width='"); Num (width e);
     Lit (tpl "' height='"); Num (height e);
     Lit (tpl "' xmlns='http://www.w3.org/2000/svg' xmlns:xlink='http://www.w3.org/1999/xlink'>")] in
  let content :=
    fold_left (fun content item => content ++ exportItem e item) items content in
  content ++ [Lit "</svg>"].

End PatternEngine.

Import PatternEngine.

(** ** What the specification says, as definitions *)

(** The rotation policy of an item generated under [cfg]. *)
Definition anglePolicy (cfg : PatternConfig.t) (a : R) : Prop :=
  if PatternConfig.rotationRandomness cfg then
    match PatternConfig.mode cfg with
    | grid => a = 0 \/ a = PI / 2 \/ a = PI \/ a = 3 * PI / 2
    | random => 0 <= a < 2 * PI
    end
  else a = 0.

(** [it] is an item placed under [cfg] for [asset] at [(x, y)] with
    dimensions [(w, h)]. *)
Record placed (cfg : PatternConfig.t) (asset : ProcessedAsset.t)
       (x y w h : R) (it : LayoutItem.t) : Prop := {
  placed_asset : LayoutItem.assetId it = ProcessedAsset.id asset;
  placed_x : LayoutItem.x it = x;
  placed_y : LayoutItem.y it = y;
  placed_w : LayoutItem.w it = w;
  placed_h : LayoutItem.h it = h;
  placed_angle : anglePolicy cfg (LayoutItem.angle it)
}.

(** Masking takes no part in a run: it is disabled, or no mask is built. *)
Definition maskInactive (e : PatternEngine.t) (cfg : PatternConfig.t) : Prop :=
  PatternConfig.useMask cfg = false \/ maskData e = None.

(** Two items keep the distance that overlap prevention asks for. *)
Definition apart (a b : LayoutItem.t) : Prop :=
  sqrt ((LayoutItem.x a - LayoutItem.x b) ^ 2
        + (LayoutItem.y a - LayoutItem.y b) ^ 2)
  >= 0.8 * Rmax (LayoutItem.w a) (LayoutItem.h a) / 2
     + 0.8 * Rmax (LayoutItem.w b) (LayoutItem.h b) / 2.

Definition pairwiseApart (items : list LayoutItem.t) : Prop :=
  forall i j a b,
    i <> j -> nth_error items i = Some a -> nth_error items j = Some b ->
    apart a b.

(** The registry is a map from identifiers to the motif carrying it. *)
Definition registryOk (m : JsMap.t ProcessedAsset.t) : Prop :=
  NoDup (List.map fst m) /\
  Forall (fun kv => fst kv = ProcessedAsset.id (snd kv)) m.

Definition center (it : LayoutItem.t) : R * R :=
  (LayoutItem.x it, LayoutItem.y it).

(** The cells [(row, column)] of a grid in the order the loops visit them,
    and their centers. *)
Definition gridCells (rows cols : nat) : list (nat * nat) :=
  flat_map (fun r => List.map (pair r) (seq 0 cols)) (seq 0 rows).

Definition cellCenter (startX startY step : R) (cell : nat * nat) : R * R :=
  (startX + INR (snd cell) * step, startY + INR (fst cell) * step).

Definition gridCenters (startX startY step : R) (rows cols : nat)
  : list (R * R) :=
  List.map (cellCenter startX startY step) (gridCells rows cols).

(** An item of a Grid-mode layout: a registered motif at the icon size. *)
Definition gridItem (e : PatternEngine.t) (cfg : PatternConfig.t)
           (it : LayoutItem.t) : Prop :=
  exists asset,
    In asset (JsMap.values (assets e))
    /\ LayoutItem.assetId it = ProcessedAsset.id asset
    /\ LayoutItem.w it = PatternConfig.maxSize cfg
    /\ LayoutItem.h it
       = PatternConfig.maxSize cfg / ProcessedAsset.aspectRatio asset
    /\ anglePolicy cfg (LayoutItem.angle it).

(** The items [new] that a run over [cells] appends. *)
Definition gridRun (e : PatternEngine.t) (cfg : PatternConfig.t)
           (startX startY step : R)
           (cells : list (nat * nat)) (new : list LayoutItem.t) : Prop :=
  Forall (gridItem e cfg) new
  /\ (maskInactive e cfg ->
      List.map center new = List.map (cellCenter startX startY step) cells).

(** The channels [(r, g, b, a)] of the pixel in column [px] and row [py]
    of a row-major RGBA buffer that is [W] pixels wide. *)
Definition pixelAt (data : list Z) (W px py : Z) : option (Z * Z * Z * Z) :=
  let k := Z.to_nat (4 * (py * W + px)) in
  match nth_error data k, nth_error data (k + 1),
        nth_error data (k + 2), nth_error data (k + 3) with
  | Some r, Some g, Some b, Some a => Some (r, g, b, a)
  | _, _, _, _ => None
  end.

(** The commands [render] issues before the items: the clear, and the
    mask preview when it is shown. *)
Definition background (e : PatternEngine.t) (cfg : PatternConfig.t)
  : list CanvasOp :=
  [SetFillStyle "#ffffff"; FillRect 0 0 (width e) (height e)]
  ++ match PatternConfig.useMask cfg && PatternConfig.showMaskBg cfg,
           maskCanvas e with
     | true, Some mc =>
         [Save; SetGlobalAlpha 0.1; DrawImage3 (CanvasSource mc) 0 0; Restore]
     | _, _ => []
     end.

(** *** Reading a vector document back

    A reader of the exported document, independent of how it was written.
    It recognises a group only when it is written out in full: the
    [translate(x, y) rotate(deg)] transform, then either a nested [svg]
    with [x], [y], [width], [height], [viewBox], its extra attributes, the
    [overflow] style and a body, or an [image] with [href], [x], [y],
    [width], [height] and nothing more.  Between tags only blanks are
    allowed. *)

Fixpoint after_prefix (prefix s : string) : option string :=
  match prefix with
  | EmptyString => Some s
  | String a p =>
      match s with
      | String b r => if Ascii.eqb a b then after_prefix p r else None
      | EmptyString => None
      end
  end.

Definition is_blank (c : ascii) : bool :=
  Ascii.eqb c " "%char || Ascii.eqb c "010"%char
  || Ascii.eqb c "009"%char || Ascii.eqb c "013"%char.

Fixpoint skip_blank (s : string) : string :=
  match s with
  | EmptyString => EmptyString
  | String c r => if is_blank c then skip_blank r else s
  end.

(** [chunk] is the [parts] in order, each after optional blanks, and
    nothing else. *)
Fixpoint matches (parts : list string) (chunk : string) : bool :=
  match parts with
  | [] => String.eqb chunk EmptyString
  | part :: more =>
      match after_prefix part (skip_blank chunk) with
      | Some rest => matches more rest
      | None => false
      end
  end.

Inductive SvgChild : Type :=
| NestedViewport (x y width height : R) (viewBox attrs body : string)
| ImageRef (href : string) (x y width height : R).

(** The element nested in a group, from the pieces that follow
    the opening of a nested [svg] or of an [image], up to the end of the
    group. *)
Definition readViewport (doc : list Piece) : option SvgChild :=
  match doc with
  | Num x :: Lit a1 :: Num y :: Lit a2 :: Num w :: Lit a3 :: Num h
    :: Lit a4 :: Str vb :: Lit a5 :: Str attrs :: Lit a6 :: Str body
    :: Lit a7 :: _ =>
      if String.eqb a1 (tpl "' y='") && String.eqb a2 (tpl "' width='")
         && String.eqb a3 (tpl "' height='")
         && String.eqb a4 (tpl "' viewBox='")
         && String.eqb a5 (tpl "' ")
         && matches [tpl "style='overflow: visible;'>"; EmptyString] a6
         && matches ["</svg>"; "</g>"]%string a7
      then Some (NestedViewport x y w h vb attrs body)
      else None
  | _ => None
  end.

Definition readImage (doc : list Piece) : option SvgChild :=
  match doc with
  | Str href :: Lit b1 :: Num x :: Lit b2 :: Num y :: Lit b3 :: Num w
    :: Lit b4 :: Num h :: Lit b5 :: _ =>
      if String.eqb b1 (tpl "' x='") && String.eqb b2 (tpl "' y='")
         && String.eqb b3 (tpl "' width='")
         && String.eqb b4 (tpl "' height='")
         && matches [tpl "' />"; "</g>"%string] b5
      then Some (ImageRef href x y w h)
      else None
  | _ => None
  end.

(** One group, from the pieces that follow the opening of its transform. *)
Definition readGroup (doc : list Piece) : option (R * R * R * SvgChild) :=
  match doc with
  | Num x :: Lit s1 :: Num y :: Lit s2 :: Num deg :: Lit c :: rest =>
      if String.eqb s1 ", " && String.eqb s2 ") rotate(" then
        if matches [tpl ")'>"; tpl "<svg x='"] c then
          option_map (pair (x, y, deg)) (readViewport rest)
        else if matches [tpl ")'>"; tpl "<image href='"] c then
          option_map (pair (x, y, deg)) (readImage rest)
        else None
      else None
  | _ => None
  end.

(** The groups of a document, in document order. *)
Fixpoint readGroups (doc : list Piece) : list (R * R * R * SvgChild) :=
  match doc with
  | [] => []
  | Lit chunk :: rest =>
      if matches [tpl "<g transform='translate("] chunk then
        match readGroup rest with
        | Some group => group :: readGroups rest
        | None => readGroups rest
        end
      else readGroups rest
  | _ :: rest => readGroups rest
  end.

(** [translate(x, y) rotate(deg)] of each group, in document order. *)
Definition readTransforms (doc : list Piece) : list (R * R * R) :=
  List.map fst (readGroups doc).


(** What the document is to say about one item. *)
Definition transformOf (item : LayoutItem.t) : R * R * R :=
  (LayoutItem.x item, LayoutItem.y item, LayoutItem.angle item * (180 / PI)).



(** ** Sample inputs

    The default configuration of the application ([App.tsx]), a registry
    with one raster and one vector motif on a 500 by 500 canvas, and a
    sequence of draws. *)

Module Sample.

Definition dom : Dom :=
  {| getContext2d := true; getImageData := fun _ => [] |}.

Definition draws : RandomSource :=
  fun n => if Nat.even n then 1 / 4 else 3 / 4.

Definition leaf : ProcessedAsset.t :=
  {| ProcessedAsset.id := "leaf";
     ProcessedAsset.type := raster;
     ProcessedAsset.img :=
       {| HTMLImageElement.src := "data:image/png;base64,iVBORw0KGgo=";
          HTMLImageElement.width := 200;
          HTMLImageElement.height := 100 |};
     ProcessedAsset.aspectRatio := 2;
     ProcessedAsset.viewBox := None;
     ProcessedAsset.vectorContent := None |}.

Definition star : ProcessedAsset.t :=
  {| ProcessedAsset.id := "star";
     ProcessedAsset.type := svg;
     ProcessedAsset.img :=
       {| HTMLImageElement.src := "blob:star";
          HTMLImageElement.width := 100;
          HTMLImageElement.height := 100 |};
     ProcessedAsset.aspectRatio := 1;
     ProcessedAsset.viewBox := Some "0 0 100 100"%string;
     ProcessedAsset.vectorContent := Some "<circle cx='50' cy='50' r='40'/>"%string |}.

Definition engine : PatternEngine.t :=
  setAssets (setContext PatternEngine.new [] 500 500) [leaf; star].

(** [DEFAULT_CONFIG] *)
Definition config : PatternConfig.t :=
  {| PatternConfig.mode := random;
     PatternConfig.density := 60;
     PatternConfig.gridGap := 10;
     PatternConfig.minSize := 40;
     PatternConfig.maxSize := 120;
     PatternConfig.rotationRandomness := true;
     PatternConfig.colors := ["#000000"%string];
     PatternConfig.useRandomColor := true;
     PatternConfig.preventOverlap := true;
     PatternConfig.useMask := false;
     PatternConfig.showMaskBg := true;
     PatternConfig.enableAnim := false;
     PatternConfig.animAmplitude := 15;
     PatternConfig.animSpeed := 20 |}.

(** Three items scattered freely. *)
Definition scatter : PatternConfig.t :=
  {| PatternConfig.mode := random;
     PatternConfig.density := 3;
     PatternConfig.gridGap := 10;
     PatternConfig.minSize := 40;
     PatternConfig.maxSize := 120;
     PatternConfig.rotationRandomness := true;
     PatternConfig.colors := ["#000000"%string];
     PatternConfig.useRandomColor := true;
     PatternConfig.preventOverlap := false;
     PatternConfig.useMask := false;
     PatternConfig.showMaskBg := true;
     PatternConfig.enableAnim := false;
     PatternConfig.animAmplitude := 15;
     PatternConfig.animSpeed := 20 |}.

(** The grid of the specification: icons of 40 with a gap of 10. *)
Definition lattice : PatternConfig.t :=
  {| PatternConfig.mode := grid;
     PatternConfig.density := 60;
     PatternConfig.gridGap := 10;
     PatternConfig.minSize := 40;
     PatternConfig.maxSize := 40;
     PatternConfig.rotationRandomness := true;
     PatternConfig.colors := ["#000000"%string];
     PatternConfig.useRandomColor := true;
     PatternConfig.preventOverlap := true;
     PatternConfig.useMask := false;
     PatternConfig.showMaskBg := true;
     PatternConfig.enableAnim := false;
     PatternConfig.animAmplitude := 15;
     PatternConfig.animSpeed := 20 |}.

(** A canvas of 2 by 1 pixels whose mask reads back one black and one
    white opaque pixel. *)
Definition maskDom : Dom :=
  {| getContext2d := true;
     getImageData := fun _ => [0; 0; 0; 255; 255; 255; 255; 255]%Z |}.

Definition masked : PatternEngine.t :=
  setMask maskDom (setContext PatternEngine.new [] 2 1)
          (Some (ProcessedAsset.img leaf)).

(** A landscape canvas and a reference image four times as wide as high. *)
Definition wide : PatternEngine.t := setContext PatternEngine.new [] 1000 500.

Definition banner : HTMLImageElement.t :=
  {| HTMLImageElement.src := "data:image/png;base64,iVBORw0KGgo=";
     HTMLImageElement.width := 400;
     HTMLImageElement.height := 100 |}.

(** An item as [addItem] builds it for [asset], tinted or not. *)
Definition itemOf (asset : ProcessedAsset.t) (color : option string)
  : LayoutItem.t :=
  {| LayoutItem.id := Base36Substr (1 / 2) 2 9;
     LayoutItem.assetId := ProcessedAsset.id asset;
     LayoutItem.x := 100; LayoutItem.y := 200;
     LayoutItem.w := 80;
     LayoutItem.h := 80 / ProcessedAsset.aspectRatio asset;
     LayoutItem.angle := 0;
     LayoutItem.color := color;
     LayoutItem.animPhase := 0;
     LayoutItem.animSpeedMul := 1;
     LayoutItem.cachedCanvas :=
       match color with
       | Some c =>
           Some (createTintedCanvas dom asset c 80
                   (80 / ProcessedAsset.aspectRatio asset))
       | None => None
       end |}.

(** The registry after the raster motif has been removed. *)
Definition pruned : PatternEngine.t := setAssets engine [star].

Definition animated : PatternConfig.t :=
  {| PatternConfig.mode := random;
     PatternConfig.density := 60;
     PatternConfig.gridGap := 10;
     PatternConfig.minSize := 40;
     PatternConfig.maxSize := 120;
     PatternConfig.rotationRandomness := true;
     PatternConfig.colors := ["#000000"%string];
     PatternConfig.useRandomColor := true;
     PatternConfig.preventOverlap := true;
     PatternConfig.useMask := false;
     PatternConfig.showMaskBg := true;
     PatternConfig.enableAnim := true;
     PatternConfig.animAmplitude := 15;
     PatternConfig.animSpeed := 20 |}.

End Sample.

(** ** The application around the engine ([App.tsx], [ColorPalette.tsx]) *)

Module App.

(** [removeAsset]: the list of motifs without the one called [id]; the
    effect on [assets] then hands the new list to [setAssets]. *)
Definition removeAsset (assets : list ProcessedAsset.t) (id : string)
  : list ProcessedAsset.t :=
  filter (fun a => negb (String.eqb (ProcessedAsset.id a) id)) assets.

(** [{ ...config, enableAnim: false }] *)
Definition withoutAnim (config : PatternConfig.t) : PatternConfig.t :=
  {| PatternConfig.mode := PatternConfig.mode config;
     PatternConfig.density := PatternConfig.density config;
     PatternConfig.gridGap := PatternConfig.gridGap config;
     PatternConfig.minSize := PatternConfig.minSize config;
     PatternConfig.maxSize := PatternConfig.maxSize config;
     PatternConfig.rotationRandomness := PatternConfig.rotationRandomness config;
     PatternConfig.colors := PatternConfig.colors config;
     PatternConfig.useRandomColor := PatternConfig.useRandomColor config;
     PatternConfig.preventOverlap := PatternConfig.preventOverlap config;
     PatternConfig.useMask := PatternConfig.useMask config;
     PatternConfig.showMaskBg := PatternConfig.showMaskBg config;
     PatternConfig.enableAnim := false;
     PatternConfig.animAmplitude := PatternConfig.animAmplitude config;
     PatternConfig.animSpeed := PatternConfig.animSpeed config |}.

(** The frame [downloadImage] renders before the canvas is saved. *)
Definition downloadImage (engine : PatternEngine.t)
           (layoutItems : list LayoutItem.t) (config : PatternConfig.t)
  : PatternEngine.t :=
  render engine layoutItems (withoutAnim config) 0.

End App.

Module ColorPalette.

(** [colors.includes(c)] *)
Definition includes (colors : list string) (c : string) : bool :=
  existsb (String.eqb c) colors.

(** The palette after [addColor]: [onChange] is called with the extended
    palette only for a colour that is not in it yet. *)
Definition addColor (colors : list string) (newColor : string) : list string :=
  if negb (includes colors newColor) then colors ++ [newColor] else colors.

Definition removeColor (colors : list string) (colorToRemove : string)
  : list string :=
  filter (fun c => negb (String.eqb c colorToRemove)) colors.

End ColorPalette.

(** ** What a generated item is *)

(** [it] is the item [addItem] builds under [cfg] for [asset] at [(x, y)]
    with dimensions [(w, h)]: placed as asked, with animation parameters
    in range, a colour of the palette when colours are applied, and a
    tinted surface exactly when it has a (non-empty) colour. *)
Record built (dom : Dom) (cfg : PatternConfig.t) (asset : ProcessedAsset.t)
       (x y w h : R) (it : LayoutItem.t) : Prop := {
  built_placed : placed cfg asset x y w h it;
  built_phase : 0 <= LayoutItem.animPhase it < 2 * PI;
  built_speed : 0.8 <= LayoutItem.animSpeedMul it < 1.2;
  built_plain :
    PatternConfig.useRandomColor cfg = false \/ PatternConfig.colors cfg = [] ->
    LayoutItem.color it = None;
  built_tinted :
    PatternConfig.useRandomColor cfg = true -> PatternConfig.colors cfg <> [] ->
    exists c, LayoutItem.color it = Some c /\ In c (PatternConfig.colors cfg);
  built_cache :
    LayoutItem.cachedCanvas it
    = match LayoutItem.color it with
      | Some c =>
          if truthy c then Some (createTintedCanvas dom asset c w h) else None
      | None => None
      end
}.

(** The geometry of the grid of a configuration on an engine. *)
Definition gridStep (cfg : PatternConfig.t) : R :=
  PatternConfig.maxSize cfg + PatternConfig.gridGap cfg.

Definition gridCols (e : PatternEngine.t) (cfg : PatternConfig.t) : Z :=
  (Math.ceil (width e / gridStep cfg) + 1)%Z.

Definition gridRows (e : PatternEngine.t) (cfg : PatternConfig.t) : Z :=
  (Math.ceil (height e / gridStep cfg) + 1)%Z.

Definition gridStartX (e : PatternEngine.t) (cfg : PatternConfig.t) : R :=
  (width e - IZR (gridCols e cfg) * gridStep cfg) / 2 + gridStep cfg / 2.

Definition gridStartY (e : PatternEngine.t) (cfg : PatternConfig.t) : R :=
  (height e - IZR (gridRows e cfg) * gridStep cfg) / 2 + gridStep cfg / 2.

(** Where an item of a layout may be, and how large, by mode. *)
Definition sited (e : PatternEngine.t) (cfg : PatternConfig.t)
           (x y w : R) : Prop :=
  match PatternConfig.mode cfg with
  | random =>
      exists rx ry rs,
        0 <= rx < 1 /\ 0 <= ry < 1 /\ 0 <= rs < 1
        /\ x = rx * width e /\ y = ry * height e
        /\ w = rs * (PatternConfig.maxSize cfg - PatternConfig.minSize cfg)
               + PatternConfig.minSize cfg
  | grid =>
      w = PatternConfig.maxSize cfg
      /\ exists r c,
          (r < Z.to_nat (gridRows e cfg))%nat
          /\ (c < Z.to_nat (gridCols e cfg))%nat
          /\ (x, y) = cellCenter (gridStartX e cfg) (gridStartY e cfg)
                                 (gridStep cfg) (r, c)
  end.

(** An item of a layout generated on [e] under [cfg]. *)
Definition generated (dom : Dom) (e : PatternEngine.t) (cfg : PatternConfig.t)
           (it : LayoutItem.t) : Prop :=
  exists asset x y w h,
    In asset (JsMap.values (assets e))
    /\ built dom cfg asset x y w h it
    /\ h = w / ProcessedAsset.aspectRatio asset
    /\ maskRejects e cfg x y = false
    /\ sited e cfg x y w.

(** The nesting depth of [save]/[restore] after a run of commands started
    at depth [d]; [None] when a [restore] has no [save] to undo. *)
Fixpoint saveDepth (ops : list CanvasOp) (d : nat) : option nat :=
  match ops with
  | [] => Some d
  | Save :: rest => saveDepth rest (S d)
  | Restore :: rest =>
      match d with
      | O => None
      | S d' => saveDepth rest d'
      end
  | _ :: rest => saveDepth rest d
  end.

(** The items whose motif is in the registry. *)
Definition registered (e : PatternEngine.t) (item : LayoutItem.t) : bool :=
  match JsMap.get (assets e) (LayoutItem.assetId item) with
  | Some _ => true
  | None => false
  end.

(** The last motif of a list that carries the identifier [k]. *)
Definition lastWithId (l : list ProcessedAsset.t) (k : string)
  : option ProcessedAsset.t :=
  find (fun a => String.eqb (ProcessedAsset.id a) k) (rev l).

(** ** More sample inputs *)

Module Scene.

(** A canvas with nothing registered. *)
Definition bare : PatternEngine.t := setContext PatternEngine.new [] 500 500.

(** The two motifs on the masked canvas of 2 by 1 pixels. *)
Definition stencil : PatternEngine.t :=
  setAssets Sample.masked [Sample.leaf; Sample.star].

(** [DEFAULT_CONFIG] after a mask was uploaded. *)
Definition maskedConfig : PatternConfig.t :=
  {| PatternConfig.mode := random;
     PatternConfig.density := 60;
     PatternConfig.gridGap := 10;
     PatternConfig.minSize := 40;
     PatternConfig.maxSize := 120;
     PatternConfig.rotationRandomness := true;
     PatternConfig.colors := ["#000000"%string];
     PatternConfig.useRandomColor := true;
     PatternConfig.preventOverlap := true;
     PatternConfig.useMask := true;
     PatternConfig.showMaskBg := true;
     PatternConfig.enableAnim := false;
     PatternConfig.animAmplitude := 15;
     PatternConfig.animSpeed := 20 |}.

(** The grid of [Sample.lattice] with masking switched on. *)
Definition maskedLattice : PatternConfig.t :=
  {| PatternConfig.mode := grid;
     PatternConfig.density := 60;
     PatternConfig.gridGap := 10;
     PatternConfig.minSize := 40;
     PatternConfig.maxSize := 40;
     PatternConfig.rotationRandomness := true;
     PatternConfig.colors := ["#000000"%string];
     PatternConfig.useRandomColor := true;
     PatternConfig.preventOverlap := true;
     PatternConfig.useMask := true;
     PatternConfig.showMaskBg := true;
     PatternConfig.enableAnim := false;
     PatternConfig.animAmplitude := 15;
     PatternConfig.animSpeed := 20 |}.

(** A mask of 2 by 2 pixels of which the buffer holds the first row only. *)
Definition stale : PatternEngine.t :=
  setContext Sample.masked [] 2 2.





(** A motif 160 times as wide as high, and a tinted item of it: 80 wide
    and half a unit high. *)
Definition ribbon : ProcessedAsset.t :=
  {| ProcessedAsset.id := "ribbon";
     ProcessedAsset.type := raster;
     ProcessedAsset.img :=
       {| HTMLImageElement.src := "data:image/png;base64,iVBORw0KGgo=";
          HTMLImageElement.width := 1600;
          HTMLImageElement.height := 10 |};
     ProcessedAsset.aspectRatio := 160;
     ProcessedAsset.viewBox := None;
     ProcessedAsset.vectorContent := None |}.

Definition thin : LayoutItem.t :=
  Sample.itemOf ribbon (Some "#000000"%string).

End Scene.

(** ** When [render] runs to its end *)

(** The cached surface of an item can be drawn. *)
Definition cleanCache (item : LayoutItem.t) : Prop :=
  match LayoutItem.cachedCanvas item with
  | Some canvas => storedWidth canvas <> 0%Z /\ storedHeight canvas <> 0%Z
  | None => True
  end.

(** The preview of the mask can be drawn. *)
Definition cleanMask (e : PatternEngine.t) : Prop :=
  match maskCanvas e with
  | Some canvas => storedWidth canvas <> 0%Z /\ storedHeight canvas <> 0%Z
  | None => True
  end.

(** ** Comparisons, floor and ceiling *)

Lemma Rltb_true (a b : R) : (a <? b) = true <-> a < b.
Proof. unfold Rltb. destruct (Rlt_dec a b); split; intros; (easy || lra). Qed.

Lemma Rltb_false (a b : R) : (a <? b) = false <-> b <= a.
Proof. unfold Rltb. destruct (Rlt_dec a b); split; intros; (easy || lra). Qed.

Lemma Rleb_true (a b : R) : (a <=? b) = true <-> a <= b.
Proof. unfold Rleb. destruct (Rle_dec a b); split; intros; (easy || lra). Qed.

Lemma Rleb_false (a b : R) : (a <=? b) = false <-> b < a.
Proof. unfold Rleb. destruct (Rle_dec a b); split; intros; (easy || lra). Qed.

Lemma Rgtb_true (a b : R) : (a >? b) = true <-> b < a.
Proof. apply Rltb_true. Qed.

Lemma Rgtb_false (a b : R) : (a >? b) = false <-> a <= b.
Proof. apply Rltb_false. Qed.

Lemma Rgeb_true (a b : R) : (a >=? b) = true <-> b <= a.
Proof. apply Rleb_true. Qed.

Lemma Rgeb_false (a b : R) : (a >=? b) = false <-> a < b.
Proof. apply Rleb_false. Qed.

Lemma floor_spec (x : R) : IZR (Math.floor x) <= x < IZR (Math.floor x) + 1.
Proof.
  unfold Math.floor. rewrite minus_IZR.
  destruct (archimed x) as [H1 H2]. lra.
Qed.

Lemma floor_unique (x : R) (z : Z) : IZR z <= x < IZR z + 1 -> Math.floor x = z.
Proof.
  intros [H1 H2]. destruct (floor_spec x) as [F1 F2].
  assert (Hlo : (z < Math.floor x + 1)%Z).
  { apply lt_IZR. rewrite plus_IZR. lra. }
  assert (Hhi : (Math.floor x < z + 1)%Z).
  { apply lt_IZR. rewrite plus_IZR. lra. }
  lia.
Qed.

Lemma floor_IZR (z : Z) : Math.floor (IZR z) = z.
Proof. apply floor_unique. lra. Qed.

Lemma ceil_spec (x : R) : IZR (Math.ceil x) - 1 < x <= IZR (Math.ceil x).
Proof.
  unfold Math.ceil. rewrite opp_IZR.
  destruct (floor_spec (- x)) as [F1 F2]. lra.
Qed.

Lemma ceil_unique (x : R) (z : Z) : IZR z - 1 < x <= IZR z -> Math.ceil x = z.
Proof.
  intros [H1 H2]. unfold Math.ceil.
  rewrite (floor_unique (- x) (- z)); [lia |].
  rewrite opp_IZR. lra.
Qed.

Lemma floor_scaled_draw (r : R) (n : nat) :
  0 <= r < 1 -> (0 < n)%nat ->
  (0 <= Math.floor (r * INR n) < Z.of_nat n)%Z.
Proof.
  intros [Hr0 Hr1] Hn.
  assert (Hn' : 0 < INR n) by (apply lt_0_INR; exact Hn).
  destruct (floor_spec (r * INR n)) as [F1 F2].
  split.
  - apply Z.lt_succ_r. apply lt_IZR. rewrite succ_IZR. nra.
  - apply lt_IZR. rewrite <- INR_IZR_INZ. nra.
Qed.

Lemma js_index_some {A : Type} (l : list A) (k : Z) :
  (0 <= k < Z.of_nat (List.length l))%Z ->
  exists a, js_index l k = Some a /\ In a l.
Proof.
  intros Hk. unfold js_index.
  destruct (Z.ltb_spec k 0) as [Hneg | _]; [lia |].
  destruct (nth_error l (Z.to_nat k)) as [a |] eqn:E.
  - exists a. split; [reflexivity | eapply nth_error_In; exact E].
  - apply nth_error_None in E. lia.
Qed.

Lemma well_drawn_tail (s : RandomSource) :
  well_drawn s -> well_drawn (fun n => s (S n)).
Proof. intros H n. apply H. Qed.

(** ** Running the monad *)

Lemma bind_some {A B : Type} (m : M A) (k : A -> M B) s a s' :
  m s = Some (a, s') -> bind m k s = k a s'.
Proof. intros H. unfold bind. rewrite H. reflexivity. Qed.

Lemma random_some (k : R -> M (list LayoutItem.t)) s :
  bind Math_random k s = k (s 0%nat) (fun n => s (S n)).
Proof. reflexivity. Qed.

(** A motif drawn from a non-empty list with a well-formed draw. *)
Lemma pick_asset (assetList : list ProcessedAsset.t) (r : R) :
  0 <= r < 1 -> assetList <> [] ->
  exists asset,
    js_index assetList (Math.floor (r * INR (List.length assetList))) = Some asset
    /\ In asset assetList.
Proof.
  intros Hr Hne. apply js_index_some. apply floor_scaled_draw; [exact Hr |].
  destruct assetList; [congruence | simpl; lia].
Qed.

(** ** [addItem] *)

Lemma quarter_turn (r : R) :
  0 <= r < 1 ->
  let a := IZR (Math.floor (r * 4)) * 90 * (PI / 180) in
  a = 0 \/ a = PI / 2 \/ a = PI \/ a = 3 * PI / 2.
Proof.
  intros Hr a. subst a.
  pose proof (floor_scaled_draw r 4 Hr ltac:(lia)) as Hk.
  change (INR 4) with (1 + 1 + 1 + 1) in Hk.
  replace (r * (1 + 1 + 1 + 1)) with (r * 4) in Hk by lra.
  set (k := Math.floor (r * 4)) in *.
  assert (Hc : (k = 0 \/ k = 1 \/ k = 2 \/ k = 3)%Z) by lia.
  destruct Hc as [-> | [-> | [-> | ->]]].
  - left. lra.
  - right; left. lra.
  - right; right; left. lra.
  - right; right; right. lra.
Qed.

Lemma free_turn (r : R) : 0 <= r < 1 -> 0 <= r * PI * 2 < 2 * PI.
Proof. intros Hr. pose proof PI_RGT_0. nra. Qed.

(** [addItem] appends exactly one item, built from its arguments. *)
Lemma addItem_appends (dom : Dom) (items : list LayoutItem.t)
      (asset : ProcessedAsset.t) (x y sz : R) (hc : R + PatternConfig.t)
      (co : option PatternConfig.t) (direct : bool)
      (cfg : PatternConfig.t) (w h : R) (s : RandomSource) :
  well_drawn s ->
  (direct = true /\ hc = inl h /\ co = Some cfg /\ w = sz) \/
  (direct = false /\ hc = inr cfg /\ w = sz
   /\ h = sz / ProcessedAsset.aspectRatio asset) ->
  exists it s',
    addItem dom items asset x y sz hc co direct s = Some (items ++ [it], s')
    /\ well_drawn s' /\ placed cfg asset x y w h it.
Proof.
  intros Hs Hshape.
  assert (Hdims :
    (if direct then
       match hc, co with
       | inl h0, Some c => ret (sz, h0, c)
       | _, _ => fail
       end
     else
       match hc with
       | inr c => ret (sz, sz / ProcessedAsset.aspectRatio asset, c)
       | inl _ => fail
       end) = (ret (w, h, cfg) : M (R * R * PatternConfig.t))).
  { destruct Hshape as [(-> & -> & -> & ->) | (-> & -> & -> & ->)]; reflexivity. }
  unfold addItem. rewrite Hdims. clear Hdims Hshape.
  unfold bind at 1. unfold ret at 1.
  destruct (PatternConfig.rotationRandomness cfg) eqn:Erot;
    [destruct (PatternConfig.mode cfg) eqn:Emode |];
    destruct (PatternConfig.useRandomColor cfg
              && (0 <? List.length (PatternConfig.colors cfg))%nat) eqn:Ecol;
    cbv [bind ret Math_random];
    eexists; eexists; (split; [reflexivity |]);
    (split; [intros n; apply Hs |]);
    (constructor; simpl; try reflexivity);
    unfold anglePolicy; rewrite Erot; try rewrite Emode;
    solve [ reflexivity | apply free_turn; apply Hs | apply quarter_turn; apply Hs ].
Qed.

(** ** Counted loops *)

Lemma for_from_rule {A : Type} (Inv : nat -> A -> Prop)
      (body : nat -> A -> M A) :
  forall (n from : nat) (acc : A) (s : RandomSource),
    well_drawn s -> Inv from acc ->
    (forall i a s0,
        (from <= i < from + n)%nat -> well_drawn s0 -> Inv i a ->
        exists a' s1,
          body i a s0 = Some (a', s1) /\ well_drawn s1 /\ Inv (S i) a') ->
    exists acc' s',
      for_from n from body acc s = Some (acc', s')
      /\ well_drawn s' /\ Inv (from + n)%nat acc'.
Proof.
  induction n as [| n IH]; intros from acc s Hs Hinv Hbody; simpl.
  - exists acc, s. rewrite Nat.add_0_r. auto.
  - destruct (Hbody from acc s ltac:(lia) Hs Hinv) as (a' & s1 & Eb & Hs1 & Hinv1).
    rewrite (bind_some _ _ _ _ _ Eb).
    destruct (IH (S from) a' s1 Hs1 Hinv1) as (acc' & s' & El & Hs' & Hinv').
    { intros i a s0 Hi. apply Hbody. lia. }
    exists acc', s'. rewrite Nat.add_succ_r. auto.
Qed.

(** ** Grid mode *)

Lemma maskRejects_inactive e cfg x y :
  maskInactive e cfg -> maskRejects e cfg x y = false.
Proof.
  unfold maskRejects. intros [H | H]; rewrite H; [reflexivity |].
  destruct (PatternConfig.useMask cfg); reflexivity.
Qed.

Lemma gridRun_nil e cfg sx sy step : gridRun e cfg sx sy step [] [].
Proof. split; [constructor | reflexivity]. Qed.

Lemma gridRun_app e cfg sx sy step cells1 new1 cells2 new2 :
  gridRun e cfg sx sy step cells1 new1 ->
  gridRun e cfg sx sy step cells2 new2 ->
  gridRun e cfg sx sy step (cells1 ++ cells2) (new1 ++ new2).
Proof.
  intros [F1 C1] [F2 C2]. split.
  - apply Forall_app. auto.
  - intros Hm. rewrite !map_app, C1, C2; auto.
Qed.

Lemma gridCell_run dom e cfg sx sy step r c items s :
  well_drawn s -> JsMap.values (assets e) <> [] ->
  exists new s',
    gridCell dom e cfg (JsMap.values (assets e)) sx sy step
             (PatternConfig.maxSize cfg) r c items s
    = Some (items ++ new, s')
    /\ well_drawn s' /\ gridRun e cfg sx sy step [(r, c)] new.
Proof.
  intros Hs Hne. unfold gridCell.
  destruct (maskRejects e cfg (sx + INR c * step) (sy + INR r * step)) eqn:Em.
  - exists [], s. rewrite app_nil_r.
    split; [reflexivity |]. split; [exact Hs |]. split; [constructor |].
    intros Hin. rewrite (maskRejects_inactive _ _ _ _ Hin) in Em. discriminate.
  - rewrite random_some.
    destruct (pick_asset (JsMap.values (assets e)) (s 0%nat) (Hs 0%nat) Hne)
      as (asset & Epick & Hin).
    rewrite Epick. unfold of_option, bind at 1, ret at 1.
    destruct (addItem_appends dom items asset (sx + INR c * step)
                (sy + INR r * step) (PatternConfig.maxSize cfg) (inr cfg) None
                false cfg (PatternConfig.maxSize cfg)
                (PatternConfig.maxSize cfg / ProcessedAsset.aspectRatio asset)
                (fun n => s (S n)) (well_drawn_tail s Hs))
      as (it & s' & Eadd & Hs' & Hp).
    { right. auto. }
    exists [it], s'. split; [exact Eadd |]. split; [exact Hs' |].
    destruct Hp. split.
    + constructor; [| constructor]. exists asset. auto.
    + intros _. simpl. unfold center, cellCenter. simpl. congruence.
Qed.

Lemma gridCells_succ (rows cols : nat) :
  gridCells (S rows) cols
  = gridCells rows cols ++ List.map (pair rows) (seq 0 cols).
Proof.
  unfold gridCells. rewrite seq_S, flat_map_app. simpl.
  rewrite app_nil_r. reflexivity.
Qed.

Lemma grid_row dom e cfg sx sy step cols r items s :
  well_drawn s -> JsMap.values (assets e) <> [] ->
  exists new s',
    for_from cols 0
      (gridCell dom e cfg (JsMap.values (assets e)) sx sy step
                (PatternConfig.maxSize cfg) r) items s
    = Some (items ++ new, s')
    /\ well_drawn s'
    /\ gridRun e cfg sx sy step (List.map (pair r) (seq 0 cols)) new.
Proof.
  intros Hs Hne.
  destruct (for_from_rule
              (fun c acc =>
                 exists new, acc = items ++ new
                   /\ gridRun e cfg sx sy step (List.map (pair r) (seq 0 c)) new)
              (gridCell dom e cfg (JsMap.values (assets e)) sx sy step
                        (PatternConfig.maxSize cfg) r)
              cols 0%nat items s Hs)
    as (acc' & s' & E & Hs' & new & -> & Hrun).
  - exists []. rewrite app_nil_r. split; [reflexivity | apply gridRun_nil].
  - intros c a s0 _ Hs0 (new & -> & Hrun).
    destruct (gridCell_run dom e cfg sx sy step r c (items ++ new) s0 Hs0 Hne)
      as (new' & s1 & E & Hs1 & Hrun').
    exists ((items ++ new) ++ new'), s1. split; [exact E |]. split; [exact Hs1 |].
    exists (new ++ new'). split; [symmetry; apply app_assoc |].
    rewrite seq_S, map_app. simpl. apply gridRun_app; assumption.
  - exists new, s'. auto.
Qed.

Lemma grid_rows dom e cfg sx sy step rows cols s :
  well_drawn s -> JsMap.values (assets e) <> [] ->
  exists new s',
    for_from rows 0
      (fun r items =>
         for_from cols 0
           (gridCell dom e cfg (JsMap.values (assets e)) sx sy step
                     (PatternConfig.maxSize cfg) r) items) [] s
    = Some (new, s')
    /\ well_drawn s'
    /\ gridRun e cfg sx sy step (gridCells rows cols) new.
Proof.
  intros Hs Hne.
  destruct (for_from_rule
              (fun r acc => gridRun e cfg sx sy step (gridCells r cols) acc)
              (fun r items =>
                 for_from cols 0
                   (gridCell dom e cfg (JsMap.values (assets e)) sx sy step
                             (PatternConfig.maxSize cfg) r) items)
              rows 0%nat [] s Hs)
    as (acc' & s' & E & Hs' & Hrun).
  - apply gridRun_nil.
  - intros r a s0 _ Hs0 Hrun.
    destruct (grid_row dom e cfg sx sy step cols r a s0 Hs0 Hne)
      as (new & s1 & E & Hs1 & Hrun').
    exists (a ++ new), s1. split; [exact E |]. split; [exact Hs1 |].
    rewrite gridCells_succ. apply gridRun_app; assumption.
  - exists acc', s'. auto.
Qed.

Lemma registry_nonempty (e : PatternEngine.t) :
  (JsMap.size (assets e) =? 0)%nat = false ->
  JsMap.values (assets e) <> [].
Proof.
  unfold JsMap.size, JsMap.values. destruct (assets e); simpl; congruence.
Qed.

(** Grid mode with a positive step on a non-empty registry: the run
    returns, and what it returns is a run over all the cells. *)
Lemma generateLayout_grid dom e cfg s :
  PatternConfig.mode cfg = grid ->
  JsMap.size (assets e) <> 0%nat ->
  0 < PatternConfig.maxSize cfg + PatternConfig.gridGap cfg ->
  well_drawn s ->
  let step := PatternConfig.maxSize cfg + PatternConfig.gridGap cfg in
  let cols := (Math.ceil (width e / step) + 1)%Z in
  let rows := (Math.ceil (height e / step) + 1)%Z in
  let startX := (width e - IZR cols * step) / 2 + step / 2 in
  let startY := (height e - IZR rows * step) / 2 + step / 2 in
  exists items s',
    generateLayout dom e cfg s = Some (items, s')
    /\ well_drawn s'
    /\ gridRun e cfg startX startY step
               (gridCells (Z.to_nat rows) (Z.to_nat cols)) items.
Proof.
  intros Hmode Hsize Hstep Hs step cols rows startX startY.
  unfold generateLayout.
  destruct (Nat.eqb_spec (JsMap.size (assets e)) 0) as [E0 | _]; [contradiction |].
  rewrite Hmode.
  assert (Hle : (step <=? 0) = false) by (apply Rleb_false; exact Hstep).
  fold step. rewrite Hle. fold cols rows. fold startX startY.
  unfold for_range.
  apply grid_rows; [exact Hs |].
  apply registry_nonempty. apply Nat.eqb_neq. exact Hsize.
Qed.

(** ** Random mode *)

Lemma randomLoop_eq dom e cfg assetList maxAttempts fuel count attempts items :
  randomLoop dom e cfg assetList maxAttempts fuel count attempts items
  = if (INR count <? PatternConfig.density cfg) && (INR attempts <? maxAttempts)
    then
      match fuel with
      | O => fail
      | S fuel' =>
          rx <- Math_random ;;
          ry <- Math_random ;;
          if maskRejects e cfg (rx * width e) (ry * height e) then
            randomLoop dom e cfg assetList maxAttempts fuel' count (S attempts) items
          else
            rs <- Math_random ;;
            ra <- Math_random ;;
            asset <- of_option
                       (js_index assetList
                          (Math.floor (ra * INR (List.length assetList)))) ;;
            let w := rs * (PatternConfig.maxSize cfg - PatternConfig.minSize cfg)
                     + PatternConfig.minSize cfg in
            let h := w / ProcessedAsset.aspectRatio asset in
            if PatternConfig.preventOverlap cfg
               && overlaps items (rx * width e) (ry * height e) w h then
              randomLoop dom e cfg assetList maxAttempts fuel' count (S attempts) items
            else
              items' <- addItem dom items asset (rx * width e) (ry * height e)
                                w (inl h) (Some cfg) true ;;
              randomLoop dom e cfg assetList maxAttempts fuel' (S count)
                         (S attempts) items'
      end
    else ret items.
Proof. destruct fuel; reflexivity. Qed.

(** The bound on iterations only cuts runs short: a run that returns
    returns the same with any larger bound. *)
Lemma randomLoop_more_fuel dom e cfg assetList maxAttempts :
  forall fuel count attempts items s result,
    randomLoop dom e cfg assetList maxAttempts fuel count attempts items s
    = Some result ->
    forall extra,
      randomLoop dom e cfg assetList maxAttempts (fuel + extra)
                 count attempts items s
      = Some result.
Proof.
  induction fuel as [| fuel IH]; intros count attempts items s result Hrun extra;
    rewrite randomLoop_eq in Hrun; rewrite randomLoop_eq;
    destruct ((INR count <? PatternConfig.density cfg)
              && (INR attempts <? maxAttempts)); try exact Hrun.
  - discriminate Hrun.
  - change (S fuel + extra)%nat with (S (fuel + extra)). cbv beta iota.
    rewrite !random_some in Hrun. rewrite !random_some.
    revert Hrun.
    destruct (maskRejects e cfg (s 0%nat * width e) (s 1%nat * height e));
      [intros Hrun; apply IH; exact Hrun |].
    rewrite !random_some. unfold bind at 1 3.
    match goal with
    | |- match ?m with _ => _ end = _ -> _ => destruct m as [[asset s4] |]
    end; [| discriminate].
    cbv zeta.
    match goal with
    | |- (if ?c then _ else _) _ = _ -> _ => destruct c
    end; [intros Hrun; apply IH; exact Hrun |].
    unfold bind at 1 2.
    match goal with
    | |- match ?m with _ => _ end = _ -> _ => destruct m as [[items' s5] |]
    end; [| discriminate].
    intros Hrun. apply IH. exact Hrun.
Qed.

Section RandomLoopRule.

Variables (dom : Dom) (e : PatternEngine.t) (cfg : PatternConfig.t).
Variable maxAttempts : R.
Variable Inv : nat -> nat -> list LayoutItem.t -> Prop.

Hypothesis registry_inhabited : JsMap.values (assets e) <> [].

(** A rejected candidate costs an attempt. *)
Hypothesis Inv_reject :
  forall count attempts items x y w h,
    Inv count attempts items ->
    maskRejects e cfg x y = true
    \/ (PatternConfig.preventOverlap cfg = true
        /\ overlaps items x y w h = true) ->
    Inv count (S attempts) items.

(** An accepted candidate is appended and counted. *)
Hypothesis Inv_accept :
  forall count attempts items asset x y w h it,
    Inv count attempts items ->
    INR count < PatternConfig.density cfg ->
    In asset (JsMap.values (assets e)) ->
    placed cfg asset x y w h it ->
    maskRejects e cfg x y = false ->
    (PatternConfig.preventOverlap cfg = true -> overlaps items x y w h = false) ->
    Inv (S count) (S attempts) (items ++ [it]).

Lemma randomLoop_rule :
  forall (fuel count attempts : nat) (items : list LayoutItem.t)
         (s : RandomSource),
    well_drawn s ->
    maxAttempts <= INR attempts + INR fuel ->
    Inv count attempts items ->
    exists items' s' count' attempts',
      randomLoop dom e cfg (JsMap.values (assets e)) maxAttempts
                 fuel count attempts items s = Some (items', s')
      /\ well_drawn s'
      /\ Inv count' attempts' items'
      /\ (INR count' <? PatternConfig.density cfg)
         && (INR attempts' <? maxAttempts) = false.
Proof.
  induction fuel as [| fuel IH]; intros count attempts items s Hs Hfuel Hinv;
    rewrite randomLoop_eq;
    destruct ((INR count <? PatternConfig.density cfg)
              && (INR attempts <? maxAttempts)) eqn:Econd;
    try (exists items, s, count, attempts; unfold ret; auto; fail).
  - apply andb_true_iff in Econd. destruct Econd as [_ Hatt].
    apply Rltb_true in Hatt. simpl in Hfuel. lra.
  - apply andb_true_iff in Econd. destruct Econd as [Hcount Hatt].
    apply Rltb_true in Hcount.
    assert (Hfuel' : maxAttempts <= INR (S attempts) + INR fuel).
    { rewrite S_INR in *. lra. }
    rewrite random_some, random_some.
    set (s2 := fun n => s (S (S n))).
    assert (Hs2 : well_drawn s2) by (intros n; apply Hs).
    set (x := s 0%nat * width e). set (y := s 1%nat * height e).
    destruct (maskRejects e cfg x y) eqn:Emask.
    + apply IH; [exact Hs2 | exact Hfuel' |].
      apply (Inv_reject count attempts items x y 0 0 Hinv). left. exact Emask.
    + rewrite random_some, random_some.
      set (s4 := fun n => s2 (S (S n))).
      assert (Hs4 : well_drawn s4) by (intros n; apply Hs2).
      destruct (pick_asset (JsMap.values (assets e)) (s2 1%nat) (Hs2 1%nat)
                           registry_inhabited) as (asset & Epick & Hin).
      rewrite Epick. unfold of_option, bind at 1, ret at 1. cbv zeta.
      set (w := s2 0%nat
                * (PatternConfig.maxSize cfg - PatternConfig.minSize cfg)
                + PatternConfig.minSize cfg).
      set (h := w / ProcessedAsset.aspectRatio asset).
      destruct (PatternConfig.preventOverlap cfg && overlaps items x y w h)
               eqn:Eov.
      * apply IH; [exact Hs4 | exact Hfuel' |].
        apply (Inv_reject count attempts items x y w h Hinv). right.
        apply andb_true_iff in Eov. exact Eov.
      * destruct (addItem_appends dom items asset x y w (inl h) (Some cfg)
                    true cfg w h s4 Hs4) as (it & s5 & Eadd & Hs5 & Hp).
        { left. auto. }
        rewrite (bind_some _ _ _ _ _ Eadd).
        apply IH; [exact Hs5 | exact Hfuel' |].
        apply (Inv_accept count attempts items asset x y w h it);
          try assumption.
        intros Hpo. rewrite Hpo in Eov. exact Eov.
Qed.

End RandomLoopRule.

Lemma fuel_enough (maxAttempts : R) :
  maxAttempts <= INR 0 + INR (Z.to_nat (Math.ceil maxAttempts)).
Proof.
  destruct (ceil_spec maxAttempts) as [_ Hc]. simpl.
  destruct (Z.le_gt_cases 0 (Math.ceil maxAttempts)) as [Hpos | Hneg].
  - rewrite INR_IZR_INZ, Z2Nat.id by exact Hpos. lra.
  - apply IZR_lt in Hneg. pose proof (pos_INR (Z.to_nat (Math.ceil maxAttempts))).
    lra.
Qed.

(** Random mode on a non-empty registry: the run returns, with any
    invariant of the loop established at a state where the loop stops. *)
Lemma generateLayout_random dom e cfg
      (Inv : nat -> nat -> list LayoutItem.t -> Prop) s :
  PatternConfig.mode cfg = random ->
  JsMap.size (assets e) <> 0%nat ->
  well_drawn s ->
  Inv 0%nat 0%nat [] ->
  (forall count attempts items x y w h,
      Inv count attempts items ->
      maskRejects e cfg x y = true
      \/ (PatternConfig.preventOverlap cfg = true
          /\ overlaps items x y w h = true) ->
      Inv count (S attempts) items) ->
  (forall count attempts items asset x y w h it,
      Inv count attempts items ->
      INR count < PatternConfig.density cfg ->
      In asset (JsMap.values (assets e)) ->
      placed cfg asset x y w h it ->
      maskRejects e cfg x y = false ->
      (PatternConfig.preventOverlap cfg = true -> overlaps items x y w h = false) ->
      Inv (S count) (S attempts) (items ++ [it])) ->
  exists items s' count attempts,
    generateLayout dom e cfg s = Some (items, s')
    /\ well_drawn s'
    /\ Inv count attempts items
    /\ (INR count <? PatternConfig.density cfg)
       && (INR attempts <? PatternConfig.density cfg * 50) = false.
Proof.
  intros Hmode Hsize Hs H0 Hrej Hacc. unfold generateLayout.
  destruct (Nat.eqb_spec (JsMap.size (assets e)) 0) as [E0 | _]; [contradiction |].
  rewrite Hmode.
  apply randomLoop_rule; try assumption.
  - apply registry_nonempty. apply Nat.eqb_neq. exact Hsize.
  - apply fuel_enough.
Qed.

Lemma overlaps_false items x y w h :
  overlaps items x y w h = false ->
  forall b, In b items ->
    sqrt ((x - LayoutItem.x b) ^ 2 + (y - LayoutItem.y b) ^ 2)
    >= 0.8 * Rmax w h / 2
       + 0.8 * Rmax (LayoutItem.w b) (LayoutItem.h b) / 2.
Proof.
  unfold overlaps, Math.max, Math.pow. intros Hex b Hin.
  destruct (Rlt_dec
              (sqrt ((x - LayoutItem.x b) ^ 2 + (y - LayoutItem.y b) ^ 2))
              (Rmax w h / 2 * 0.8
               + Rmax (LayoutItem.w b) (LayoutItem.h b) / 2 * 0.8)) as [Hlt | Hge].
  - assert (Htrue : existsb
              (fun item =>
                 sqrt ((x - LayoutItem.x item) ^ 2 + (y - LayoutItem.y item) ^ 2)
                 <? Rmax w h / 2 * 0.8
                    + Rmax (LayoutItem.w item) (LayoutItem.h item) / 2 * 0.8)
              items = true).
    { apply existsb_exists. exists b. split; [exact Hin |].
      apply Rltb_true. exact Hlt. }
    congruence.
  - lra.
Qed.

Lemma pairwiseApart_snoc items it :
  pairwiseApart items ->
  (forall b, In b items -> apart it b) ->
  pairwiseApart (items ++ [it]).
Proof.
  intros Hpw Hnew i j a b Hij Ha Hb.
  assert (Hsym : forall u v, apart u v -> apart v u).
  { unfold apart. intros u v H.
    replace ((LayoutItem.x v - LayoutItem.x u) ^ 2
             + (LayoutItem.y v - LayoutItem.y u) ^ 2)
      with ((LayoutItem.x u - LayoutItem.x v) ^ 2
            + (LayoutItem.y u - LayoutItem.y v) ^ 2) by ring.
    lra. }
  assert (Hlast : forall k c, nth_error (items ++ [it]) k = Some c ->
            (k < List.length items)%nat /\ nth_error items k = Some c
            \/ k = List.length items /\ c = it).
  { intros k c Hk.
    destruct (Nat.lt_ge_cases k (List.length items)) as [Hlt | Hge].
    - left. rewrite nth_error_app1 in Hk by exact Hlt. auto.
    - right. rewrite nth_error_app2 in Hk by exact Hge.
      destruct (k - List.length items)%nat as [| d] eqn:Ed; simpl in Hk.
      + split; [lia | congruence].
      + destruct d; discriminate. }
  destruct (Hlast i a Ha) as [[_ Hia] | [Hi ->]];
    destruct (Hlast j b Hb) as [[_ Hjb] | [Hj ->]].
  - exact (Hpw i j a b Hij Hia Hjb).
  - apply Hsym. apply Hnew. eapply nth_error_In. exact Hia.
  - apply Hnew. eapply nth_error_In. exact Hjb.
  - lia.
Qed.

Lemma generateLayout_empty_registry dom e cfg s :
  JsMap.size (assets e) = 0%nat -> generateLayout dom e cfg s = Some ([], s).
Proof. intros H. unfold generateLayout. rewrite H. reflexivity. Qed.

Lemma generateLayout_degenerate_step dom e cfg s :
  PatternConfig.mode cfg = grid ->
  PatternConfig.maxSize cfg + PatternConfig.gridGap cfg <= 0 ->
  generateLayout dom e cfg s = Some ([], s).
Proof.
  intros Hmode Hstep. unfold generateLayout.
  destruct (JsMap.size (assets e) =? 0)%nat; [reflexivity |].
  rewrite Hmode.
  assert (Hle : (PatternConfig.maxSize cfg + PatternConfig.gridGap cfg <=? 0)
                = true) by (apply Rleb_true; exact Hstep).
  rewrite Hle. reflexivity.
Qed.

(** Every run of [generateLayout] on well-formed draws returns, and each
    item it returns follows the rotation policy of the configuration. *)
Lemma generateLayout_returns dom e cfg s :
  well_drawn s ->
  exists items s',
    generateLayout dom e cfg s = Some (items, s')
    /\ well_drawn s'
    /\ Forall (fun it => anglePolicy cfg (LayoutItem.angle it)) items.
Proof.
  intros Hs.
  destruct (Nat.eq_dec (JsMap.size (assets e)) 0) as [E0 | Hne].
  { exists [], s. rewrite generateLayout_empty_registry by exact E0. auto. }
  destruct (PatternConfig.mode cfg) eqn:Emode.
  - destruct (generateLayout_random dom e cfg
                (fun _ _ items =>
                   Forall (fun it => anglePolicy cfg (LayoutItem.angle it)) items)
                s Emode Hne Hs) as (items & s' & _ & _ & E & Hs' & Hall & _).
    + constructor.
    + auto.
    + intros count attempts items asset x y w h it Hall _ _ Hp _ _.
      apply Forall_app. split; [exact Hall |].
      constructor; [apply Hp | constructor].
    + exists items, s'. auto.
  - destruct (Rle_dec (PatternConfig.maxSize cfg + PatternConfig.gridGap cfg) 0)
      as [Hle | Hgt].
    { exists [], s.
      rewrite generateLayout_degenerate_step by assumption. auto. }
    destruct (generateLayout_grid dom e cfg s Emode Hne ltac:(lra) Hs)
      as (items & s' & E & Hs' & Hall & _).
    exists items, s'. split; [exact E |]. split; [exact Hs' |].
    eapply Forall_impl; [| exact Hall].
    intros it (asset & _ & _ & _ & _ & Hang). exact Hang.
Qed.

(** ** The registry *)

Lemma registry_get (m : JsMap.t ProcessedAsset.t) (a : ProcessedAsset.t) :
  registryOk m -> In a (JsMap.values m) ->
  JsMap.get m (ProcessedAsset.id a) = Some a.
Proof.
  unfold registryOk, JsMap.values. intros [Hnd Hkeys] Hin.
  induction m as [| [k v] m IH]; simpl in *; [contradiction |].
  inversion Hnd as [| ? ? Hk Hnd']; subst.
  inversion Hkeys as [| ? ? Hkv Hkeys']; subst. simpl in Hkv.
  destruct Hin as [-> | Hin].
  - rewrite Hkv, String.eqb_refl. reflexivity.
  - destruct (String.eqb_spec k (ProcessedAsset.id a)) as [Ek | _].
    + exfalso. apply Hk. rewrite Ek.
      apply in_map_iff in Hin. destruct Hin as ([k' v'] & Ev & Hin'). simpl in Ev.
      subst v'. apply in_map_iff. exists (k', a). split; [| exact Hin'].
      rewrite Forall_forall in Hkeys'. apply (Hkeys' (k', a) Hin').
    + apply IH; assumption.
Qed.

Lemma set_keys (m : JsMap.t ProcessedAsset.t) (k : string) (v : ProcessedAsset.t) :
  List.map fst (JsMap.set m k v)
  = if in_dec string_dec k (List.map fst m) then List.map fst m
    else List.map fst m ++ [k].
Proof.
  induction m as [| [k' v'] m IH]; simpl; [reflexivity |].
  destruct (String.eqb_spec k' k) as [E | Hne].
  - simpl. destruct (string_dec k' k); [reflexivity | contradiction].
  - simpl. rewrite IH.
    destruct (string_dec k' k) as [E | Hne']; [contradiction |].
    destruct (in_dec string_dec k (List.map fst m)); reflexivity.
Qed.

Lemma set_registryOk (m : JsMap.t ProcessedAsset.t) (a : ProcessedAsset.t) :
  registryOk m -> registryOk (JsMap.set m (ProcessedAsset.id a) a).
Proof.
  intros [Hnd Hkeys]. split.
  - rewrite set_keys.
    destruct (in_dec string_dec (ProcessedAsset.id a) (List.map fst m)) as [| Hnin];
      [exact Hnd |].
    apply NoDup_app; [exact Hnd | repeat constructor; intros [] | ].
    intros k Hk [<- | []]. contradiction.
  - clear Hnd. induction m as [| [k' v'] m IH]; simpl.
    + repeat constructor.
    + inversion Hkeys as [| ? ? Hkv Hkeys']; subst. simpl in Hkv.
      destruct (String.eqb_spec k' (ProcessedAsset.id a)) as [E | _].
      * constructor; [exact E | exact Hkeys'].
      * constructor; [exact Hkv | apply IH; exact Hkeys'].
Qed.

(** [setAssets] always leaves a well-formed registry. *)
Lemma setAssets_registryOk (e : PatternEngine.t) (l : list ProcessedAsset.t) :
  registryOk (assets (setAssets e l)).
Proof.
  unfold setAssets. simpl. unfold JsMap.clear.
  assert (H : forall m, registryOk m ->
            registryOk (fold_left (fun m a => JsMap.set m (ProcessedAsset.id a) a) l m)).
  { induction l as [| a l IH]; intros m Hm; simpl; [exact Hm |].
    apply IH. apply set_registryOk. exact Hm. }
  apply H. split; constructor.
Qed.

Lemma sample_draws_ok : well_drawn Sample.draws.
Proof. intros n. unfold Sample.draws. destruct (Nat.even n); lra. Qed.

Lemma sample_registry_size : JsMap.size (assets Sample.engine) <> 0%nat.
Proof. simpl. discriminate. Qed.

(** ** The claims *)

(** C1. In Random mode with density [N], a positive integer, on a
    non-empty registry, with masking out of play and overlap prevention
    disabled, [generateLayout] returns exactly [N] items: no candidate is
    rejected, so every attempt places an item and the loop stops on the
    count, within the budget of [50 * N] attempts. *)
Theorem random_mode_places_density_items
        (dom : Dom) (e : PatternEngine.t) (cfg : PatternConfig.t)
        (N : nat) (s : RandomSource) :
  PatternConfig.mode cfg = random ->
  PatternConfig.density cfg = INR N ->
  (0 < N)%nat ->
  JsMap.size (assets e) <> 0%nat ->
  maskInactive e cfg ->
  PatternConfig.preventOverlap cfg = false ->
  well_drawn s ->
  exists items s',
    generateLayout dom e cfg s = Some (items, s')
    /\ List.length items = N.
Proof.
  intros Hmode Hden HN Hsize Hmask Hov Hs.
  destruct (generateLayout_random dom e cfg
              (fun count attempts items =>
                 List.length items = count /\ attempts = count /\ (count <= N)%nat)
              s Hmode Hsize Hs)
    as (items & s' & count & attempts & E & _ & (Hlen & Hatt & Hle) & Hstop).
  - repeat split; lia.
  - intros count attempts items x y w h _ [Hm | [Hp _]].
    + rewrite (maskRejects_inactive _ _ _ _ Hmask) in Hm. discriminate.
    + congruence.
  - intros count attempts items asset x y w h it (Hlen & Hatt & Hle) Hlt _ _ _ _.
    rewrite Hden in Hlt. apply INR_lt in Hlt.
    rewrite length_app. simpl. repeat split; lia.
  - exists items, s'. split; [exact E |].
    destruct (Nat.eq_dec count N) as [-> | Hne]; [exact Hlen |].
    exfalso.
    assert (Hlt : INR count < INR N) by (apply lt_INR; lia).
    assert (Hc : (INR count <? PatternConfig.density cfg) = true).
    { apply Rltb_true. rewrite Hden. exact Hlt. }
    assert (Ha : (INR attempts <? PatternConfig.density cfg * 50) = true).
    { apply Rltb_true. rewrite Hden, Hatt. pose proof (pos_INR count). lra. }
    rewrite Hc, Ha in Hstop. discriminate.
Qed.

Lemma random_mode_places_density_items_witness :
  exists items s',
    generateLayout Sample.dom Sample.engine Sample.scatter Sample.draws
    = Some (items, s')
    /\ List.length items = 3%nat.
Proof.
  apply (random_mode_places_density_items
           Sample.dom Sample.engine Sample.scatter 3 Sample.draws).
  - reflexivity.
  - simpl. lra.
  - lia.
  - exact sample_registry_size.
  - left. reflexivity.
  - reflexivity.
  - exact sample_draws_ok.
Defined.

(** C2. With overlap prevention enabled, any two distinct items of a
    Random-mode layout have their centers at least
    [0.8 * max(w_i,h_i)/2 + 0.8 * max(w_j,h_j)/2] apart. *)
Theorem overlap_prevention_keeps_items_apart
        (dom : Dom) (e : PatternEngine.t) (cfg : PatternConfig.t)
        (s : RandomSource) :
  PatternConfig.mode cfg = random ->
  PatternConfig.preventOverlap cfg = true ->
  well_drawn s ->
  exists items s',
    generateLayout dom e cfg s = Some (items, s')
    /\ forall i j a b,
        i <> j -> nth_error items i = Some a -> nth_error items j = Some b ->
        sqrt ((LayoutItem.x a - LayoutItem.x b) ^ 2
              + (LayoutItem.y a - LayoutItem.y b) ^ 2)
        >= 0.8 * Rmax (LayoutItem.w a) (LayoutItem.h a) / 2
           + 0.8 * Rmax (LayoutItem.w b) (LayoutItem.h b) / 2.
Proof.
  intros Hmode Hov Hs.
  destruct (Nat.eq_dec (JsMap.size (assets e)) 0) as [E0 | Hsize].
  { exists [], s. rewrite generateLayout_empty_registry by exact E0.
    split; [reflexivity |]. intros [| i] j a b _ Ha; discriminate. }
  destruct (generateLayout_random dom e cfg (fun _ _ items => pairwiseApart items)
              s Hmode Hsize Hs)
    as (items & s' & _ & _ & E & _ & Hpw & _).
  - intros [| i] j a b _ Ha; discriminate.
  - auto.
  - intros count attempts items asset x y w h it Hpw _ _ Hp _ Hfree.
    apply pairwiseApart_snoc; [exact Hpw |].
    intros b Hb. unfold apart. destruct Hp as [_ -> -> -> -> _].
    apply (overlaps_false items x y w h (Hfree Hov) b Hb).
  - exists items, s'. split; [exact E | exact Hpw].
Qed.

Lemma overlap_prevention_keeps_items_apart_witness :
  exists items s',
    generateLayout Sample.dom Sample.engine Sample.config Sample.draws
    = Some (items, s')
    /\ pairwiseApart items.
Proof.
  apply (overlap_prevention_keeps_items_apart
           Sample.dom Sample.engine Sample.config Sample.draws).
  - reflexivity.
  - reflexivity.
  - exact sample_draws_ok.
Defined.

(** C7. With [rotationRandomness] set, every Grid-mode item is turned by
    exactly [0], [PI/2], [PI] or [3*PI/2], and every Random-mode item by
    an angle in [[0, 2*PI)]; with [rotationRandomness] not set, every item
    has angle [0] in both modes. *)
Theorem rotation_follows_policy
        (dom : Dom) (e : PatternEngine.t) (cfg : PatternConfig.t)
        (s : RandomSource) :
  well_drawn s ->
  exists items s',
    generateLayout dom e cfg s = Some (items, s')
    /\ forall it, In it items ->
        (PatternConfig.rotationRandomness cfg = true ->
         PatternConfig.mode cfg = grid ->
         LayoutItem.angle it = 0 \/ LayoutItem.angle it = PI / 2
         \/ LayoutItem.angle it = PI \/ LayoutItem.angle it = 3 * PI / 2)
        /\ (PatternConfig.rotationRandomness cfg = true ->
            PatternConfig.mode cfg = random ->
            0 <= LayoutItem.angle it < 2 * PI)
        /\ (PatternConfig.rotationRandomness cfg = false ->
            LayoutItem.angle it = 0).
Proof.
  intros Hs.
  destruct (generateLayout_returns dom e cfg s Hs) as (items & s' & E & _ & Hall).
  exists items, s'. split; [exact E |].
  intros it Hin. rewrite Forall_forall in Hall. specialize (Hall it Hin).
  unfold anglePolicy in Hall.
  split; [| split].
  - intros Hrot Hmode. rewrite Hrot, Hmode in Hall. exact Hall.
  - intros Hrot Hmode. rewrite Hrot, Hmode in Hall. exact Hall.
  - intros Hrot. rewrite Hrot in Hall. exact Hall.
Qed.

Lemma rotation_follows_policy_witness :
  exists items s',
    generateLayout Sample.dom Sample.engine Sample.lattice Sample.draws
    = Some (items, s')
    /\ forall it, In it items ->
        (PatternConfig.rotationRandomness Sample.lattice = true ->
         PatternConfig.mode Sample.lattice = grid ->
         LayoutItem.angle it = 0 \/ LayoutItem.angle it = PI / 2
         \/ LayoutItem.angle it = PI \/ LayoutItem.angle it = 3 * PI / 2)
        /\ (PatternConfig.rotationRandomness Sample.lattice = true ->
            PatternConfig.mode Sample.lattice = random ->
            0 <= LayoutItem.angle it < 2 * PI)
        /\ (PatternConfig.rotationRandomness Sample.lattice = false ->
            LayoutItem.angle it = 0).
Proof.
  apply (rotation_follows_policy
           Sample.dom Sample.engine Sample.lattice Sample.draws).
  exact sample_draws_ok.
Defined.

(** C10. In Grid mode every item is [maxSize] wide and
    [maxSize / aspectRatio] high, for the aspect ratio of the motif it
    refers to; so, for a non-zero [maxSize], an item is square exactly
    when that aspect ratio is 1. *)
Theorem grid_item_dimensions
        (dom : Dom) (e : PatternEngine.t) (cfg : PatternConfig.t)
        (s : RandomSource) :
  PatternConfig.mode cfg = grid ->
  registryOk (assets e) ->
  well_drawn s ->
  exists items s',
    generateLayout dom e cfg s = Some (items, s')
    /\ forall it, In it items ->
        LayoutItem.w it = PatternConfig.maxSize cfg
        /\ exists asset,
            JsMap.get (assets e) (LayoutItem.assetId it) = Some asset
            /\ LayoutItem.h it
               = PatternConfig.maxSize cfg / ProcessedAsset.aspectRatio asset
            /\ (PatternConfig.maxSize cfg <> 0 ->
                (LayoutItem.w it = LayoutItem.h it
                 <-> ProcessedAsset.aspectRatio asset = 1)).
Proof.
  intros Hmode Hreg Hs.
  destruct (Nat.eq_dec (JsMap.size (assets e)) 0) as [E0 | Hsize].
  { exists [], s. rewrite generateLayout_empty_registry by exact E0.
    split; [reflexivity | intros it []]. }
  destruct (Rle_dec (PatternConfig.maxSize cfg + PatternConfig.gridGap cfg) 0)
    as [Hle | Hgt].
  { exists [], s. rewrite generateLayout_degenerate_step by assumption.
    split; [reflexivity | intros it []]. }
  destruct (generateLayout_grid dom e cfg s Hmode Hsize ltac:(lra) Hs)
    as (items & s' & E & _ & Hall & _).
  exists items, s'. split; [exact E |].
  intros it Hin. rewrite Forall_forall in Hall.
  destruct (Hall it Hin) as (asset & Hasset & Hid & Hw & Hh & _).
  split; [exact Hw |]. exists asset.
  split; [rewrite Hid; apply registry_get; assumption |].
  split; [exact Hh |].
  intros Hnz. rewrite Hw, Hh. split.
  - intros Heq.
    destruct (Req_dec (ProcessedAsset.aspectRatio asset) 0) as [Hz | Hnz'].
    + rewrite Hz in Heq. unfold Rdiv in Heq. rewrite Rinv_0 in Heq. lra.
    + assert (Hm : PatternConfig.maxSize cfg * ProcessedAsset.aspectRatio asset
                   = PatternConfig.maxSize cfg).
      { rewrite Heq at 1. field. exact Hnz'. }
      nra.
  - intros ->. field.
Qed.

Lemma grid_item_dimensions_witness :
  exists items s',
    generateLayout Sample.dom Sample.engine Sample.lattice Sample.draws
    = Some (items, s')
    /\ forall it, In it items ->
        LayoutItem.w it = PatternConfig.maxSize Sample.lattice
        /\ exists asset,
            JsMap.get (assets Sample.engine) (LayoutItem.assetId it) = Some asset
            /\ LayoutItem.h it
               = PatternConfig.maxSize Sample.lattice
                 / ProcessedAsset.aspectRatio asset
            /\ (PatternConfig.maxSize Sample.lattice <> 0 ->
                (LayoutItem.w it = LayoutItem.h it
                 <-> ProcessedAsset.aspectRatio asset = 1)).
Proof.
  apply (grid_item_dimensions
           Sample.dom Sample.engine Sample.lattice Sample.draws).
  - reflexivity.
  - apply setAssets_registryOk.
  - exact sample_draws_ok.
Defined.

(** C3. In Grid mode the step is [maxSize + gridGap].  A step that is not
    positive gives the empty layout.  Otherwise the cells form
    [ceil(width/step) + 1] columns and [ceil(height/step) + 1] rows, and
    (on a non-empty registry, masking out of play) one item is placed at
    the center of each; neighbouring centers are exactly one step apart;
    the grid is centered on the canvas and reaches beyond it on each of
    the four sides.  For [maxSize = 40] and [gridGap = 10] on a canvas of
    500 by 500, the step is 50 and there are 11 columns and 11 rows. *)
Theorem grid_mode_layout
        (dom : Dom) (e : PatternEngine.t) (cfg : PatternConfig.t)
        (s : RandomSource) :
  PatternConfig.mode cfg = grid ->
  well_drawn s ->
  let step := PatternConfig.maxSize cfg + PatternConfig.gridGap cfg in
  let cols := (Math.ceil (width e / step) + 1)%Z in
  let rows := (Math.ceil (height e / step) + 1)%Z in
  let startX := (width e - IZR cols * step) / 2 + step / 2 in
  let startY := (height e - IZR rows * step) / 2 + step / 2 in
  (step <= 0 -> generateLayout dom e cfg s = Some ([], s))
  /\ (0 < step -> JsMap.size (assets e) <> 0%nat -> maskInactive e cfg ->
      exists items s',
        generateLayout dom e cfg s = Some (items, s')
        /\ List.map center items
           = gridCenters startX startY step (Z.to_nat rows) (Z.to_nat cols))
  /\ (forall r c,
        cellCenter startX startY step (r, S c)
        = (fst (cellCenter startX startY step (r, c)) + step,
           snd (cellCenter startX startY step (r, c)))
        /\ cellCenter startX startY step (S r, c)
           = (fst (cellCenter startX startY step (r, c)),
              snd (cellCenter startX startY step (r, c)) + step))
  /\ (0 < step ->
      (startX - step / 2) + IZR cols * step / 2 = width e / 2
      /\ (startY - step / 2) + IZR rows * step / 2 = height e / 2
      /\ startX - step / 2 < 0
      /\ width e < startX - step / 2 + IZR cols * step
      /\ startY - step / 2 < 0
      /\ height e < startY - step / 2 + IZR rows * step)
  /\ (PatternConfig.maxSize cfg = 40 -> PatternConfig.gridGap cfg = 10 ->
      width e = 500 -> height e = 500 ->
      step = 50 /\ cols = 11%Z /\ rows = 11%Z).
Proof.
  intros Hmode Hs step cols rows startX startY.
  split; [| split; [| split; [| split]]].
  - intros Hle. apply generateLayout_degenerate_step; assumption.
  - intros Hstep Hsize Hmask.
    destruct (generateLayout_grid dom e cfg s Hmode Hsize Hstep Hs)
      as (items & s' & E & _ & _ & Hcenters).
    exists items, s'. split; [exact E |]. apply Hcenters. exact Hmask.
  - intros r c. unfold cellCenter. simpl fst. simpl snd.
    rewrite !S_INR. split; f_equal; ring.
  - intros Hstep.
    assert (Hx : width e + step <= IZR cols * step).
    { unfold cols. rewrite plus_IZR.
      destruct (ceil_spec (width e / step)) as [_ Hc].
      assert (Hw : width e = width e / step * step) by (field; lra).
      rewrite Hw at 1. nra. }
    assert (Hy : height e + step <= IZR rows * step).
    { unfold rows. rewrite plus_IZR.
      destruct (ceil_spec (height e / step)) as [_ Hc].
      assert (Hh : height e = height e / step * step) by (field; lra).
      rewrite Hh at 1. nra. }
    unfold startX, startY. repeat split; lra.
  - intros Hmax Hgap Hw Hh.
    assert (Estep : step = 50) by (unfold step; lra).
    split; [exact Estep |].
    unfold cols, rows. rewrite Hw, Hh, Estep.
    rewrite (ceil_unique (500 / 50) 10) by lra. split; reflexivity.
Qed.

Lemma grid_mode_layout_witness :
  exists items s',
    generateLayout Sample.dom Sample.engine Sample.lattice Sample.draws
    = Some (items, s')
    /\ List.map center items = gridCenters 0 0 50 11 11.
Proof.
  pose proof (grid_mode_layout Sample.dom Sample.engine Sample.lattice
                Sample.draws eq_refl sample_draws_ok)
    as (_ & Hgrid & _ & _ & Hnum).
  destruct (Hnum ltac:(simpl; lra) ltac:(simpl; lra) eq_refl eq_refl)
    as (Estep & Ecols & Erows).
  destruct (Hgrid ltac:(simpl; lra) sample_registry_size
                  (or_introl eq_refl)) as (items & s' & E & Hc).
  exists items, s'. split; [exact E |].
  rewrite Hc, Ecols, Erows, Estep. simpl Z.to_nat.
  replace ((width Sample.engine - 11 * 50) / 2 + 50 / 2) with 0
    by (simpl; lra).
  replace ((height Sample.engine - 11 * 50) / 2 + 50 / 2) with 0
    by (simpl; lra).
  reflexivity.
Defined.

(** ** The mask *)

Lemma typed_array_get_at (data : list Z) (k : Z) :
  (0 <= k)%Z ->
  typed_array_get data (IZR k) = option_map IZR (nth_error data (Z.to_nat k)).
Proof.
  intros Hk. unfold typed_array_get. rewrite floor_IZR.
  destruct (Req_dec_T (IZR k) (IZR k)) as [_ | Hne]; [| congruence].
  unfold js_index. destruct (Z.ltb_spec k 0); [lia | reflexivity].
Qed.

Lemma floor_in_range (x : R) (W : Z) :
  0 <= x < IZR W -> (0 <= Math.floor x < W)%Z.
Proof.
  intros [H0 H1]. destruct (floor_spec x) as [F1 F2]. split.
  - apply Z.lt_succ_r. apply lt_IZR. rewrite succ_IZR. lra.
  - apply lt_IZR. lra.
Qed.

Lemma setMask_built (dom : Dom) (e : PatternEngine.t) (img : HTMLImageElement.t) :
  getContext2d dom = true ->
  exists canvas,
    maskCanvas (setMask dom e (Some img)) = Some canvas
    /\ maskData (setMask dom e (Some img)) = Some (getImageData dom canvas)
    /\ width (setMask dom e (Some img)) = width e
    /\ height (setMask dom e (Some img)) = height e.
Proof.
  intros Hctx. unfold setMask. rewrite Hctx. simpl negb. cbv iota.
  destruct (containRect e img) as [[[dx dy] dw] dh].
  eexists. simpl. repeat split; reflexivity.
Qed.



Lemma containRect_cases (e : PatternEngine.t) (img : HTMLImageElement.t)
      (dx dy dw dh : R) :
  containRect e img = (dx, dy, dw, dh) ->
  let ratio := HTMLImageElement.width img / HTMLImageElement.height img in
  (ratio < width e / height e /\ dh = height e * 0.9 /\ dw = dh * ratio
   \/ width e / height e <= ratio /\ dw = width e * 0.9 /\ dh = dw / ratio)
  /\ dx = (width e - dw) / 2
  /\ dy = (height e - dh) / 2.
Proof.
  intros Hrect ratio. unfold containRect in Hrect. fold ratio in Hrect.
  destruct (width e / height e >? ratio) eqn:Ecmp;
    cbv beta iota zeta in Hrect; injection Hrect as <- <- <- <-.
  - apply Rgtb_true in Ecmp. auto.
  - apply Rgtb_false in Ecmp. auto.
Qed.

Lemma setMask_canvas (dom : Dom) (e : PatternEngine.t) (img : HTMLImageElement.t) :
  getContext2d dom = true ->
  exists dx dy dw dh,
    containRect e img = (dx, dy, dw, dh)
    /\ maskCanvas (setMask dom e (Some img))
       = Some (Canvas (width e) (height e)
                      [DrawImage5 (ImageSource img) dx dy dw dh]).
Proof.
  intros Hctx. unfold setMask. rewrite Hctx. simpl negb. cbv iota.
  destruct (containRect e img) as [[[dx dy] dw] dh].
  exists dx, dy, dw, dh. split; reflexivity.
Qed.

(** C9, as the code has it.  [setMask] draws the reference image once, in
    a rectangle that keeps the aspect ratio of the image, fits within 90%
    of the canvas in both directions, and is centered on the canvas.  The
    constrained dimension is the height when the canvas is relatively
    wider than the image, and the width otherwise; it is 0.9 times that
    dimension of the canvas. *)
Theorem mask_image_contained
        (dom : Dom) (e : PatternEngine.t) (img : HTMLImageElement.t) :
  getContext2d dom = true ->
  0 < width e -> 0 < height e ->
  0 < HTMLImageElement.width img -> 0 < HTMLImageElement.height img ->
  let ratio := HTMLImageElement.width img / HTMLImageElement.height img in
  exists dx dy dw dh,
    maskCanvas (setMask dom e (Some img))
    = Some (Canvas (width e) (height e)
                   [DrawImage5 (ImageSource img) dx dy dw dh])
    /\ dw = dh * ratio
    /\ dw <= 0.9 * width e /\ dh <= 0.9 * height e
    /\ (ratio < width e / height e -> dh = 0.9 * height e)
    /\ (width e / height e <= ratio -> dw = 0.9 * width e)
    /\ dx + dw / 2 = width e / 2
    /\ dy + dh / 2 = height e / 2.
Proof.
  intros Hctx HW HH Hiw Hih ratio.
  destruct (setMask_canvas dom e img Hctx) as (dx & dy & dw & dh & Hrect & Hcanvas).
  exists dx, dy, dw, dh. split; [exact Hcanvas |].
  destruct (containRect_cases e img dx dy dw dh Hrect) as (Hcase & -> & ->).
  fold ratio in Hcase.
  assert (Hratio : 0 < ratio) by (unfold ratio; apply Rdiv_lt_0_compat; assumption).
  assert (Hscreen : width e = width e / height e * height e) by (field; lra).
  set (screen := width e / height e) in *.
  destruct Hcase as [(Hlt & Edh & Edw) | (Hle & Edw & Edh)].
  - repeat split; try lra; try nra.
  - assert (Hdh : dh * ratio = dw) by (rewrite Edh; field; lra).
    repeat split; try lra; try nra.
Qed.

Lemma mask_image_contained_witness :
  exists dx dy dw dh,
    maskCanvas (setMask Sample.dom Sample.wide (Some Sample.banner))
    = Some (Canvas 1000 500
                   [DrawImage5 (ImageSource Sample.banner) dx dy dw dh])
    /\ dw = dh * (400 / 100)
    /\ dw <= 0.9 * 1000 /\ dh <= 0.9 * 500
    /\ (400 / 100 < 1000 / 500 -> dh = 0.9 * 500)
    /\ (1000 / 500 <= 400 / 100 -> dw = 0.9 * 1000)
    /\ dx + dw / 2 = 1000 / 2
    /\ dy + dh / 2 = 500 / 2.
Proof.
  apply (mask_image_contained Sample.dom Sample.wide Sample.banner).
  - reflexivity.
  - simpl. lra.
  - simpl. lra.
  - simpl. lra.
  - simpl. lra.
Defined.

(** C9, as stated, fails: on a canvas of 1000 by 500 an image of 400 by
    100 is drawn 900 wide and 225 high, and neither is 0.9 times the
    shorter side of the canvas (450). *)
Lemma mask_image_not_fit_to_shorter_side :
  exists dx dy dw dh,
    maskCanvas (setMask Sample.dom Sample.wide (Some Sample.banner))
    = Some (Canvas 1000 500
                   [DrawImage5 (ImageSource Sample.banner) dx dy dw dh])
    /\ dw = 900 /\ dh = 225
    /\ dw <> 0.9 * Rmin 1000 500
    /\ dh <> 0.9 * Rmin 1000 500.
Proof.
  destruct (setMask_canvas Sample.dom Sample.wide Sample.banner eq_refl)
    as (dx & dy & dw & dh & Hrect & Hcanvas).
  exists dx, dy, dw, dh. split; [exact Hcanvas |].
  destruct (containRect_cases _ _ _ _ _ _ Hrect) as (Hcase & _ & _).
  simpl in Hcase.
  assert (Hmin : Rmin 1000 500 = 500) by (apply Rmin_right; lra).
  rewrite Hmin.
  destruct Hcase as [(Hlt & _ & _) | (_ & Edw & Edh)]; [lra |].
  assert (Hdw : dw = 900) by lra.
  assert (Hdh : dh = 225) by (rewrite Edh, Hdw; lra).
  repeat split; lra.
Qed.

(** ** Rendering *)

Lemma fold_left_append {A B : Type} (f : B -> list A) (l : list B) (acc : list A) :
  fold_left (fun c b => c ++ f b) l acc = acc ++ flat_map f l.
Proof.
  revert acc. induction l as [| b l IH]; intros acc; simpl.
  - rewrite app_nil_r. reflexivity.
  - rewrite IH, app_assoc. reflexivity.
Qed.

(** The commands one call of [render] adds to the bound context. *)
Lemma render_commands (e : PatternEngine.t) (items : list LayoutItem.t)
      (cfg : PatternConfig.t) (time : R) (c0 : CanvasRenderingContext2D) :
  ctx e = Some c0 ->
  ctx (render e items cfg time)
  = Some (c0 ++ background e cfg ++ flat_map (renderItem e cfg time) items).
Proof.
  intros Hctx. unfold render, background. rewrite Hctx. simpl ctx.
  rewrite fold_left_append. f_equal.
  destruct (PatternConfig.useMask cfg && PatternConfig.showMaskBg cfg);
    [destruct (maskCanvas e) |];
    rewrite <- ?app_assoc; try rewrite app_nil_r; reflexivity.
Qed.

Lemma render_keeps_engine (e : PatternEngine.t) (items : list LayoutItem.t)
      (cfg : PatternConfig.t) (time : R) :
  width (render e items cfg time) = width e
  /\ height (render e items cfg time) = height e
  /\ assets (render e items cfg time) = assets e
  /\ maskData (render e items cfg time) = maskData e
  /\ maskCanvas (render e items cfg time) = maskCanvas e.
Proof. unfold render. destruct (ctx e); simpl; auto. Qed.

(** Where [render] does skip: an item without a cached tinted surface
    whose motif is not in the registry.  [render] only saves, moves, turns
    and restores the context for it, and draws no image. *)
Lemma render_skips_uncached_item_of_missing_motif
        (e : PatternEngine.t) (items : list LayoutItem.t)
        (cfg : PatternConfig.t) (time : R) (c0 : CanvasRenderingContext2D) :
  ctx e = Some c0 ->
  ctx (render e items cfg time)
  = Some (c0 ++ background e cfg ++ flat_map (renderItem e cfg time) items)
  /\ forall item,
      In item items ->
      JsMap.get (assets e) (LayoutItem.assetId item) = None ->
      LayoutItem.cachedCanvas item = None ->
      filter is_drawImage (renderItem e cfg time item) = []
      /\ exists tx ty rot,
          renderItem e cfg time item = [Save; Translate tx ty; Rotate rot; Restore].
Proof.
  intros Hctx. split; [apply render_commands; exact Hctx |].
  intros item _ Hmissing Hcache. unfold renderItem, drawItem.
  rewrite Hmissing, Hcache.
  destruct (animOffsets cfg time item) as [[dx dy] dRot]. simpl.
  split; [reflexivity |]. eexists _, _, _. reflexivity.
Qed.

(** C4.  The claim asks that every item whose motif is gone from the
    registry be skipped, cached surface or not; [exportSVG] and the
    uncached path of [render] do so.  The cached path does not: here the
    motif of a tinted item has been removed, and the item is still
    drawn. *)
Lemma cached_item_of_missing_motif_is_drawn :
  let ghost := Sample.itemOf Sample.leaf (Some "#000000"%string) in
  JsMap.get (assets Sample.pruned) (LayoutItem.assetId ghost) = None
  /\ exists cached ops,
      LayoutItem.cachedCanvas ghost = Some cached
      /\ filter is_drawImage (renderItem Sample.pruned Sample.config 0 ghost)
         = [DrawImage3 (CanvasSource cached)
                       (- LayoutItem.w ghost / 2) (- LayoutItem.h ghost / 2)]
      /\ ctx (render Sample.pruned [ghost] Sample.config 0) = Some ops
      /\ In (DrawImage3 (CanvasSource cached)
                        (- LayoutItem.w ghost / 2) (- LayoutItem.h ghost / 2))
            ops.
Proof.
  intros ghost. split; [reflexivity |].
  eexists _, _. split; [reflexivity |]. split; [reflexivity |].
  split; [reflexivity |]. simpl. auto 10.
Qed.

(** C8, as the code has it.  With animation enabled an item is moved
    down by [amplitude * sin(t*speed*speedMul + phase)], right by
    [0.5 * amplitude * cos(t*speed*0.7*speedMul + phase)] and turned by
    [0.05 * sin(t*speed*0.5*speedMul)], where [speed] is [0.002] times the
    animation speed of the configuration; with animation disabled the
    three offsets are zero at every time. *)
Theorem animation_offsets
        (e : PatternEngine.t) (cfg : PatternConfig.t) (time : R)
        (item : LayoutItem.t) :
  let amplitude := PatternConfig.animAmplitude cfg in
  let speed := 0.002 * PatternConfig.animSpeed cfg in
  let speedMul := LayoutItem.animSpeedMul item in
  let phase := LayoutItem.animPhase item in
  (PatternConfig.enableAnim cfg = true ->
   let dy := amplitude * sin (time * speed * speedMul + phase) in
   let dx := 0.5 * amplitude * cos (time * speed * 0.7 * speedMul + phase) in
   let dRot := 0.05 * sin (time * speed * 0.5 * speedMul) in
   animOffsets cfg time item = (dx, dy, dRot)
   /\ renderItem e cfg time item
      = [Save;
         Translate (LayoutItem.x item + dx) (LayoutItem.y item + dy);
         Rotate (LayoutItem.angle item + dRot)]
        ++ drawItem e item ++ [Restore])
  /\ (PatternConfig.enableAnim cfg = false ->
      animOffsets cfg time item = (0, 0, 0)
      /\ renderItem e cfg time item
         = [Save;
            Translate (LayoutItem.x item) (LayoutItem.y item);
            Rotate (LayoutItem.angle item)]
           ++ drawItem e item ++ [Restore]).
Proof.
  intros amplitude speed speedMul phase. split.
  - intros Hon dy dx dRot.
    assert (Hoff : animOffsets cfg time item = (dx, dy, dRot)).
    { unfold animOffsets. rewrite Hon.
      unfold dx, dy, dRot, amplitude, speed, speedMul, phase.
      f_equal; [f_equal |].
      - replace (time * (PatternConfig.animSpeed cfg * 0.002)
                 * LayoutItem.animSpeedMul item * 0.7 + LayoutItem.animPhase item)
          with (time * (0.002 * PatternConfig.animSpeed cfg) * 0.7
                * LayoutItem.animSpeedMul item + LayoutItem.animPhase item)
          by ring.
        ring.
      - replace (time * (PatternConfig.animSpeed cfg * 0.002)
                 * LayoutItem.animSpeedMul item + LayoutItem.animPhase item)
          with (time * (0.002 * PatternConfig.animSpeed cfg)
                * LayoutItem.animSpeedMul item + LayoutItem.animPhase item)
          by ring.
        ring.
      - replace (time * (PatternConfig.animSpeed cfg * 0.002)
                 * LayoutItem.animSpeedMul item * 0.5)
          with (time * (0.002 * PatternConfig.animSpeed cfg) * 0.5
                * LayoutItem.animSpeedMul item)
          by ring.
        ring. }
    split; [exact Hoff |]. unfold renderItem. rewrite Hoff. reflexivity.
  - intros Hoff.
    assert (Hzero : animOffsets cfg time item = (0, 0, 0)).
    { unfold animOffsets. rewrite Hoff. reflexivity. }
    split; [exact Hzero |]. unfold renderItem. rewrite Hzero.
    rewrite !Rplus_0_r. reflexivity.
Qed.

Lemma animation_offsets_witness :
  animOffsets Sample.animated 1000 (Sample.itemOf Sample.leaf None)
  = (0.5 * 15 * cos (1000 * (0.002 * 20) * 0.7 * 1 + 0),
     15 * sin (1000 * (0.002 * 20) * 1 + 0),
     0.05 * sin (1000 * (0.002 * 20) * 0.5 * 1)).
Proof.
  exact (proj1 (proj1 (animation_offsets Sample.engine Sample.animated 1000
                         (Sample.itemOf Sample.leaf None)) eq_refl)).
Defined.

(** C8, as stated, fails: the speed in the formulas is not the animation
    speed of the configuration.  At speed 20 and [t = 1/20] the vertical
    offset of an item with multiplier 1 and phase 0 is [15 * sin 0.002],
    not [15 * sin 1]. *)
Lemma animation_speed_is_scaled :
  let cfg := Sample.animated in
  let item := Sample.itemOf Sample.leaf None in
  let t := 1 / 20 in
  PatternConfig.enableAnim cfg = true
  /\ snd (fst (animOffsets cfg t item))
     <> PatternConfig.animAmplitude cfg
        * sin (t * PatternConfig.animSpeed cfg * LayoutItem.animSpeedMul item
               + LayoutItem.animPhase item).
Proof.
  intros cfg item t. split; [reflexivity |].
  assert (Hgen : forall u v, u = 0.002 -> v = 1 -> sin u * 15 <> 15 * sin v).
  { intros u v -> ->.
    assert (Hlt : sin 0.002 < sin 1).
    { pose proof PI2_1. apply sin_increasing_1; lra. }
    lra. }
  unfold animOffsets, cfg, item, t. simpl.
  apply Hgen; lra.
Qed.

(** ** Export *)

Lemma exportSVG_flat (e : PatternEngine.t) (items : list LayoutItem.t) :
  exportSVG e items
  = [Lit (tpl "<svg width='"); Num (width e);
     Lit (tpl "' height='"); Num (height e);
     Lit (tpl "' xmlns='http://www.w3.org/2000/svg' xmlns:xlink='http://www.w3.org/1999/xlink'>")]
    ++ flat_map (exportItem e) items ++ [Lit "</svg>"].
Proof.
  unfold exportSVG. rewrite fold_left_append, <- app_assoc. reflexivity.
Qed.

Lemma readTransforms_item (e : PatternEngine.t) (item : LayoutItem.t)
      (asset : ProcessedAsset.t) (rest : list Piece) :
  JsMap.get (assets e) (LayoutItem.assetId item) = Some asset ->
  readTransforms (exportItem e item ++ rest)
  = transformOf item :: readTransforms rest.
Proof.
  intros Hget. unfold exportItem. rewrite Hget.
  destruct (isVector asset); reflexivity.
Qed.







(** ** More about [addItem] and the loops *)

Lemma palette_pick (colors : list string) (r : R) :
  0 <= r < 1 -> (0 <? List.length colors)%nat = true ->
  exists c,
    js_index colors (Math.floor (r * INR (List.length colors))) = Some c
    /\ In c colors.
Proof.
  intros Hr Hlen. apply js_index_some. apply floor_scaled_draw; [exact Hr |].
  apply Nat.ltb_lt. exact Hlen.
Qed.

Lemma speedMul_range (r : R) : 0 <= r < 1 -> 0.8 <= 0.8 + r * 0.4 < 1.2.
Proof. intros Hr. lra. Qed.

(** [addItem] appends exactly one item, and this is how it is built. *)
Lemma addItem_builds (dom : Dom) (items : list LayoutItem.t)
      (asset : ProcessedAsset.t) (x y sz : R) (hc : R + PatternConfig.t)
      (co : option PatternConfig.t) (direct : bool)
      (cfg : PatternConfig.t) (w h : R) (s : RandomSource) :
  well_drawn s ->
  (direct = true /\ hc = inl h /\ co = Some cfg /\ w = sz) \/
  (direct = false /\ hc = inr cfg /\ w = sz
   /\ h = sz / ProcessedAsset.aspectRatio asset) ->
  exists it s',
    addItem dom items asset x y sz hc co direct s = Some (items ++ [it], s')
    /\ well_drawn s' /\ built dom cfg asset x y w h it.
Proof.
  intros Hs Hshape.
  assert (Hdims :
    (if direct then
       match hc, co with
       | inl h0, Some c => ret (sz, h0, c)
       | _, _ => fail
       end
     else
       match hc with
       | inr c => ret (sz, sz / ProcessedAsset.aspectRatio asset, c)
       | inl _ => fail
       end) = (ret (w, h, cfg) : M (R * R * PatternConfig.t))).
  { destruct Hshape as [(-> & -> & -> & ->) | (-> & -> & -> & ->)]; reflexivity. }
  unfold addItem. rewrite Hdims. clear Hdims Hshape.
  unfold bind at 1. unfold ret at 1.
  assert (Hpalette : forall r, 0 <= r < 1 ->
            PatternConfig.useRandomColor cfg
            && (0 <? List.length (PatternConfig.colors cfg))%nat = true ->
            exists c,
              js_index (PatternConfig.colors cfg)
                (Math.floor (r * INR (List.length (PatternConfig.colors cfg))))
              = Some c /\ In c (PatternConfig.colors cfg)).
  { intros r Hr Hc. apply andb_true_iff in Hc. apply palette_pick; tauto. }
  assert (Hoff : PatternConfig.useRandomColor cfg
                 && (0 <? List.length (PatternConfig.colors cfg))%nat = false ->
                 PatternConfig.useRandomColor cfg = true ->
                 PatternConfig.colors cfg <> [] -> False).
  { intros Hc Hu Hne. rewrite Hu in Hc. simpl in Hc.
    apply Nat.ltb_ge in Hc. destruct (PatternConfig.colors cfg);
      [congruence | simpl in Hc; lia]. }
  assert (Hon : PatternConfig.useRandomColor cfg
                && (0 <? List.length (PatternConfig.colors cfg))%nat = true ->
                PatternConfig.useRandomColor cfg = false
                \/ PatternConfig.colors cfg = [] -> False).
  { intros Hc [Hu | He]; [rewrite Hu in Hc | rewrite He in Hc; simpl in Hc];
      try discriminate.
    rewrite andb_false_r in Hc. discriminate. }
  destruct (PatternConfig.rotationRandomness cfg) eqn:Erot;
    [destruct (PatternConfig.mode cfg) eqn:Emode |];
    destruct (PatternConfig.useRandomColor cfg
              && (0 <? List.length (PatternConfig.colors cfg))%nat) eqn:Ecol;
    cbv [bind ret Math_random];
    eexists; eexists; (split; [reflexivity |]);
    (split; [intros n; apply Hs |]);
    (constructor; simpl;
     [ constructor; simpl; try reflexivity;
       unfold anglePolicy; rewrite Erot; try rewrite Emode;
       solve [ reflexivity | apply free_turn; apply Hs
             | apply quarter_turn; apply Hs ]
     | apply free_turn; apply Hs
     | apply speedMul_range; apply Hs
     | first [ reflexivity | intros Hc; exfalso; exact (Hon eq_refl Hc) ]
     | first [ intros Hu Hne; exfalso; exact (Hoff eq_refl Hu Hne)
             | intros _ _; apply Hpalette; [apply Hs | reflexivity] ]
     | reflexivity ]).
Qed.

Section RandomLoopItems.

Variables (dom : Dom) (e : PatternEngine.t) (cfg : PatternConfig.t).
Variable maxAttempts : R.
Variable Inv : nat -> nat -> list LayoutItem.t -> Prop.

Hypothesis mode_random : PatternConfig.mode cfg = random.
Hypothesis registry_inhabited : JsMap.values (assets e) <> [].

Hypothesis Inv_reject :
  forall count attempts items,
    Inv count attempts items ->
    INR attempts < maxAttempts ->
    Inv count (S attempts) items.

Hypothesis Inv_accept :
  forall count attempts items it,
    Inv count attempts items ->
    INR count < PatternConfig.density cfg ->
    INR attempts < maxAttempts ->
    generated dom e cfg it ->
    Inv (S count) (S attempts) (items ++ [it]).

(** The rule of the [while] loop again, now telling how each accepted
    item was generated. *)
Lemma randomLoop_items :
  forall (fuel count attempts : nat) (items : list LayoutItem.t)
         (s : RandomSource),
    well_drawn s ->
    maxAttempts <= INR attempts + INR fuel ->
    Inv count attempts items ->
    exists items' s' count' attempts',
      randomLoop dom e cfg (JsMap.values (assets e)) maxAttempts
                 fuel count attempts items s = Some (items', s')
      /\ well_drawn s'
      /\ Inv count' attempts' items'
      /\ (INR count' <? PatternConfig.density cfg)
         && (INR attempts' <? maxAttempts) = false.
Proof.
  induction fuel as [| fuel IH]; intros count attempts items s Hs Hfuel Hinv;
    rewrite randomLoop_eq;
    destruct ((INR count <? PatternConfig.density cfg)
              && (INR attempts <? maxAttempts)) eqn:Econd;
    try (exists items, s, count, attempts; unfold ret; auto; fail).
  - apply andb_true_iff in Econd. destruct Econd as [_ Hatt].
    apply Rltb_true in Hatt. simpl in Hfuel. lra.
  - apply andb_true_iff in Econd. destruct Econd as [Hcount Hatt].
    apply Rltb_true in Hcount. apply Rltb_true in Hatt.
    assert (Hfuel' : maxAttempts <= INR (S attempts) + INR fuel).
    { rewrite S_INR in *. lra. }
    rewrite random_some, random_some.
    set (s2 := fun n => s (S (S n))).
    assert (Hs2 : well_drawn s2) by (intros n; apply Hs).
    set (x := s 0%nat * width e). set (y := s 1%nat * height e).
    destruct (maskRejects e cfg x y) eqn:Emask.
    + apply IH; [exact Hs2 | exact Hfuel' |].
      apply Inv_reject; assumption.
    + rewrite random_some, random_some.
      set (s4 := fun n => s2 (S (S n))).
      assert (Hs4 : well_drawn s4) by (intros n; apply Hs2).
      destruct (pick_asset (JsMap.values (assets e)) (s2 1%nat) (Hs2 1%nat)
                           registry_inhabited) as (asset & Epick & Hin).
      rewrite Epick. unfold of_option, bind at 1, ret at 1. cbv zeta.
      set (w := s2 0%nat
                * (PatternConfig.maxSize cfg - PatternConfig.minSize cfg)
                + PatternConfig.minSize cfg).
      set (h := w / ProcessedAsset.aspectRatio asset).
      destruct (PatternConfig.preventOverlap cfg && overlaps items x y w h)
               eqn:Eov.
      * apply IH; [exact Hs4 | exact Hfuel' |].
        apply Inv_reject; assumption.
      * destruct (addItem_builds dom items asset x y w (inl h) (Some cfg)
                    true cfg w h s4 Hs4) as (it & s5 & Eadd & Hs5 & Hb).
        { left. auto. }
        rewrite (bind_some _ _ _ _ _ Eadd).
        apply IH; [exact Hs5 | exact Hfuel' |].
        apply Inv_accept; try assumption.
        exists asset, x, y, w, h. repeat split; try assumption; try apply Hb.
        unfold sited. rewrite mode_random.
        exists (s 0%nat), (s 1%nat), (s2 0%nat).
        repeat split; try apply Hs; try apply Hs2; reflexivity.
Qed.

End RandomLoopItems.

Lemma gridCell_builds dom e cfg r c items s :
  PatternConfig.mode cfg = grid ->
  (r < Z.to_nat (gridRows e cfg))%nat ->
  (c < Z.to_nat (gridCols e cfg))%nat ->
  well_drawn s -> JsMap.values (assets e) <> [] ->
  exists new s',
    gridCell dom e cfg (JsMap.values (assets e))
             (gridStartX e cfg) (gridStartY e cfg) (gridStep cfg)
             (PatternConfig.maxSize cfg) r c items s
    = Some (items ++ new, s')
    /\ well_drawn s'
    /\ Forall (generated dom e cfg) new
    /\ (List.length new <= 1)%nat.
Proof.
  intros Hmode Hr Hc Hs Hne. unfold gridCell.
  set (x := gridStartX e cfg + INR c * gridStep cfg).
  set (y := gridStartY e cfg + INR r * gridStep cfg).
  destruct (maskRejects e cfg x y) eqn:Em.
  - exists [], s. rewrite app_nil_r.
    split; [reflexivity |]. split; [exact Hs |]. split; [constructor |].
    simpl. lia.
  - rewrite random_some.
    destruct (pick_asset (JsMap.values (assets e)) (s 0%nat) (Hs 0%nat) Hne)
      as (asset & Epick & Hin).
    rewrite Epick. unfold of_option, bind at 1, ret at 1.
    destruct (addItem_builds dom items asset x y (PatternConfig.maxSize cfg)
                (inr cfg) None false cfg (PatternConfig.maxSize cfg)
                (PatternConfig.maxSize cfg / ProcessedAsset.aspectRatio asset)
                (fun n => s (S n)) (well_drawn_tail s Hs))
      as (it & s' & Eadd & Hs' & Hb).
    { right. auto. }
    exists [it], s'. split; [exact Eadd |]. split; [exact Hs' |].
    split; [| simpl; lia].
    constructor; [| constructor].
    exists asset, x, y, (PatternConfig.maxSize cfg),
      (PatternConfig.maxSize cfg / ProcessedAsset.aspectRatio asset).
    repeat split; try assumption; try apply Hb.
    unfold sited. rewrite Hmode. split; [reflexivity |].
    exists r, c. repeat split; assumption.
Qed.

Lemma grid_row_generated dom e cfg r items s :
  PatternConfig.mode cfg = grid ->
  (r < Z.to_nat (gridRows e cfg))%nat ->
  well_drawn s -> JsMap.values (assets e) <> [] ->
  exists new s',
    for_from (Z.to_nat (gridCols e cfg)) 0
      (gridCell dom e cfg (JsMap.values (assets e))
                (gridStartX e cfg) (gridStartY e cfg) (gridStep cfg)
                (PatternConfig.maxSize cfg) r) items s
    = Some (items ++ new, s')
    /\ well_drawn s'
    /\ Forall (generated dom e cfg) new
    /\ (List.length new <= Z.to_nat (gridCols e cfg))%nat.
Proof.
  intros Hmode Hr Hs Hne.
  destruct (for_from_rule
              (fun c acc =>
                 exists new, acc = items ++ new
                   /\ Forall (generated dom e cfg) new
                   /\ (List.length new <= c)%nat)
              (gridCell dom e cfg (JsMap.values (assets e))
                        (gridStartX e cfg) (gridStartY e cfg) (gridStep cfg)
                        (PatternConfig.maxSize cfg) r)
              (Z.to_nat (gridCols e cfg)) 0%nat items s Hs)
    as (acc' & s' & E & Hs' & new & -> & Hall & Hlen).
  - exists []. rewrite app_nil_r. repeat split; [constructor | simpl; lia].
  - intros c a s0 Hc Hs0 (new & -> & Hall & Hlen).
    destruct (gridCell_builds dom e cfg r c (items ++ new) s0 Hmode Hr
                ltac:(lia) Hs0 Hne) as (new' & s1 & E & Hs1 & Hall' & Hlen').
    exists ((items ++ new) ++ new'), s1. split; [exact E |]. split; [exact Hs1 |].
    exists (new ++ new'). split; [symmetry; apply app_assoc |].
    split; [apply Forall_app; auto |]. rewrite length_app. lia.
  - exists new, s'. auto.
Qed.

(** Grid mode with a positive step on a non-empty registry, with or
    without a mask. *)
Lemma generateLayout_grid_generated dom e cfg s :
  PatternConfig.mode cfg = grid ->
  JsMap.size (assets e) <> 0%nat ->
  0 < gridStep cfg ->
  well_drawn s ->
  exists items s',
    generateLayout dom e cfg s = Some (items, s')
    /\ well_drawn s'
    /\ Forall (generated dom e cfg) items
    /\ (List.length items
        <= Z.to_nat (gridRows e cfg) * Z.to_nat (gridCols e cfg))%nat.
Proof.
  intros Hmode Hsize Hstep Hs.
  assert (Hne : JsMap.values (assets e) <> []).
  { apply registry_nonempty. apply Nat.eqb_neq. exact Hsize. }
  unfold generateLayout.
  destruct (Nat.eqb_spec (JsMap.size (assets e)) 0) as [E0 | _]; [contradiction |].
  rewrite Hmode.
  assert (Hle : (PatternConfig.maxSize cfg + PatternConfig.gridGap cfg <=? 0)
                = false) by (apply Rleb_false; exact Hstep).
  rewrite Hle. unfold for_range.
  destruct (for_from_rule
              (fun r acc =>
                 Forall (generated dom e cfg) acc
                 /\ (List.length acc <= r * Z.to_nat (gridCols e cfg))%nat)
              (fun r items =>
                 for_from (Z.to_nat (gridCols e cfg)) 0
                   (gridCell dom e cfg (JsMap.values (assets e))
                             (gridStartX e cfg) (gridStartY e cfg) (gridStep cfg)
                             (PatternConfig.maxSize cfg) r) items)
              (Z.to_nat (gridRows e cfg)) 0%nat [] s Hs)
    as (acc' & s' & E & Hs' & Hall & Hlen).
  - split; [constructor | simpl; lia].
  - intros r a s0 Hr Hs0 (Hall & Hlen).
    destruct (grid_row_generated dom e cfg r a s0 Hmode ltac:(lia) Hs0 Hne)
      as (new & s1 & E & Hs1 & Hall' & Hlen').
    exists (a ++ new), s1. split; [exact E |]. split; [exact Hs1 |].
    split; [apply Forall_app; auto |]. rewrite length_app. simpl. lia.
  - exists acc', s'. split; [exact E |]. auto.
Qed.

(** Every run of [generateLayout] on well-formed draws returns, and every
    item of the layout was generated on this engine under this
    configuration. *)
Lemma generateLayout_generated dom e cfg s :
  well_drawn s ->
  exists items s',
    generateLayout dom e cfg s = Some (items, s')
    /\ well_drawn s'
    /\ Forall (generated dom e cfg) items.
Proof.
  intros Hs.
  destruct (Nat.eq_dec (JsMap.size (assets e)) 0) as [E0 | Hne].
  { exists [], s. rewrite generateLayout_empty_registry by exact E0. auto. }
  destruct (PatternConfig.mode cfg) eqn:Emode.
  - assert (Hreg : JsMap.values (assets e) <> []).
    { apply registry_nonempty. apply Nat.eqb_neq. exact Hne. }
    destruct (randomLoop_items dom e cfg (PatternConfig.density cfg * 50)
                (fun _ _ items => Forall (generated dom e cfg) items)
                Emode Hreg)
      with (fuel := Z.to_nat (Math.ceil (PatternConfig.density cfg * 50)))
           (count := 0%nat) (attempts := 0%nat)
           (items := @nil LayoutItem.t) (s := s)
      as (items & s' & _ & _ & E & Hs' & Hall & _).
    + auto.
    + intros count attempts items it Hall _ _ Hg.
      apply Forall_app. split; [exact Hall | constructor; [exact Hg | constructor]].
    + exact Hs.
    + apply fuel_enough.
    + constructor.
    + exists items, s'. unfold generateLayout.
      destruct (Nat.eqb_spec (JsMap.size (assets e)) 0) as [E0 | _];
        [contradiction |].
      rewrite Emode. auto.
  - destruct (Rle_dec (gridStep cfg) 0) as [Hle | Hgt].
    { exists [], s.
      rewrite generateLayout_degenerate_step by assumption. auto. }
    destruct (generateLayout_grid_generated dom e cfg s Emode Hne ltac:(lra) Hs)
      as (items & s' & E & Hs' & Hall & _).
    exists items, s'. auto.
Qed.

(** ** Further properties of the layout generator *)

Lemma generated_fields dom e cfg it :
  generated dom e cfg it ->
  exists asset,
    In asset (JsMap.values (assets e))
    /\ built dom cfg asset (LayoutItem.x it) (LayoutItem.y it)
             (LayoutItem.w it) (LayoutItem.h it) it
    /\ LayoutItem.h it = LayoutItem.w it / ProcessedAsset.aspectRatio asset
    /\ maskRejects e cfg (LayoutItem.x it) (LayoutItem.y it) = false
    /\ sited e cfg (LayoutItem.x it) (LayoutItem.y it) (LayoutItem.w it).
Proof.
  intros (asset & x & y & w & h & Hin & Hb & Hh & Hm & Hsite).
  destruct (built_placed _ _ _ _ _ _ _ _ Hb) as [_ Hx Hy Hw Hh' _].
  exists asset. rewrite Hx, Hy, Hw, Hh'.
  split; [exact Hin |]. split; [exact Hb |]. split; [exact Hh |].
  split; [exact Hm | exact Hsite].
Qed.

(** X1. [generateLayout] returns a layout for every engine and every
    configuration, on any well-formed draws: no motif lookup is ever
    [undefined], and the attempt budget ends the loop of Random mode. *)
Theorem generateLayout_always_returns
        (dom : Dom) (e : PatternEngine.t) (cfg : PatternConfig.t)
        (s : RandomSource) :
  well_drawn s ->
  exists items s',
    generateLayout dom e cfg s = Some (items, s') /\ well_drawn s'.
Proof.
  intros Hs.
  destruct (generateLayout_generated dom e cfg s Hs) as (items & s' & E & Hs' & _).
  exists items, s'. auto.
Qed.

Lemma generateLayout_always_returns_witness :
  exists items s',
    generateLayout Sample.dom Sample.engine Sample.config Sample.draws
    = Some (items, s')
    /\ well_drawn s'.
Proof.
  apply (generateLayout_always_returns
           Sample.dom Sample.engine Sample.config Sample.draws).
  exact sample_draws_ok.
Defined.

(** X2. On an empty registry [generateLayout] returns the empty layout in
    both modes, and takes no random draw. *)
Theorem empty_registry_gives_empty_layout
        (dom : Dom) (e : PatternEngine.t) (cfg : PatternConfig.t)
        (s : RandomSource) :
  JsMap.size (assets e) = 0%nat ->
  generateLayout dom e cfg s = Some ([], s).
Proof. apply generateLayout_empty_registry. Qed.

Lemma empty_registry_gives_empty_layout_witness :
  generateLayout Sample.dom Scene.bare Sample.lattice Sample.draws
  = Some ([], Sample.draws)
  /\ generateLayout Sample.dom Scene.bare Sample.config Sample.draws
     = Some ([], Sample.draws).
Proof.
  split.
  - apply (empty_registry_gives_empty_layout
             Sample.dom Scene.bare Sample.lattice Sample.draws).
    reflexivity.
  - apply (empty_registry_gives_empty_layout
             Sample.dom Scene.bare Sample.config Sample.draws).
    reflexivity.
Defined.

(** X3. Random mode never places more items than the density asks for:
    the layout is empty, or its length is below [density + 1]; for a
    density that is not positive it is empty. *)
Theorem random_mode_respects_density
        (dom : Dom) (e : PatternEngine.t) (cfg : PatternConfig.t)
        (s : RandomSource) :
  PatternConfig.mode cfg = random ->
  well_drawn s ->
  exists items s',
    generateLayout dom e cfg s = Some (items, s')
    /\ (items = [] \/ INR (List.length items) < PatternConfig.density cfg + 1)
    /\ (PatternConfig.density cfg <= 0 -> items = []).
Proof.
  intros Hmode Hs.
  destruct (Nat.eq_dec (JsMap.size (assets e)) 0) as [E0 | Hsize].
  { exists [], s. rewrite generateLayout_empty_registry by exact E0. auto. }
  destruct (generateLayout_random dom e cfg
              (fun count _ items =>
                 List.length items = count
                 /\ (count = 0%nat \/ INR count < PatternConfig.density cfg + 1))
              s Hmode Hsize Hs)
    as (items & s' & count & _ & E & _ & (Hlen & Hbound) & _).
  - split; [reflexivity | left; reflexivity].
  - auto.
  - intros count attempts items asset x y w h it (Hlen & _) Hlt _ _ _ _.
    rewrite length_app. simpl List.length. split; [lia |].
    right. rewrite S_INR. lra.
  - exists items, s'. split; [exact E |].
    assert (Hcases : items = []
                     \/ INR (List.length items) < PatternConfig.density cfg + 1).
    { destruct Hbound as [H0 | Hlt].
      - left. subst count. destruct items; [reflexivity | discriminate].
      - right. rewrite Hlen. exact Hlt. }
    split; [exact Hcases |].
    intros Hneg. destruct Hcases as [Hnil | Hlt]; [exact Hnil |].
    destruct items as [| it items]; [reflexivity |].
    exfalso. simpl List.length in Hlt. rewrite S_INR in Hlt.
    pose proof (pos_INR (List.length items)). lra.
Qed.

Lemma random_mode_respects_density_witness :
  exists items s',
    generateLayout Sample.dom Sample.engine Sample.scatter Sample.draws
    = Some (items, s')
    /\ (items = [] \/ INR (List.length items) < 3 + 1)
    /\ (3 <= 0 -> items = []).
Proof.
  apply (random_mode_respects_density
           Sample.dom Sample.engine Sample.scatter Sample.draws).
  - reflexivity.
  - exact sample_draws_ok.
Defined.

(** X4. In Random mode on a canvas of positive width and height, every
    item has its center on the canvas, [0 <= x < width] and
    [0 <= y < height], and a width between [minSize] and [maxSize]
    (whichever of the two is the smaller). *)
Theorem random_items_on_canvas
        (dom : Dom) (e : PatternEngine.t) (cfg : PatternConfig.t)
        (s : RandomSource) :
  PatternConfig.mode cfg = random ->
  0 < width e -> 0 < height e ->
  well_drawn s ->
  exists items s',
    generateLayout dom e cfg s = Some (items, s')
    /\ forall it, In it items ->
        0 <= LayoutItem.x it < width e
        /\ 0 <= LayoutItem.y it < height e
        /\ Rmin (PatternConfig.minSize cfg) (PatternConfig.maxSize cfg)
           <= LayoutItem.w it
           <= Rmax (PatternConfig.minSize cfg) (PatternConfig.maxSize cfg).
Proof.
  intros Hmode HW HH Hs.
  destruct (generateLayout_generated dom e cfg s Hs) as (items & s' & E & _ & Hall).
  exists items, s'. split; [exact E |].
  intros it Hin. rewrite Forall_forall in Hall.
  destruct (generated_fields _ _ _ _ (Hall it Hin))
    as (asset & _ & _ & _ & _ & Hsite).
  unfold sited in Hsite. rewrite Hmode in Hsite.
  destruct Hsite as (rx & ry & rs & Hrx & Hry & Hrs & -> & -> & ->).
  split; [nra |]. split; [nra |].
  unfold Rmin, Rmax.
  destruct (Rle_dec (PatternConfig.minSize cfg) (PatternConfig.maxSize cfg));
    nra.
Qed.

Lemma random_items_on_canvas_witness :
  exists items s',
    generateLayout Sample.dom Sample.engine Sample.config Sample.draws
    = Some (items, s')
    /\ forall it, In it items ->
        0 <= LayoutItem.x it < 500
        /\ 0 <= LayoutItem.y it < 500
        /\ Rmin 40 120 <= LayoutItem.w it <= Rmax 40 120.
Proof.
  apply (random_items_on_canvas
           Sample.dom Sample.engine Sample.config Sample.draws).
  - reflexivity.
  - simpl. lra.
  - simpl. lra.
  - exact sample_draws_ok.
Defined.

(** X5. With masking enabled and a mask built, every item of a layout, in
    Grid mode as in Random mode, has its center where the mask test is
    true; so a mask that is true nowhere gives the empty layout. *)
Theorem items_lie_inside_mask
        (dom : Dom) (e : PatternEngine.t) (cfg : PatternConfig.t)
        (data : list Z) (s : RandomSource) :
  PatternConfig.useMask cfg = true ->
  maskData e = Some data ->
  well_drawn s ->
  exists items s',
    generateLayout dom e cfg s = Some (items, s')
    /\ (forall it, In it items ->
          checkMask e (LayoutItem.x it) (LayoutItem.y it) = true)
    /\ ((forall x y, checkMask e x y = false) -> items = []).
Proof.
  intros Hmask Hdata Hs.
  destruct (generateLayout_generated dom e cfg s Hs) as (items & s' & E & _ & Hall).
  exists items, s'. split; [exact E |].
  rewrite Forall_forall in Hall.
  assert (Hin : forall it, In it items ->
            checkMask e (LayoutItem.x it) (LayoutItem.y it) = true).
  { intros it Hit.
    destruct (generated_fields _ _ _ _ (Hall it Hit))
      as (asset & _ & _ & _ & Hrej & _).
    unfold maskRejects in Hrej. rewrite Hmask, Hdata in Hrej.
    destruct (checkMask e (LayoutItem.x it) (LayoutItem.y it));
      [reflexivity | discriminate]. }
  split; [exact Hin |].
  intros Hnowhere. destruct items as [| it items]; [reflexivity |].
  specialize (Hin it (or_introl eq_refl)). rewrite Hnowhere in Hin. discriminate.
Qed.

(** X6. Every item of a layout, in both modes, has an animation phase in
    [[0, 2*PI)] and a speed multiplier in [[0.8, 1.2)]. *)
Theorem items_animation_parameters
        (dom : Dom) (e : PatternEngine.t) (cfg : PatternConfig.t)
        (s : RandomSource) :
  well_drawn s ->
  exists items s',
    generateLayout dom e cfg s = Some (items, s')
    /\ forall it, In it items ->
        0 <= LayoutItem.animPhase it < 2 * PI
        /\ 0.8 <= LayoutItem.animSpeedMul it < 1.2.
Proof.
  intros Hs.
  destruct (generateLayout_generated dom e cfg s Hs) as (items & s' & E & _ & Hall).
  exists items, s'. split; [exact E |].
  intros it Hin. rewrite Forall_forall in Hall.
  destruct (generated_fields _ _ _ _ (Hall it Hin)) as (asset & _ & Hb & _).
  split; [apply Hb | apply Hb].
Qed.

Lemma items_animation_parameters_witness :
  exists items s',
    generateLayout Sample.dom Sample.engine Sample.lattice Sample.draws
    = Some (items, s')
    /\ forall it, In it items ->
        0 <= LayoutItem.animPhase it < 2 * PI
        /\ 0.8 <= LayoutItem.animSpeedMul it < 1.2.
Proof.
  apply (items_animation_parameters
           Sample.dom Sample.engine Sample.lattice Sample.draws).
  exact sample_draws_ok.
Defined.

Lemma canvasDimension_floor (v : R) (default : Z) :
  0 <= v < 2147483648 -> canvasDimension v default = Math.floor v.
Proof.
  intros [H0 H1]. unfold canvasDimension, truncate.
  assert (Hle : (0 <=? v) = true) by (apply Rleb_true; exact H0).
  rewrite Hle.
  destruct (floor_in_range v 2147483648 (conj H0 H1)) as [F0 F1].
  rewrite Z.mod_small by lia.
  destruct (Z.leb_spec (Math.floor v) 2147483647); [reflexivity | lia].
Qed.

(** X7. The colour of an item, in both modes.  When colours are not
    applied or the palette is empty, no item has a colour or a tinted
    surface.  Otherwise every item has a colour of the palette.  An item
    has a tinted surface exactly when its colour is a non-empty string.
    The surface is a canvas, so its dimensions are whole numbers: the
    width and height of the item as the canvas attributes store them,
    which for sizes from 0 up to [2^31] is their integer part. *)
Theorem items_colour_and_cache
        (dom : Dom) (e : PatternEngine.t) (cfg : PatternConfig.t)
        (s : RandomSource) :
  well_drawn s ->
  exists items s',
    generateLayout dom e cfg s = Some (items, s')
    /\ forall it, In it items ->
        (PatternConfig.useRandomColor cfg = false
         \/ PatternConfig.colors cfg = [] ->
         LayoutItem.color it = None /\ LayoutItem.cachedCanvas it = None)
        /\ (PatternConfig.useRandomColor cfg = true ->
            PatternConfig.colors cfg <> [] ->
            exists c, LayoutItem.color it = Some c
                      /\ In c (PatternConfig.colors cfg))
        /\ (LayoutItem.cachedCanvas it = None
            <-> LayoutItem.color it = None
                \/ LayoutItem.color it = Some EmptyString)
        /\ (forall cw ch ops,
              LayoutItem.cachedCanvas it = Some (Canvas cw ch ops) ->
              cw = IZR (canvasDimension (LayoutItem.w it) 300)
              /\ ch = IZR (canvasDimension (LayoutItem.h it) 150)
              /\ (0 <= LayoutItem.w it < 2147483648 ->
                  cw = IZR (Math.floor (LayoutItem.w it)))
              /\ (0 <= LayoutItem.h it < 2147483648 ->
                  ch = IZR (Math.floor (LayoutItem.h it)))).
Proof.
  intros Hs.
  destruct (generateLayout_generated dom e cfg s Hs) as (items & s' & E & _ & Hall).
  exists items, s'. split; [exact E |].
  intros it Hin. rewrite Forall_forall in Hall.
  destruct (generated_fields _ _ _ _ (Hall it Hin)) as (asset & _ & Hb & _).
  destruct Hb as [_ _ _ Hplain Htinted Hcache].
  split; [| split; [exact Htinted | split]].
  - intros Hoff. specialize (Hplain Hoff). rewrite Hplain in Hcache. auto.
  - rewrite Hcache. destruct (LayoutItem.color it) as [[| ch rest] |]; simpl.
    + split; auto.
    + split; [| intros [H | H]; discriminate].
      unfold createTintedCanvas. destruct (negb (getContext2d dom)); discriminate.
    + split; auto.
  - intros cw ch ops Hsome. rewrite Hcache in Hsome.
    destruct (LayoutItem.color it) as [c |]; [| discriminate].
    destruct (truthy c); [| discriminate].
    unfold createTintedCanvas in Hsome.
    assert (Hdims : cw = IZR (canvasDimension (LayoutItem.w it) 300)
                    /\ ch = IZR (canvasDimension (LayoutItem.h it) 150)).
    { destruct (negb (getContext2d dom)); injection Hsome as <- <- _; auto. }
    destruct Hdims as [-> ->].
    split; [reflexivity |]. split; [reflexivity |].
    split; intros Hrange; rewrite canvasDimension_floor by exact Hrange;
      reflexivity.
Qed.

Lemma items_colour_and_cache_witness :
  exists items s',
    generateLayout Sample.dom Sample.engine Sample.config Sample.draws
    = Some (items, s')
    /\ forall it, In it items ->
        (PatternConfig.useRandomColor Sample.config = false
         \/ PatternConfig.colors Sample.config = [] ->
         LayoutItem.color it = None /\ LayoutItem.cachedCanvas it = None)
        /\ (PatternConfig.useRandomColor Sample.config = true ->
            PatternConfig.colors Sample.config <> [] ->
            exists c, LayoutItem.color it = Some c
                      /\ In c (PatternConfig.colors Sample.config))
        /\ (LayoutItem.cachedCanvas it = None
            <-> LayoutItem.color it = None
                \/ LayoutItem.color it = Some EmptyString)
        /\ (forall cw ch ops,
              LayoutItem.cachedCanvas it = Some (Canvas cw ch ops) ->
              cw = IZR (canvasDimension (LayoutItem.w it) 300)
              /\ ch = IZR (canvasDimension (LayoutItem.h it) 150)
              /\ (0 <= LayoutItem.w it < 2147483648 ->
                  cw = IZR (Math.floor (LayoutItem.w it)))
              /\ (0 <= LayoutItem.h it < 2147483648 ->
                  ch = IZR (Math.floor (LayoutItem.h it)))).
Proof.
  apply (items_colour_and_cache
           Sample.dom Sample.engine Sample.config Sample.draws).
  exact sample_draws_ok.
Defined.

Lemma items_lie_inside_mask_witness :
  exists items s',
    generateLayout Sample.dom Scene.stencil Scene.maskedConfig Sample.draws
    = Some (items, s')
    /\ (forall it, In it items ->
          checkMask Scene.stencil (LayoutItem.x it) (LayoutItem.y it) = true)
    /\ ((forall x y, checkMask Scene.stencil x y = false) -> items = []).
Proof.
  destruct (setMask_built Sample.maskDom
              (setContext PatternEngine.new [] 2 1)
              (ProcessedAsset.img Sample.leaf) eq_refl)
    as (canvas & _ & Hdata & _ & _).
  apply (items_lie_inside_mask Sample.dom Scene.stencil Scene.maskedConfig
           (getImageData Sample.maskDom canvas) Sample.draws).
  - reflexivity.
  - exact Hdata.
  - exact sample_draws_ok.
Defined.

(** X8. In Grid mode with a positive step, with or without a mask, every
    item sits at the center of a cell of the grid, row [r] below
    [ceil(height/step) + 1] and column [c] below [ceil(width/step) + 1],
    and the layout has at most rows times columns items. *)
Theorem grid_items_sit_on_cells
        (dom : Dom) (e : PatternEngine.t) (cfg : PatternConfig.t)
        (s : RandomSource) :
  PatternConfig.mode cfg = grid ->
  0 < PatternConfig.maxSize cfg + PatternConfig.gridGap cfg ->
  well_drawn s ->
  let step := PatternConfig.maxSize cfg + PatternConfig.gridGap cfg in
  let cols := (Math.ceil (width e / step) + 1)%Z in
  let rows := (Math.ceil (height e / step) + 1)%Z in
  let startX := (width e - IZR cols * step) / 2 + step / 2 in
  let startY := (height e - IZR rows * step) / 2 + step / 2 in
  exists items s',
    generateLayout dom e cfg s = Some (items, s')
    /\ (List.length items <= Z.to_nat rows * Z.to_nat cols)%nat
    /\ forall it, In it items ->
        exists r c,
          (r < Z.to_nat rows)%nat /\ (c < Z.to_nat cols)%nat
          /\ LayoutItem.x it = startX + INR c * step
          /\ LayoutItem.y it = startY + INR r * step.
Proof.
  intros Hmode Hstep Hs step cols rows startX startY.
  destruct (Nat.eq_dec (JsMap.size (assets e)) 0) as [E0 | Hsize].
  { exists [], s. rewrite generateLayout_empty_registry by exact E0.
    split; [reflexivity |]. split; [simpl; lia | intros it []]. }
  destruct (generateLayout_grid_generated dom e cfg s Hmode Hsize Hstep Hs)
    as (items & s' & E & _ & Hall & Hlen).
  exists items, s'. split; [exact E |]. split; [exact Hlen |].
  intros it Hin. rewrite Forall_forall in Hall.
  destruct (generated_fields _ _ _ _ (Hall it Hin))
    as (asset & _ & _ & _ & _ & Hsite).
  unfold sited in Hsite. rewrite Hmode in Hsite.
  destruct Hsite as (_ & r & c & Hr & Hc & Hxy).
  exists r, c. unfold cellCenter in Hxy. simpl in Hxy.
  injection Hxy as Hx Hy. auto.
Qed.

Lemma grid_items_sit_on_cells_witness :
  exists items s',
    generateLayout Sample.dom Sample.engine Sample.lattice Sample.draws
    = Some (items, s')
    /\ List.length items = 121%nat
    /\ (List.length items <= 11 * 11)%nat
    /\ forall it, In it items ->
        exists r c,
          (r < 11)%nat /\ (c < 11)%nat
          /\ LayoutItem.x it = 0 + INR c * 50
          /\ LayoutItem.y it = 0 + INR r * 50.
Proof.
  assert (Hstep : 0 < PatternConfig.maxSize Sample.lattice
                      + PatternConfig.gridGap Sample.lattice)
    by (simpl; lra).
  assert (Estep : PatternConfig.maxSize Sample.lattice
                  + PatternConfig.gridGap Sample.lattice = 50)
    by (simpl; lra).
  assert (Ecols : (Math.ceil (width Sample.engine / 50) + 1)%Z = 11%Z).
  { rewrite (ceil_unique (width Sample.engine / 50) 10);
      [reflexivity | simpl; lra]. }
  assert (Erows : (Math.ceil (height Sample.engine / 50) + 1)%Z = 11%Z).
  { rewrite (ceil_unique (height Sample.engine / 50) 10);
      [reflexivity | simpl; lra]. }
  assert (EX : (width Sample.engine - 11 * 50) / 2 + 50 / 2 = 0)
    by (simpl; lra).
  assert (EY : (height Sample.engine - 11 * 50) / 2 + 50 / 2 = 0)
    by (simpl; lra).
  pose proof (grid_items_sit_on_cells Sample.dom Sample.engine Sample.lattice
                Sample.draws eq_refl Hstep sample_draws_ok) as Hcells.
  cbv zeta in Hcells. rewrite Estep, Ecols, Erows, EX, EY in Hcells.
  destruct Hcells as (items & s' & E & Hlen & Hcells).
  destruct (generateLayout_grid Sample.dom Sample.engine Sample.lattice
              Sample.draws eq_refl sample_registry_size Hstep sample_draws_ok)
    as (items2 & s2 & E2 & _ & _ & Hcenters).
  rewrite E in E2. injection E2 as <- <-.
  exists items, s'. split; [exact E |].
  split; [| split; [exact Hlen | exact Hcells]].
  rewrite <- (length_map center), (Hcenters (or_introl eq_refl)).
  rewrite Estep, Ecols, Erows. reflexivity.
Defined.

(** X9. Every item of a layout, in both modes, refers to a motif of the
    registry and keeps its aspect ratio: its height is its width divided
    by the aspect ratio of the motif registered under its [assetId]. *)
Theorem items_keep_motif_aspect
        (dom : Dom) (e : PatternEngine.t) (cfg : PatternConfig.t)
        (s : RandomSource) :
  registryOk (assets e) ->
  well_drawn s ->
  exists items s',
    generateLayout dom e cfg s = Some (items, s')
    /\ forall it, In it items ->
        exists asset,
          JsMap.get (assets e) (LayoutItem.assetId it) = Some asset
          /\ LayoutItem.h it
             = LayoutItem.w it / ProcessedAsset.aspectRatio asset.
Proof.
  intros Hreg Hs.
  destruct (generateLayout_generated dom e cfg s Hs) as (items & s' & E & _ & Hall).
  exists items, s'. split; [exact E |].
  intros it Hin. rewrite Forall_forall in Hall.
  destruct (generated_fields _ _ _ _ (Hall it Hin))
    as (asset & Hasset & Hb & Hh & _).
  exists asset. split; [| exact Hh].
  rewrite (placed_asset _ _ _ _ _ _ _ (built_placed _ _ _ _ _ _ _ _ Hb)).
  apply registry_get; assumption.
Qed.

Lemma items_keep_motif_aspect_witness :
  exists items s',
    generateLayout Sample.dom Sample.engine Sample.config Sample.draws
    = Some (items, s')
    /\ forall it, In it items ->
        exists asset,
          JsMap.get (assets Sample.engine) (LayoutItem.assetId it) = Some asset
          /\ LayoutItem.h it
             = LayoutItem.w it / ProcessedAsset.aspectRatio asset.
Proof.
  apply (items_keep_motif_aspect
           Sample.dom Sample.engine Sample.config Sample.draws).
  - apply setAssets_registryOk.
  - exact sample_draws_ok.
Defined.

(** X10. When [minSize] and [maxSize] are positive and every registered
    motif has a positive aspect ratio, every item of a layout has
    positive width and height, in both modes. *)
Theorem items_have_positive_size
        (dom : Dom) (e : PatternEngine.t) (cfg : PatternConfig.t)
        (s : RandomSource) :
  0 < PatternConfig.minSize cfg ->
  0 < PatternConfig.maxSize cfg ->
  (forall asset, In asset (JsMap.values (assets e)) ->
     0 < ProcessedAsset.aspectRatio asset) ->
  well_drawn s ->
  exists items s',
    generateLayout dom e cfg s = Some (items, s')
    /\ forall it, In it items ->
        0 < LayoutItem.w it /\ 0 < LayoutItem.h it.
Proof.
  intros Hmin Hmax Hratio Hs.
  destruct (generateLayout_generated dom e cfg s Hs) as (items & s' & E & _ & Hall).
  exists items, s'. split; [exact E |].
  intros it Hin. rewrite Forall_forall in Hall.
  destruct (generated_fields _ _ _ _ (Hall it Hin))
    as (asset & Hasset & _ & Hh & _ & Hsite).
  assert (Hw : 0 < LayoutItem.w it).
  { unfold sited in Hsite. destruct (PatternConfig.mode cfg).
    - destruct Hsite as (rx & ry & rs & _ & _ & Hrs & _ & _ & ->). nra.
    - destruct Hsite as (-> & _). exact Hmax. }
  split; [exact Hw |]. rewrite Hh.
  apply Rdiv_lt_0_compat; [exact Hw | apply Hratio; exact Hasset].
Qed.

Lemma items_have_positive_size_witness :
  exists items s',
    generateLayout Sample.dom Sample.engine Sample.config Sample.draws
    = Some (items, s')
    /\ forall it, In it items ->
        0 < LayoutItem.w it /\ 0 < LayoutItem.h it.
Proof.
  apply (items_have_positive_size
           Sample.dom Sample.engine Sample.config Sample.draws).
  - simpl. lra.
  - simpl. lra.
  - intros asset [<- | [<- | []]]; simpl; lra.
  - exact sample_draws_ok.
Defined.

(** ** Further properties of the registry *)

Lemma find_append {A : Type} (p : A -> bool) (l1 l2 : list A) :
  find p (l1 ++ l2)
  = match find p l1 with
    | Some a => Some a
    | None => find p l2
    end.
Proof.
  induction l1 as [| a l1 IH]; simpl; [reflexivity |].
  destruct (p a); [reflexivity | exact IH].
Qed.

Lemma find_filtered {A : Type} (p q : A -> bool) (l : list A) :
  find p (filter q l) = find (fun a => q a && p a) l.
Proof.
  induction l as [| a l IH]; simpl; [reflexivity |].
  destruct (q a); simpl; [destruct (p a); [reflexivity | exact IH] | exact IH].
Qed.

Lemma find_agree {A : Type} (p q : A -> bool) (l : list A) :
  (forall a, p a = q a) -> find p l = find q l.
Proof.
  intros Hpq. induction l as [| a l IH]; simpl; [reflexivity |].
  rewrite Hpq, IH. reflexivity.
Qed.

Lemma find_never {A : Type} (p : A -> bool) (l : list A) :
  (forall a, p a = false) -> find p l = None.
Proof.
  intros Hp. induction l as [| a l IH]; simpl; [reflexivity |].
  rewrite Hp. exact IH.
Qed.

Lemma get_set {V : Type} (m : JsMap.t V) (k k' : string) (v : V) :
  JsMap.get (JsMap.set m k v) k'
  = if String.eqb k k' then Some v else JsMap.get m k'.
Proof.
  induction m as [| [k0 v0] m IH]; simpl.
  - reflexivity.
  - destruct (String.eqb_spec k0 k) as [E | Hne]; simpl.
    + subst k0. destruct (String.eqb k k'); reflexivity.
    + rewrite IH. destruct (String.eqb_spec k0 k') as [E' | _]; [| reflexivity].
      subst k0. destruct (String.eqb_spec k k') as [E'' | _];
        [congruence | reflexivity].
Qed.

Lemma get_registered (l : list ProcessedAsset.t) (m : JsMap.t ProcessedAsset.t)
      (k : string) :
  JsMap.get (fold_left (fun m a => JsMap.set m (ProcessedAsset.id a) a) l m) k
  = match lastWithId l k with
    | Some a => Some a
    | None => JsMap.get m k
    end.
Proof.
  revert m. induction l as [| a l IH]; intros m; simpl; [reflexivity |].
  rewrite IH. unfold lastWithId. simpl rev. rewrite find_append.
  destruct (find (fun a0 => String.eqb (ProcessedAsset.id a0) k) (rev l));
    [reflexivity |].
  rewrite get_set. simpl. destruct (String.eqb (ProcessedAsset.id a) k); reflexivity.
Qed.

Lemma set_fresh {V : Type} (m : JsMap.t V) (k : string) (v : V) :
  ~ In k (List.map fst m) -> JsMap.set m k v = m ++ [(k, v)].
Proof.
  induction m as [| [k0 v0] m IH]; simpl; intros Hnin; [reflexivity |].
  destruct (String.eqb_spec k0 k) as [E | _]; [exfalso; auto |].
  rewrite IH by auto. reflexivity.
Qed.

Lemma register_distinct (l : list ProcessedAsset.t)
      (m : JsMap.t ProcessedAsset.t) :
  NoDup (List.map fst m ++ List.map ProcessedAsset.id l) ->
  fold_left (fun m a => JsMap.set m (ProcessedAsset.id a) a) l m
  = m ++ List.map (fun a => (ProcessedAsset.id a, a)) l.
Proof.
  revert m. induction l as [| a l IH]; intros m Hnd; simpl.
  - rewrite app_nil_r. reflexivity.
  - simpl in Hnd.
    assert (Hfresh : ~ In (ProcessedAsset.id a) (List.map fst m)).
    { intros Hin. apply NoDup_remove_2 in Hnd. apply Hnd.
      apply in_or_app. left. exact Hin. }
    rewrite set_fresh by exact Hfresh. rewrite IH.
    + rewrite <- app_assoc. reflexivity.
    + rewrite map_app. simpl. rewrite <- app_assoc. simpl.
      exact Hnd.
Qed.

Lemma registry_lookup (e : PatternEngine.t) (l : list ProcessedAsset.t)
      (k : string) :
  JsMap.get (assets (setAssets e l)) k = lastWithId l k.
Proof.
  unfold setAssets. simpl assets. unfold JsMap.clear.
  rewrite get_registered. simpl. destruct (lastWithId l k); reflexivity.
Qed.

(** X11. After [setAssets] a lookup by identifier finds the last motif of
    the list that carries it, whatever the registry held before; motifs
    with an identifier that occurs again later in the list are replaced. *)
Theorem setAssets_lookup (e : PatternEngine.t) (l : list ProcessedAsset.t)
        (k : string) :
  JsMap.get (assets (setAssets e l)) k = lastWithId l k
  /\ (forall a, lastWithId l k = Some a ->
        In a l /\ ProcessedAsset.id a = k)
  /\ (lastWithId l k = None <-> ~ In k (List.map ProcessedAsset.id l)).
Proof.
  split; [apply registry_lookup |]. unfold lastWithId. split.
  - intros a Hfind. apply find_some in Hfind. destruct Hfind as [Hin Heq].
    split; [apply in_rev; exact Hin | apply String.eqb_eq; exact Heq].
  - split.
    + intros Hnone Hin. apply in_map_iff in Hin. destruct Hin as (a & <- & Hin).
      pose proof (find_none _ _ Hnone a (proj1 (in_rev l a) Hin)) as Hf.
      simpl in Hf. rewrite String.eqb_refl in Hf. discriminate.
    + intros Hnin.
      destruct (find (fun a => String.eqb (ProcessedAsset.id a) k) (rev l))
        as [a |] eqn:Efind; [| reflexivity].
      apply find_some in Efind. destruct Efind as [Hin Heq].
      exfalso. apply Hnin. apply in_map_iff. exists a.
      split; [apply String.eqb_eq; exact Heq | apply in_rev; exact Hin].
Qed.

(** X12. For motifs with distinct identifiers, [setAssets] registers
    exactly the list it is given: the values of the registry are the
    list, in its order, every motif of the list is found under its
    identifier, and no other identifier is found. *)
Theorem setAssets_registers_list (e : PatternEngine.t)
        (l : list ProcessedAsset.t) :
  NoDup (List.map ProcessedAsset.id l) ->
  JsMap.values (assets (setAssets e l)) = l
  /\ JsMap.size (assets (setAssets e l)) = List.length l
  /\ (forall a, In a l ->
        JsMap.get (assets (setAssets e l)) (ProcessedAsset.id a) = Some a)
  /\ (forall k, ~ In k (List.map ProcessedAsset.id l) ->
        JsMap.get (assets (setAssets e l)) k = None).
Proof.
  intros Hnd.
  assert (Hassets : assets (setAssets e l)
                    = List.map (fun a => (ProcessedAsset.id a, a)) l).
  { unfold setAssets. simpl assets. unfold JsMap.clear.
    rewrite register_distinct by exact Hnd. reflexivity. }
  assert (Hvalues : JsMap.values (assets (setAssets e l)) = l).
  { rewrite Hassets. unfold JsMap.values. rewrite map_map. simpl.
    apply map_id. }
  split; [exact Hvalues |]. split; [| split].
  - rewrite Hassets. unfold JsMap.size. apply length_map.
  - intros a Hin. apply registry_get.
    + apply setAssets_registryOk.
    + rewrite Hvalues. exact Hin.
  - intros k Hk. rewrite registry_lookup. unfold lastWithId.
    destruct (find (fun a => String.eqb (ProcessedAsset.id a) k) (rev l))
      as [a |] eqn:Efind; [| reflexivity].
    apply find_some in Efind. destruct Efind as [Hin Heq].
    exfalso. apply Hk. apply in_map_iff. exists a.
    split; [apply String.eqb_eq; exact Heq | apply in_rev; exact Hin].
Qed.

Lemma setAssets_registers_list_witness :
  JsMap.values (assets (setAssets Scene.bare [Sample.leaf; Sample.star]))
  = [Sample.leaf; Sample.star]
  /\ JsMap.size (assets (setAssets Scene.bare [Sample.leaf; Sample.star]))
     = 2%nat
  /\ (forall a, In a [Sample.leaf; Sample.star] ->
        JsMap.get (assets (setAssets Scene.bare [Sample.leaf; Sample.star]))
                  (ProcessedAsset.id a) = Some a)
  /\ (forall k, ~ In k (List.map ProcessedAsset.id [Sample.leaf; Sample.star]) ->
        JsMap.get (assets (setAssets Scene.bare [Sample.leaf; Sample.star])) k
        = None).
Proof.
  apply (setAssets_registers_list Scene.bare [Sample.leaf; Sample.star]).
  simpl. constructor.
  - intros [H | []]. discriminate H.
  - constructor; [intros [] | constructor].
Defined.

(** X13. [removeAsset] followed by [setAssets]: the removed identifier is
    no longer found in the registry, and every other identifier is found
    as it would be without the removal. *)
Theorem removeAsset_unregisters (e : PatternEngine.t)
        (l : list ProcessedAsset.t) (id : string) :
  JsMap.get (assets (setAssets e (App.removeAsset l id))) id = None
  /\ forall k, k <> id ->
       JsMap.get (assets (setAssets e (App.removeAsset l id))) k
       = JsMap.get (assets (setAssets e l)) k.
Proof.
  assert (Hfind : forall k,
            lastWithId (App.removeAsset l id) k
            = find (fun a => negb (String.eqb (ProcessedAsset.id a) id)
                             && String.eqb (ProcessedAsset.id a) k) (rev l)).
  { intros k. unfold lastWithId, App.removeAsset.
    rewrite <- filter_rev. apply find_filtered. }
  split.
  - rewrite registry_lookup, Hfind. apply find_never.
    intros a. destruct (String.eqb (ProcessedAsset.id a) id); reflexivity.
  - intros k Hk. rewrite !registry_lookup, Hfind. apply find_agree.
    intros a. destruct (String.eqb_spec (ProcessedAsset.id a) k) as [E | _].
    + destruct (String.eqb_spec (ProcessedAsset.id a) id) as [E' | _];
        [congruence | reflexivity].
    + apply andb_false_r.
Qed.


(** ** Further properties of the exporter *)

Lemma exportItem_unregistered (e : PatternEngine.t) (item : LayoutItem.t) :
  registered e item = false -> exportItem e item = [].
Proof.
  unfold registered, exportItem.
  destruct (JsMap.get (assets e) (LayoutItem.assetId item));
    [discriminate | reflexivity].
Qed.

Lemma export_filters (e : PatternEngine.t) (items : list LayoutItem.t) :
  flat_map (exportItem e) items
  = flat_map (exportItem e) (filter (registered e) items).
Proof.
  induction items as [| item items IH]; simpl; [reflexivity |].
  destruct (registered e item) eqn:Ereg; simpl.
  - rewrite IH. reflexivity.
  - rewrite (exportItem_unregistered e item Ereg). exact IH.
Qed.

Lemma readTransforms_groups (e : PatternEngine.t) (items : list LayoutItem.t)
      (rest : list Piece) :
  readTransforms (flat_map (exportItem e) items ++ rest)
  = List.map transformOf (filter (registered e) items) ++ readTransforms rest.
Proof.
  induction items as [| item items IH]; [reflexivity |].
  simpl flat_map. simpl filter. unfold registered at 1.
  destruct (JsMap.get (assets e) (LayoutItem.assetId item)) as [asset |] eqn:Eget.
  - rewrite <- app_assoc, (readTransforms_item e item asset _ Eget).
    simpl. f_equal. exact IH.
  - unfold exportItem at 1. rewrite Eget. exact IH.
Qed.

Lemma readTransforms_document (e : PatternEngine.t) (items : list LayoutItem.t) :
  readTransforms (exportSVG e items)
  = List.map transformOf (filter (registered e) items).
Proof.
  rewrite exportSVG_flat.
  change (readTransforms (flat_map (exportItem e) items ++ [Lit "</svg>"])
          = List.map transformOf (filter (registered e) items)).
  rewrite readTransforms_groups. simpl. apply app_nil_r.
Qed.

Lemma filter_all {A : Type} (p : A -> bool) (l : list A) :
  (forall a, In a l -> p a = true) -> filter p l = l.
Proof.
  induction l as [| a l IH]; intros Hall; simpl; [reflexivity |].
  rewrite (Hall a (or_introl eq_refl)). f_equal.
  apply IH. intros b Hb. apply Hall. right. exact Hb.
Qed.

Lemma filter_none {A : Type} (p : A -> bool) (l : list A) :
  (forall a, In a l -> p a = false) -> filter p l = [].
Proof.
  induction l as [| a l IH]; intros Hall; simpl; [reflexivity |].
  rewrite (Hall a (or_introl eq_refl)).
  apply IH. intros b Hb. apply Hall. right. exact Hb.
Qed.

(** X14. [exportSVG] leaves out the items whose motif is not in the
    registry, and nothing else: the document is the document of the items
    with a registered motif, its groups are their transforms in the order
    of the list, and when no item has a registered motif it is the
    document of the empty list. *)
Theorem export_skips_unregistered_items
        (e : PatternEngine.t) (items : list LayoutItem.t) :
  exportSVG e items = exportSVG e (filter (registered e) items)
  /\ readTransforms (exportSVG e items)
     = List.map transformOf (filter (registered e) items)
  /\ ((forall item, In item items -> registered e item = false) ->
      exportSVG e items = exportSVG e []).
Proof.
  split; [| split].
  - rewrite !exportSVG_flat. rewrite export_filters. reflexivity.
  - apply readTransforms_document.
  - intros Hnone. rewrite !exportSVG_flat, export_filters.
    rewrite (filter_none _ _ Hnone). reflexivity.
Qed.




(** ** Further properties of the renderer *)

Lemma renderItem_shape (e : PatternEngine.t) (cfg : PatternConfig.t)
      (time : R) (item : LayoutItem.t) :
  exists tx ty rot,
    renderItem e cfg time item
    = [Save; Translate tx ty; Rotate rot] ++ drawItem e item ++ [Restore].
Proof.
  unfold renderItem. destruct (animOffsets cfg time item) as [[dx dy] dRot].
  eexists _, _, _. reflexivity.
Qed.

Lemma drawItem_cases (e : PatternEngine.t) (item : LayoutItem.t) :
  (exists op, drawItem e item = [op] /\ is_drawImage op = true
              /\ (LayoutItem.cachedCanvas item <> None
                  \/ registered e item = true))
  \/ (drawItem e item = [] /\ LayoutItem.cachedCanvas item = None
      /\ registered e item = false).
Proof.
  unfold drawItem, registered.
  destruct (LayoutItem.cachedCanvas item) as [cached |].
  - left. eexists. split; [reflexivity |]. split; [reflexivity |].
    left. discriminate.
  - destruct (JsMap.get (assets e) (LayoutItem.assetId item)) as [asset |].
    + left. eexists. split; [reflexivity |]. split; [reflexivity |]. auto.
    + right. auto.
Qed.


Lemma renderItem_balanced (e : PatternEngine.t) (cfg : PatternConfig.t)
      (time : R) (item : LayoutItem.t) (d : nat) (rest : list CanvasOp) :
  saveDepth (renderItem e cfg time item ++ rest) d = saveDepth rest d.
Proof.
  destruct (renderItem_shape e cfg time item) as (tx & ty & rot & ->).
  destruct (drawItem_cases e item) as [(op & -> & Hop & _) | (-> & _)]; simpl.
  - destruct op; try discriminate Hop; reflexivity.
  - reflexivity.
Qed.

Lemma background_balanced (e : PatternEngine.t) (cfg : PatternConfig.t)
      (d : nat) (rest : list CanvasOp) :
  saveDepth (background e cfg ++ rest) d = saveDepth rest d.
Proof.
  unfold background.
  destruct (PatternConfig.useMask cfg && PatternConfig.showMaskBg cfg);
    [destruct (maskCanvas e) |]; reflexivity.
Qed.

Lemma executed_clean (ops rest : list CanvasOp) :
  Forall (fun op => throws op = false) ops ->
  executed (ops ++ rest)
  = (ops ++ fst (executed rest), snd (executed rest)).
Proof.
  intros Hclean. induction Hclean as [| op ops Hop _ IH]; simpl.
  - destruct (executed rest); reflexivity.
  - rewrite Hop, IH. reflexivity.
Qed.

Lemma executed_complete (ops : list CanvasOp) :
  Forall (fun op => throws op = false) ops -> executed ops = (ops, true).
Proof.
  intros Hclean. rewrite <- (app_nil_r ops) at 1.
  rewrite executed_clean by exact Hclean. simpl. rewrite app_nil_r. reflexivity.
Qed.

Lemma canvas_draw_clean (canvas : HTMLCanvasElement) (dx dy : R) :
  storedWidth canvas <> 0%Z -> storedHeight canvas <> 0%Z ->
  throws (DrawImage3 (CanvasSource canvas) dx dy) = false.
Proof.
  intros Hw Hh. simpl.
  apply Z.eqb_neq in Hw, Hh. rewrite Hw, Hh. reflexivity.
Qed.

Lemma renderItem_clean (e : PatternEngine.t) (cfg : PatternConfig.t)
      (time : R) (item : LayoutItem.t) :
  cleanCache item ->
  Forall (fun op => throws op = false) (renderItem e cfg time item).
Proof.
  intros Hclean.
  destruct (renderItem_shape e cfg time item) as (tx & ty & rot & ->).
  unfold drawItem, cleanCache in *.
  destruct (LayoutItem.cachedCanvas item) as [canvas |].
  - destruct Hclean as [Hw Hh].
    repeat constructor. apply canvas_draw_clean; assumption.
  - destruct (JsMap.get (assets e) (LayoutItem.assetId item));
      repeat constructor.
Qed.

Lemma background_clean (e : PatternEngine.t) (cfg : PatternConfig.t) :
  cleanMask e -> Forall (fun op => throws op = false) (background e cfg).
Proof.
  intros Hclean. unfold background, cleanMask in *.
  destruct (PatternConfig.useMask cfg && PatternConfig.showMaskBg cfg);
    [| repeat constructor].
  destruct (maskCanvas e) as [canvas |]; [| repeat constructor].
  destruct Hclean as [Hw Hh].
  repeat constructor. apply canvas_draw_clean; assumption.
Qed.

Lemma frame_clean (e : PatternEngine.t) (cfg : PatternConfig.t) (time : R)
      (items : list LayoutItem.t) :
  Forall cleanCache items ->
  Forall (fun op => throws op = false) (flat_map (renderItem e cfg time) items).
Proof.
  intros Hclean. induction Hclean as [| it items Hit _ IH]; simpl.
  - constructor.
  - apply Forall_app. split; [apply renderItem_clean; exact Hit | exact IH].
Qed.



(** X17. When the mask preview and the tinted surface of every item can
    be drawn (no canvas with a zero dimension), [render] runs to its end
    and leaves the context as deep in [save]s as it found it: every
    [restore] undoes a [save] of the same call, and every [save] is
    undone. *)
Theorem render_balances_save_and_restore
        (e : PatternEngine.t) (items : list LayoutItem.t)
        (cfg : PatternConfig.t) (time : R) (c0 : CanvasRenderingContext2D) :
  ctx e = Some c0 ->
  cleanMask e ->
  Forall cleanCache items ->
  exists commands,
    ctx (render e items cfg time) = Some (c0 ++ commands)
    /\ executed commands = (commands, true)
    /\ forall d, saveDepth commands d = Some d.
Proof.
  intros Hctx Hmask Hclean.
  exists (background e cfg ++ flat_map (renderItem e cfg time) items).
  split; [apply render_commands; exact Hctx |].
  split.
  { apply executed_complete. apply Forall_app.
    split; [apply background_clean; exact Hmask | apply frame_clean; exact Hclean]. }
  intros d. rewrite background_balanced.
  clear Hclean. induction items as [| it items IH]; [reflexivity |].
  simpl flat_map. rewrite renderItem_balanced. exact IH.
Qed.

Lemma sample_tinted_clean :
  cleanCache (Sample.itemOf Sample.star (Some "#000000"%string)).
Proof.
  unfold cleanCache. simpl.
  rewrite (canvasDimension_floor 80), (canvasDimension_floor (80 / 1)) by lra.
  rewrite (floor_unique 80 80), (floor_unique (80 / 1) 80) by lra.
  rewrite !canvasDimension_floor by lra.
  rewrite floor_IZR. split; discriminate.
Qed.

Lemma render_balances_save_and_restore_witness :
  exists commands,
    ctx (render Sample.engine
                [Sample.itemOf Sample.leaf None;
                 Sample.itemOf Sample.star (Some "#000000"%string)]
                Sample.animated 1000)
    = Some ([] ++ commands)
    /\ executed commands = (commands, true)
    /\ forall d, saveDepth commands d = Some d.
Proof.
  apply (render_balances_save_and_restore Sample.engine).
  - reflexivity.
  - exact I.
  - constructor; [exact I |].
    constructor; [exact sample_tinted_clean | constructor].
Defined.

(** X18. The frame of [downloadImage] shows every item at its own
    position and angle, whatever the animation settings of the
    configuration; and with animation disabled the commands of [render]
    are the same at every time. *)
Theorem still_frame_has_no_offsets
        (e : PatternEngine.t) (items : list LayoutItem.t)
        (cfg : PatternConfig.t) (c0 : CanvasRenderingContext2D) :
  ctx e = Some c0 ->
  ctx (App.downloadImage e items cfg)
  = Some (c0 ++ background e cfg
             ++ flat_map
                  (fun it =>
                     [Save;
                      Translate (LayoutItem.x it) (LayoutItem.y it);
                      Rotate (LayoutItem.angle it)]
                     ++ drawItem e it ++ [Restore])
                  items)
  /\ (PatternConfig.enableAnim cfg = false ->
      forall t1 t2,
        ctx (render e items cfg t1) = ctx (render e items cfg t2)).
Proof.
  intros Hctx.
  assert (Hstill : forall cfg' time it,
            PatternConfig.enableAnim cfg' = false ->
            renderItem e cfg' time it
            = [Save;
               Translate (LayoutItem.x it) (LayoutItem.y it);
               Rotate (LayoutItem.angle it)]
              ++ drawItem e it ++ [Restore]).
  { intros cfg' time it Hoff. unfold renderItem, animOffsets. rewrite Hoff.
    rewrite !Rplus_0_r. reflexivity. }
  split.
  - unfold App.downloadImage. rewrite (render_commands _ _ _ _ _ Hctx).
    f_equal. f_equal.
    change (background e (App.withoutAnim cfg)) with (background e cfg).
    f_equal. apply flat_map_ext. intros it. apply Hstill. reflexivity.
  - intros Hoff t1 t2. rewrite !(render_commands _ _ _ _ _ Hctx).
    f_equal. f_equal. f_equal. apply flat_map_ext. intros it.
    rewrite !Hstill by exact Hoff. reflexivity.
Qed.

Lemma still_frame_has_no_offsets_witness :
  let items := [Sample.itemOf Sample.leaf None] in
  ctx (App.downloadImage Sample.engine items Sample.animated)
  = Some ([] ++ background Sample.engine Sample.animated
             ++ flat_map
                  (fun it =>
                     [Save;
                      Translate (LayoutItem.x it) (LayoutItem.y it);
                      Rotate (LayoutItem.angle it)]
                     ++ drawItem Sample.engine it ++ [Restore])
                  items)
  /\ (PatternConfig.enableAnim Sample.animated = false ->
      forall t1 t2,
        ctx (render Sample.engine items Sample.animated t1)
        = ctx (render Sample.engine items Sample.animated t2)).
Proof.
  intros items.
  apply (still_frame_has_no_offsets Sample.engine items Sample.animated []).
  reflexivity.
Defined.

(** X19. The animation never moves an item further than the amplitude:
    at every time the vertical offset is at most [|amplitude|], the
    horizontal offset at most [0.5 * |amplitude|], and the wobble at most
    [0.05] radians. *)
Theorem animation_offsets_are_bounded
        (cfg : PatternConfig.t) (time : R) (item : LayoutItem.t) :
  let '(dx, dy, dRot) := animOffsets cfg time item in
  Rabs dy <= Rabs (PatternConfig.animAmplitude cfg)
  /\ Rabs dx <= 0.5 * Rabs (PatternConfig.animAmplitude cfg)
  /\ Rabs dRot <= 0.05.
Proof.
  unfold animOffsets.
  assert (Hsin : forall a, Rabs (sin a) <= 1)
    by (intros a; apply Rabs_le; apply SIN_bound).
  assert (Hcos : forall a, Rabs (cos a) <= 1)
    by (intros a; apply Rabs_le; apply COS_bound).
  pose proof (Rabs_pos (PatternConfig.animAmplitude cfg)) as Hamp.
  destruct (PatternConfig.enableAnim cfg).
  - repeat split.
    + rewrite Rabs_mult. specialize (Hsin (time * (PatternConfig.animSpeed cfg * 0.002)
                                      * LayoutItem.animSpeedMul item
                                      + LayoutItem.animPhase item)).
      nra.
    + rewrite !Rabs_mult.
      specialize (Hcos (time * (PatternConfig.animSpeed cfg * 0.002)
                        * LayoutItem.animSpeedMul item * 0.7
                        + LayoutItem.animPhase item)).
      assert (H05 : Rabs 0.5 = 0.5) by (apply Rabs_pos_eq; lra).
      rewrite H05.
      pose proof (Rabs_pos (cos (time * (PatternConfig.animSpeed cfg * 0.002)
                                 * LayoutItem.animSpeedMul item * 0.7
                                 + LayoutItem.animPhase item))).
      nra.
    + rewrite Rabs_mult.
      specialize (Hsin (time * (PatternConfig.animSpeed cfg * 0.002)
                        * LayoutItem.animSpeedMul item * 0.5)).
      assert (H005 : Rabs 0.05 = 0.05) by (apply Rabs_pos_eq; lra).
      rewrite H005.
      pose proof (Rabs_pos (sin (time * (PatternConfig.animSpeed cfg * 0.002)
                                 * LayoutItem.animSpeedMul item * 0.5))).
      nra.
  - rewrite Rabs_R0. repeat split; lra.
Qed.

(** X20. Rendering the same items under the same configuration at the
    same time twice issues the same commands both times: the second frame
    repeats the first, after it, and nothing of the first call changes
    what the second draws. *)
Theorem render_twice_repeats_the_frame
        (e : PatternEngine.t) (items : list LayoutItem.t)
        (cfg : PatternConfig.t) (time : R) (c0 : CanvasRenderingContext2D) :
  ctx e = Some c0 ->
  exists frame,
    ctx (render e items cfg time) = Some (c0 ++ frame)
    /\ ctx (render (render e items cfg time) items cfg time)
       = Some (c0 ++ frame ++ frame).
Proof.
  intros Hctx.
  exists (background e cfg ++ flat_map (renderItem e cfg time) items).
  pose proof (render_commands e items cfg time c0 Hctx) as Hfirst.
  split; [exact Hfirst |].
  rewrite (render_commands _ items cfg time _ Hfirst).
  destruct (render_keeps_engine e items cfg time) as (Hw & Hh & Ha & _ & Hmc).
  assert (Hbg : background (render e items cfg time) cfg = background e cfg).
  { unfold background. rewrite Hw, Hh, Hmc. reflexivity. }
  assert (Hitems : flat_map (renderItem (render e items cfg time) cfg time) items
                   = flat_map (renderItem e cfg time) items).
  { apply flat_map_ext. intros it. unfold renderItem, drawItem.
    rewrite Ha. reflexivity. }
  rewrite Hbg, Hitems, <- !app_assoc. reflexivity.
Qed.

Lemma render_twice_repeats_the_frame_witness :
  let items := [Sample.itemOf Sample.leaf None] in
  exists frame,
    ctx (render Sample.engine items Sample.animated 1000) = Some ([] ++ frame)
    /\ ctx (render (render Sample.engine items Sample.animated 1000)
                   items Sample.animated 1000)
       = Some ([] ++ frame ++ frame).
Proof.
  intros items.
  apply (render_twice_repeats_the_frame Sample.engine items Sample.animated
           1000 []).
  reflexivity.
Defined.

(** ** Further properties of the mask *)

Lemma floor_nonneg (x : R) : 0 <= x -> (0 <= Math.floor x)%Z.
Proof.
  intros Hx. destruct (floor_spec x) as [_ F2].
  apply Z.lt_succ_r. apply lt_IZR. rewrite succ_IZR. lra.
Qed.

(** X21. After [setMask(null)] masking takes no part in generation even
    when the configuration still asks for it: the mask test is true
    everywhere, and Grid mode places an item on every cell. *)
Theorem cleared_mask_rejects_nothing
        (dom : Dom) (e : PatternEngine.t) (cfg : PatternConfig.t)
        (s : RandomSource) :
  PatternConfig.mode cfg = grid ->
  JsMap.size (assets e) <> 0%nat ->
  0 < PatternConfig.maxSize cfg + PatternConfig.gridGap cfg ->
  well_drawn s ->
  let cleared := setMask dom e None in
  let step := PatternConfig.maxSize cfg + PatternConfig.gridGap cfg in
  let cols := (Math.ceil (width e / step) + 1)%Z in
  let rows := (Math.ceil (height e / step) + 1)%Z in
  let startX := (width e - IZR cols * step) / 2 + step / 2 in
  let startY := (height e - IZR rows * step) / 2 + step / 2 in
  (forall x y, checkMask cleared x y = true)
  /\ exists items s',
      generateLayout dom cleared cfg s = Some (items, s')
      /\ List.map center items
         = gridCenters startX startY step (Z.to_nat rows) (Z.to_nat cols)
      /\ List.length items = (Z.to_nat rows * Z.to_nat cols)%nat.
Proof.
  intros Hmode Hsize Hstep Hs cleared step cols rows startX startY.
  split; [reflexivity |].
  destruct (generateLayout_grid dom cleared cfg s Hmode Hsize Hstep Hs)
    as (items & s' & E & _ & _ & Hcenters).
  exists items, s'. split; [exact E |].
  assert (Hc : List.map center items
               = gridCenters startX startY step (Z.to_nat rows) (Z.to_nat cols)).
  { apply Hcenters. right. reflexivity. }
  split; [exact Hc |].
  rewrite <- (length_map center), Hc. unfold gridCenters.
  rewrite length_map. unfold gridCells.
  generalize (Z.to_nat cols) as n. generalize (Z.to_nat rows) as m.
  intros m n. induction m as [| m IH]; [reflexivity |].
  rewrite seq_S, flat_map_app, length_app, IH. simpl.
  rewrite app_nil_r, length_map, length_seq. lia.
Qed.

Lemma cleared_mask_rejects_nothing_witness :
  let cleared := setMask Sample.dom Scene.stencil None in
  let step := 40 + 10 in
  let cols := (Math.ceil (width Scene.stencil / step) + 1)%Z in
  let rows := (Math.ceil (height Scene.stencil / step) + 1)%Z in
  let startX := (width Scene.stencil - IZR cols * step) / 2 + step / 2 in
  let startY := (height Scene.stencil - IZR rows * step) / 2 + step / 2 in
  (forall x y, checkMask cleared x y = true)
  /\ exists items s',
      generateLayout Sample.dom cleared Scene.maskedLattice Sample.draws
      = Some (items, s')
      /\ List.map center items
         = gridCenters startX startY step (Z.to_nat rows) (Z.to_nat cols)
      /\ List.length items = (Z.to_nat rows * Z.to_nat cols)%nat.
Proof.
  apply (cleared_mask_rejects_nothing
           Sample.dom Scene.stencil Scene.maskedLattice Sample.draws).
  - reflexivity.
  - simpl. discriminate.
  - simpl. lra.
  - exact sample_draws_ok.
Defined.

(** X22. A mask buffer that is too short for the canvas (a mask built
    before the canvas grew): at a coordinate on the canvas whose pixel
    lies beyond the buffer the mask test is false, not an error. *)
Theorem short_mask_buffer_reads_false
        (e : PatternEngine.t) (data : list Z) (W : Z) (x y : R) :
  maskData e = Some data ->
  width e = IZR W ->
  0 <= x < width e -> 0 <= y < height e ->
  pixelAt data W (Math.floor x) (Math.floor y) = None ->
  checkMask e x y = false.
Proof.
  intros Hdata Hw Hx Hy Hpix. unfold checkMask. rewrite Hdata, Hw.
  rewrite Hw in Hx.
  destruct (floor_in_range x W Hx) as [Px0 Px1].
  pose proof (floor_nonneg y (proj1 Hy)) as Py0.
  destruct (floor_spec y) as [Fy1 _].
  set (px := Math.floor x) in *. set (py := Math.floor y) in *.
  assert (E1 : (IZR px <? 0) = false) by (apply Rltb_false; apply IZR_le; lia).
  assert (E2 : (IZR px >=? IZR W) = false)
    by (apply Rgeb_false; apply IZR_lt; lia).
  assert (E3 : (IZR py <? 0) = false) by (apply Rltb_false; apply IZR_le; lia).
  assert (E4 : (IZR py >=? height e) = false) by (apply Rgeb_false; lra).
  rewrite E1, E2, E3, E4. simpl orb. cbv iota.
  set (k := (4 * (py * W + px))%Z).
  assert (Hrow : (0 <= py * W)%Z) by (apply Z.mul_nonneg_nonneg; lia).
  assert (Hk : (0 <= k)%Z) by (unfold k; lia).
  assert (Eidx : (IZR py * IZR W + IZR px) * 4 = IZR k).
  { unfold k. rewrite mult_IZR, plus_IZR, mult_IZR. ring. }
  rewrite Eidx.
  replace (IZR k + 1) with (IZR (k + 1)) by (rewrite plus_IZR; ring).
  replace (IZR k + 2) with (IZR (k + 2)) by (rewrite plus_IZR; ring).
  replace (IZR k + 3) with (IZR (k + 3)) by (rewrite plus_IZR; ring).
  rewrite !typed_array_get_at by lia.
  replace (Z.to_nat (k + 1)) with (Z.to_nat k + 1)%nat by lia.
  replace (Z.to_nat (k + 2)) with (Z.to_nat k + 2)%nat by lia.
  replace (Z.to_nat (k + 3)) with (Z.to_nat k + 3)%nat by lia.
  unfold pixelAt in Hpix. fold k in Hpix.
  destruct (nth_error data (Z.to_nat k)) as [r |];
    destruct (nth_error data (Z.to_nat k + 1)) as [g |];
    destruct (nth_error data (Z.to_nat k + 2)) as [b |];
    destruct (nth_error data (Z.to_nat k + 3)) as [a |];
    try discriminate Hpix; simpl; try reflexivity; apply andb_false_r.
Qed.

Lemma short_mask_buffer_reads_false_witness :
  checkMask Scene.stale (1 / 2) (3 / 2) = false.
Proof.
  destruct (setMask_built Sample.maskDom
              (setContext PatternEngine.new [] 2 1)
              (ProcessedAsset.img Sample.leaf) eq_refl)
    as (canvas & _ & Hdata & _ & _).
  apply (short_mask_buffer_reads_false Scene.stale
           (getImageData Sample.maskDom canvas) 2 (1 / 2) (3 / 2)).
  - exact Hdata.
  - reflexivity.
  - simpl. lra.
  - simpl. lra.
  - rewrite (floor_unique (1 / 2) 0), (floor_unique (3 / 2) 1) by lra.
    reflexivity.
Defined.

(** ** The palette *)

Lemma includes_In (colors : list string) (c : string) :
  ColorPalette.includes colors c = true <-> In c colors.
Proof.
  unfold ColorPalette.includes. rewrite existsb_exists. split.
  - intros (c' & Hin & Heq). apply String.eqb_eq in Heq. subst c'. exact Hin.
  - intros Hin. exists c. split; [exact Hin | apply String.eqb_refl].
Qed.

(** X23. The palette never holds a colour twice: [addColor] appends a
    colour only when it is new and leaves the palette alone otherwise,
    [removeColor] takes the colour out and keeps the others in order, and
    removing a colour that was just added gives the palette back. *)
Theorem palette_stays_duplicate_free (colors : list string) (c : string) :
  NoDup colors ->
  NoDup (ColorPalette.addColor colors c)
  /\ In c (ColorPalette.addColor colors c)
  /\ (In c colors -> ColorPalette.addColor colors c = colors)
  /\ NoDup (ColorPalette.removeColor colors c)
  /\ ~ In c (ColorPalette.removeColor colors c)
  /\ (forall c', c' <> c ->
        (In c' (ColorPalette.removeColor colors c) <-> In c' colors))
  /\ (~ In c colors ->
      ColorPalette.removeColor (ColorPalette.addColor colors c) c = colors).
Proof.
  intros Hnd.
  assert (Hkeep : forall l, ~ In c l -> ColorPalette.removeColor l c = l).
  { intros l Hnin. unfold ColorPalette.removeColor. apply filter_all.
    intros a Ha. destruct (String.eqb_spec a c) as [-> | _];
      [contradiction | reflexivity]. }
  unfold ColorPalette.addColor.
  destruct (ColorPalette.includes colors c) eqn:Einc; simpl negb; cbv iota.
  - apply includes_In in Einc.
    split; [exact Hnd |]. split; [exact Einc |]. split; [reflexivity |].
    split; [apply NoDup_filter; exact Hnd |].
    split; [| split].
    + unfold ColorPalette.removeColor. intros Hin. apply filter_In in Hin.
      rewrite String.eqb_refl in Hin. destruct Hin as [_ Hf]. discriminate.
    + intros c' Hne. unfold ColorPalette.removeColor. rewrite filter_In.
      destruct (String.eqb_spec c' c); [contradiction | tauto].
    + intros Hnin. contradiction.
  - assert (Hnin : ~ In c colors).
    { intros Hin. apply includes_In in Hin. congruence. }
    split.
    { apply NoDup_app; [exact Hnd | repeat constructor; intros [] |].
      intros a Ha [<- | []]. contradiction. }
    split; [apply in_or_app; right; left; reflexivity |].
    split; [intros Hin; contradiction |].
    split; [apply NoDup_filter; exact Hnd |].
    split; [| split].
    + unfold ColorPalette.removeColor. intros Hin. apply filter_In in Hin.
      rewrite String.eqb_refl in Hin. destruct Hin as [_ Hf]. discriminate.
    + intros c' Hne. unfold ColorPalette.removeColor. rewrite filter_In.
      destruct (String.eqb_spec c' c); [contradiction | tauto].
    + intros _. unfold ColorPalette.removeColor. rewrite filter_app. simpl.
      rewrite String.eqb_refl. simpl. rewrite app_nil_r.
      apply Hkeep. exact Hnin.
Qed.

Lemma palette_stays_duplicate_free_witness :
  let colors := ["#000000"%string; "#ff0000"%string] in
  let c := "#00ff00"%string in
  NoDup (ColorPalette.addColor colors c)
  /\ In c (ColorPalette.addColor colors c)
  /\ (In c colors -> ColorPalette.addColor colors c = colors)
  /\ NoDup (ColorPalette.removeColor colors c)
  /\ ~ In c (ColorPalette.removeColor colors c)
  /\ (forall c', c' <> c ->
        (In c' (ColorPalette.removeColor colors c) <-> In c' colors))
  /\ (~ In c colors ->
      ColorPalette.removeColor (ColorPalette.addColor colors c) c = colors).
Proof.
  intros colors c.
  apply (palette_stays_duplicate_free colors c).
  constructor.
  - intros [H | []]. discriminate H.
  - constructor; [intros [] | constructor].
Defined.

(** ** The mask on a canvas that is not a whole number of pixels wide *)



(** ** A tinted surface that cannot be drawn *)

Lemma frame_balanced (e : PatternEngine.t) (cfg : PatternConfig.t) (time : R)
      (items : list LayoutItem.t) (rest : list CanvasOp) (d : nat) :
  saveDepth (flat_map (renderItem e cfg time) items ++ rest) d
  = saveDepth rest d.
Proof.
  induction items as [| it items IH]; [reflexivity |].
  simpl flat_map. rewrite <- app_assoc, renderItem_balanced. exact IH.
Qed.

Lemma renderItem_aborts (e : PatternEngine.t) (cfg : PatternConfig.t)
      (time : R) (item : LayoutItem.t) (canvas : HTMLCanvasElement)
      (rest : list CanvasOp) :
  LayoutItem.cachedCanvas item = Some canvas ->
  storedWidth canvas = 0%Z \/ storedHeight canvas = 0%Z ->
  exists tx ty rot,
    executed (renderItem e cfg time item ++ rest)
    = ([Save; Translate tx ty; Rotate rot], false).
Proof.
  intros Hcache Hzero.
  destruct (renderItem_shape e cfg time item) as (tx & ty & rot & ->).
  exists tx, ty, rot. unfold drawItem. rewrite Hcache. simpl.
  destruct Hzero as [-> | ->]; [reflexivity |].
  rewrite orb_true_r. reflexivity.
Qed.

(** X24. A tinted surface that holds a zero width or height stops
    [render].  The items before it are drawn in full; at the item itself
    the context is saved, translated and rotated, then [drawImage]
    throws: the commands that ran end there, the [save] of that item is
    never undone, and no later item is drawn. *)
Theorem zero_dimension_cache_aborts_render
        (e : PatternEngine.t) (before after : list LayoutItem.t)
        (bad : LayoutItem.t) (cfg : PatternConfig.t) (time : R)
        (c0 : CanvasRenderingContext2D) (canvas : HTMLCanvasElement) :
  ctx e = Some c0 ->
  cleanMask e ->
  Forall cleanCache before ->
  LayoutItem.cachedCanvas bad = Some canvas ->
  storedWidth canvas = 0%Z \/ storedHeight canvas = 0%Z ->
  exists commands tx ty rot,
    let done := background e cfg ++ flat_map (renderItem e cfg time) before
                ++ [Save; Translate tx ty; Rotate rot] in
    ctx (render e (before ++ bad :: after) cfg time) = Some (c0 ++ commands)
    /\ executed commands = (done, false)
    /\ forall d, saveDepth done d = Some (S d).
Proof.
  intros Hctx Hmask Hclean Hcache Hzero.
  destruct (renderItem_aborts e cfg time bad canvas
              (flat_map (renderItem e cfg time) after) Hcache Hzero)
    as (tx & ty & rot & Habort).
  exists (background e cfg
          ++ flat_map (renderItem e cfg time) (before ++ bad :: after)),
         tx, ty, rot.
  cbv zeta. split; [apply render_commands; exact Hctx |]. split.
  - rewrite flat_map_app. simpl flat_map.
    rewrite executed_clean by (apply background_clean; exact Hmask).
    rewrite executed_clean by (apply frame_clean; exact Hclean).
    rewrite Habort. reflexivity.
  - intros d. rewrite background_balanced, frame_balanced. reflexivity.
Qed.

Lemma thin_cache_has_no_height :
  exists canvas,
    LayoutItem.cachedCanvas Scene.thin = Some canvas
    /\ storedHeight canvas = 0%Z.
Proof.
  eexists. split; [reflexivity |]. simpl.
  rewrite (canvasDimension_floor (80 / 160)) by lra.
  rewrite (floor_unique (80 / 160) 0) by (simpl; lra).
  rewrite canvasDimension_floor by lra. apply floor_IZR.
Qed.

Lemma zero_dimension_cache_aborts_render_witness :
  exists commands tx ty rot,
    let done := background Sample.engine Sample.config
                ++ flat_map (renderItem Sample.engine Sample.config 0)
                            [Sample.itemOf Sample.leaf None]
                ++ [Save; Translate tx ty; Rotate rot] in
    ctx (render Sample.engine
                ([Sample.itemOf Sample.leaf None]
                 ++ Scene.thin :: [Sample.itemOf Sample.star None])
                Sample.config 0)
    = Some ([] ++ commands)
    /\ executed commands = (done, false)
    /\ forall d, saveDepth done d = Some (S d).
Proof.
  destruct thin_cache_has_no_height as (canvas & Hcache & Hzero).
  apply (zero_dimension_cache_aborts_render
           Sample.engine [Sample.itemOf Sample.leaf None]
           [Sample.itemOf Sample.star None] Scene.thin Sample.config 0 []
           canvas).
  - reflexivity.
  - exact I.
  - constructor; [exact I | constructor].
  - exact Hcache.
  - right. exact Hzero.
Defined.
